(** * ecomv0: cart, stock, order and payment pipeline

    A shallow embedding of the store backend's checkout path:

    - [models/Cart.js], [models/Product.js]: the persisted documents, the
      schema validators ([min]) and the cart's pre-save hook;
    - [controllers/cartController.js]: the cart handlers ([addToCart],
      [updateCartItem], [removeFromCart], [clearCart]);
    - the order controller ([createOrder], [updateOrderToPaid]);
    - the payment controller ([createPaymentIntent], [processPayment],
      [handleWebhook]).

    Every handler is an [async] function whose [await]s are single database or
    gateway calls.  A handler is embedded as a tree of such calls ([prog]); the
    code between two [await]s is ordinary Rocq code in the continuation.  The
    tree is run in two ways: to completion against a store ([run], one request
    at a time), and one call at a time under an arbitrary scheduler
    ([run_sched], many requests in flight). *)

From Stdlib Require Import ZArith QArith Qround Floats Lia.
From stdpp Require Import gmap strings list.

Local Open Scope Z_scope.

(** ** JavaScript numbers

    Prices are JavaScript Numbers.  The handlers use only [+], [*],
    [Math.round], ToBoolean (in [shipping?.price || 0]) and the literals [0],
    [0.07], [10] and [100].  They are written against this interface;
    quantities and stock counts are integer-valued and are kept in [Z]. *)

Class JSNumber := {
  num : Type;
  num_add : num -> num -> num;
  num_mul : num -> num -> num;
  num_of_Z : Z -> num;
  num_tax_rate : num;
  num_truthy : num -> bool;
  Math_round : num -> num;
}.

(** *** IEEE 754 binary64, as the engine computes *)

(** The integer [z] as a binary64 value (round to nearest even; exact below
    2^53). *)
Definition float_of_Z (z : Z) : float :=
  SF2Prim (binary_normalize prec emax z 0 false).

(** [Math.round]: the integer nearest to [x], ties towards +infinity;
    [NaN], the infinities and the zeros are returned unchanged, and a result
    of zero keeps the sign of [x]. *)
Definition float_round (x : float) : float :=
  match Prim2SF x with
  | S754_finite s m e =>
      if 0 <=? e then x
      else
        let two_v := if s then Z.neg m * 2 else Z.pos m * 2 in
        let den := 2 ^ (- e) in
        SF2Prim (binary_normalize prec emax ((two_v + den) / (2 * den)) 0 s)
  | _ => x
  end.

(** ToBoolean on a Number: false for [+0], [-0] and [NaN]. *)
Definition float_truthy (x : float) : bool :=
  negb (PrimFloat.is_zero x || PrimFloat.is_nan x).

Definition Binary64 : JSNumber := {|
  num := float;
  num_add := PrimFloat.add;
  num_mul := PrimFloat.mul;
  num_of_Z := float_of_Z;
  num_tax_rate := 0x1.1eb851eb851ecp-4%float;
  num_truthy := float_truthy;
  Math_round := float_round;
|}.

(** *** Exact decimal arithmetic

    The same operations on rationals kept in lowest terms, so that equal
    amounts are equal terms.  This is the arithmetic the specification's
    worked figures (3.50, 58.50) are written in. *)

Definition Exact : JSNumber := {|
  num := Q;
  num_add := fun a b => Qred (a + b);
  num_mul := fun a b => Qred (a * b);
  num_of_Z := inject_Z;
  num_tax_rate := (7 # 100)%Q;
  num_truthy := fun a => negb (Qnum a =? 0);
  Math_round := fun a => inject_Z (Qfloor (a + (1 # 2)));
|}.

(** ** Documents *)

(** An ObjectId.  Gateway identifiers are opaque in the same way. *)
Abbreviation oid := nat (only parsing).

(** ** What a request carries *)

(** An id as a request carries it: a string.  Mongoose casts it to an
    ObjectId where a query or a document path expects one, and the cast
    accepts more strings than [toString] gives back.  A string is the 24 hex
    digits of an id in lower case, which is what [id.toString()] returns; or
    the same id spelled otherwise (in upper-case hex, say); or no id at all,
    and then the cast throws. *)
Inductive IdString :=
| toString (id : oid)
| respelled (id : oid)
| no_id.

#[global] Instance IdString_eq_dec : EqDecision IdString.
Proof. solve_decision. Defined.

(** Mongoose's cast of a string to an ObjectId. *)
Definition castObjectId (s : IdString) : option oid :=
  match s with
  | toString id | respelled id => Some id
  | no_id => None
  end.

Inductive digit := d0 | d1 | d2 | d3 | d4 | d5 | d6 | d7 | d8 | d9.

Definition digit_value (d : digit) : Z :=
  match d with
  | d0 => 0 | d1 => 1 | d2 => 2 | d3 => 3 | d4 => 4
  | d5 => 5 | d6 => 6 | d7 => 7 | d8 => 8 | d9 => 9
  end.

(** A quantity as a request carries it: a number, or a string of decimal
    digits, which is not empty. *)
Inductive QuantityParam :=
| Number (q : Z)
| Numeral (first : digit) (rest : list digit).

(** The number that a comparison with a number, and Mongoose's cast to a
    [Number] path, make of the quantity. *)
Definition ToNumber (quantity : QuantityParam) : Z :=
  match quantity with
  | Number q => q
  | Numeral first rest => fold_left (fun n d => 10 * n + digit_value d) (first :: rest) 0
  end.

(** [n += quantity] on a [Number] path that holds [n]: numbers add; a string
    is appended to the digits of [n], and the path's cast reads the digits
    back as a number. *)
Definition add_assign (n : Z) (quantity : QuantityParam) : Z :=
  match quantity with
  | Number q => n + q
  | Numeral first rest =>
      fold_left (fun m d => 10 * m + (if n <? 0 then - digit_value d else digit_value d))
        (first :: rest) n
  end.

Section Store.
Context {JSN : JSNumber}.

(** [models/Product.js]; only the fields this pipeline reads.  [p_images]
    holds the [url] of each image. *)
Record Product := mkProduct {
  p_id : oid;
  p_name : string;
  p_price : num;
  p_stock : Z;
  p_images : list string;
}.

(** [models/Cart.js], [cartItemSchema] and [cartSchema]. *)
Record CartItem := mkCartItem {
  ci_id : oid;
  ci_product : oid;
  ci_quantity : Z;
  ci_price : num;
}.

Record Cart := mkCart {
  c_id : oid;
  c_user : oid;
  c_items : list CartItem;
  c_totalPrice : num;
}.

(** A line of an order, as [processPayment] builds it and as the body of a
    [createOrder] or [createPaymentIntent] request carries it ([oi_name],
    [oi_price] and [oi_image] are then whatever the client sent). *)
Record OrderItem := mkOrderItem {
  oi_product : oid;
  oi_name : string;
  oi_quantity : Z;
  oi_price : num;
  oi_image : string;
}.

(** [update_time] is [Date.now()] in [processPayment] and a client field in
    [updateOrderToPaid]. *)
Inductive stamp :=
| Millis (t : Z)
| Text (s : string).

Record PaymentResult := mkPaymentResult {
  pr_id : oid;
  pr_status : string;
  pr_update_time : stamp;
  pr_email_address : string;
}.

(** Modelled from the spec: [models/Order.js] is not among the sources.  The
    fields are those of the specification's data model (section 3) and those
    the controllers write; [isPaid] and [isDelivered] default to false and
    [status] to pending, and the schema recomputes nothing on save. *)
Record Order := mkOrder {
  o_id : oid;
  o_user : oid;
  o_orderItems : list OrderItem;
  o_shippingAddress : string;
  o_paymentMethod : string;
  o_paymentResult : option PaymentResult;
  o_itemsPrice : num;
  o_taxPrice : num;
  o_shippingPrice : num;
  o_totalPrice : num;
  o_isPaid : bool;
  o_paidAt : option Z;
  o_isDelivered : bool;
  o_deliveredAt : option Z;
  o_status : string;
}.

(** The gateway's payment intent, with the parameters
    [stripe.paymentIntents.create] is given. *)
Record PaymentIntent := mkPaymentIntent {
  pi_id : oid;
  pi_client_secret : oid;
  pi_amount : num;
  pi_currency : string;
  pi_payment_method_type : string;
  pi_status : string;
  pi_userId : oid;
  pi_orderId : Z;
}.

(** The persisted collections, the gateway's intents, the ObjectId supply and
    the clock. *)
Record World := mkWorld {
  products : gmap nat Product;
  carts : list Cart;
  orders : list Order;
  intents : list PaymentIntent;
  next_oid : nat;
  clock : Z;
}.

Definition set_stock (p : Product) (v : Z) : Product :=
  mkProduct (p_id p) (p_name p) (p_price p) v (p_images p).

Definition set_quantity (i : CartItem) (q : Z) : CartItem :=
  mkCartItem (ci_id i) (ci_product i) q (ci_price i).

Definition set_items (c : Cart) (items : list CartItem) : Cart :=
  mkCart (c_id c) (c_user c) items (c_totalPrice c).

Definition set_totalPrice (c : Cart) (t : num) : Cart :=
  mkCart (c_id c) (c_user c) (c_items c) t.

Definition set_status (i : PaymentIntent) (st : string) : PaymentIntent :=
  mkPaymentIntent (pi_id i) (pi_client_secret i) (pi_amount i) (pi_currency i)
    (pi_payment_method_type i) st (pi_userId i) (pi_orderId i).

Definition with_products (w : World) (ps : gmap nat Product) : World :=
  mkWorld ps (carts w) (orders w) (intents w) (next_oid w) (clock w).

Definition with_carts (w : World) (cs : list Cart) : World :=
  mkWorld (products w) cs (orders w) (intents w) (next_oid w) (clock w).

Definition with_orders (w : World) (os : list Order) : World :=
  mkWorld (products w) (carts w) os (intents w) (next_oid w) (clock w).

Definition with_intents (w : World) (pis : list PaymentIntent) : World :=
  mkWorld (products w) (carts w) (orders w) pis (next_oid w) (clock w).

Definition with_next_oid (w : World) (n : nat) : World :=
  mkWorld (products w) (carts w) (orders w) (intents w) n (clock w).

Definition with_clock (w : World) (t : Z) : World :=
  mkWorld (products w) (carts w) (orders w) (intents w) (next_oid w) t.

(** ** Errors and responses *)

(** The message templates of the controllers' [ErrorResponse]s. *)
Inductive message :=
| Product_not_found_with_id_of (productId : IdString)
| Product_has_insufficient_stock_Available (stock : Z)
| Cannot_add_more_than_available_stock (stock : Z)
| Cart_not_found
| Item_not_found_in_cart
| Product_not_found
| No_order_items
| Product_not_found_with_id (productId : oid)
| Product_is_out_of_stock (name : string)
| Order_not_found_with_id_of (orderId : oid)
| Payment_not_successful
| No_items_in_cart.

(** What reaches [next(error)]: an [ErrorResponse] built by the handler, or an
    exception thrown by an awaited call or by the handler's own code and
    caught by its [try]/[catch]. *)
Inductive error :=
| ErrorResponse (m : message) (statusCode : nat)
| ValidationError (m : string)
| DocumentNotFoundError
| TypeError
| CastError
| StripeError.

Inductive payload :=
| CartData (c : option Cart) (populated : list (option Product))
| OrderData (o : Order)
| IntentData (clientSecret : oid) (amount : num) (id : oid)
| Received.

Inductive Response :=
| res_json (status : nat) (data : payload)
| res_send (status : nat) (text : string)
| next (e : error).

(** ** The awaited calls *)

Inductive saved (A : Type) :=
| Saved (doc : A)
| Rejected (e : error).
Arguments Saved {A} doc.
Arguments Rejected {A} e.

(** A handler: a tree whose nodes are the calls it makes and whose leaves are
    its responses.  [Date_now] and [ObjectId_new] are not awaited in the
    source; they are nodes because they read the environment. *)
Inductive prog (R : Type) : Type :=
| Ret (r : R)
| Date_now (k : Z -> prog R)
| ObjectId_new (k : oid -> prog R)
| Product_findById (id : oid) (k : option Product -> prog R)
| Product_save (p : Product) (k : saved Product -> prog R)
| Product_populate (ids : list oid) (k : list (option Product) -> prog R)
| Cart_findOne (user : oid) (k : option Cart -> prog R)
| Cart_findById (id : oid) (k : option Cart -> prog R)
| Cart_create (user : oid) (k : Cart -> prog R)
| Cart_save (c : Cart) (k : saved Cart -> prog R)
| Cart_findByIdAndDelete (id : oid) (k : unit -> prog R)
| Order_create (o : Order) (k : Order -> prog R)
| Order_findById (id : oid) (k : option Order -> prog R)
| Order_save (o : Order) (k : saved Order -> prog R)
| Stripe_create (amount : num) (currency method : string) (userId : oid)
    (orderId : Z) (k : PaymentIntent -> prog R)
| Stripe_retrieve (id : oid) (k : option PaymentIntent -> prog R).

Arguments Ret {R} r.
Arguments Date_now {R} k.
Arguments ObjectId_new {R} k.
Arguments Product_findById {R} id k.
Arguments Product_save {R} p k.
Arguments Product_populate {R} ids k.
Arguments Cart_findOne {R} user k.
Arguments Cart_findById {R} id k.
Arguments Cart_create {R} user k.
Arguments Cart_save {R} c k.
Arguments Cart_findByIdAndDelete {R} id k.
Arguments Order_create {R} o k.
Arguments Order_findById {R} id k.
Arguments Order_save {R} o k.
Arguments Stripe_create {R} amount currency method userId orderId k.
Arguments Stripe_retrieve {R} id k.

(** *** What each call does to the world *)

(** [product.save()] after [product.stock -= n]: the schema's
    [min: [0, "Stock cannot be negative"]] validator runs first; then the
    modified path, [stock], is written to the stored document. *)
Definition product_save (p : Product) (w : World) : saved Product * World :=
  if p_stock p <? 0 then (Rejected (ValidationError "Stock cannot be negative"), w)
  else match products w !! p_id p with
       | None => (Rejected DocumentNotFoundError, w)
       | Some stored =>
           (Saved p, with_products w (<[p_id p := set_stock stored (p_stock p)]> (products w)))
       end.

(** The pre-save hook of [cartSchema]:
    [items.reduce((total, item) => total + item.price * item.quantity, 0)]. *)
Definition cart_total (items : list CartItem) : num :=
  fold_left (fun total item => num_add total (num_mul (ci_price item) (num_of_Z (ci_quantity item))))
    items (num_of_Z 0).

Definition pre_save (c : Cart) : Cart := set_totalPrice c (cart_total (c_items c)).

(** [quantity: min: [1, "Quantity cannot be less than 1"]]. *)
Definition items_valid (items : list CartItem) : bool :=
  forallb (fun item => 1 <=? ci_quantity item) items.

Definition replace_cart (c : Cart) (cs : list Cart) : list Cart :=
  map (fun d => if decide (c_id d = c_id c) then c else d) cs.

(** [cart.save()]: hook, validation, then the stored document with the same
    [_id] is replaced.  Validation is taken over every item of the cart, and
    the write over the whole document. *)
Definition cart_save (c : Cart) (w : World) : saved Cart * World :=
  let c' := pre_save c in
  if negb (items_valid (c_items c')) then
    (Rejected (ValidationError "Quantity cannot be less than 1"), w)
  else match list_find (fun d => c_id d = c_id c) (carts w) with
       | None => (Rejected DocumentNotFoundError, w)
       | Some _ => (Saved c', with_carts w (replace_cart c' (carts w)))
       end.

(** [Cart.create({ user, items: [] })]: a fresh [_id]; the hook runs on the
    first save as on any other. *)
Definition cart_create (user : oid) (w : World) : Cart * World :=
  let c := pre_save (mkCart (next_oid w) user [] (num_of_Z 0)) in
  (c, with_next_oid (with_carts w (carts w ++ [c])) (S (next_oid w))).

Definition cart_findOne (user : oid) (w : World) : option Cart :=
  snd <$> list_find (fun c => c_user c = user) (carts w).

Definition cart_findById (id : oid) (w : World) : option Cart :=
  snd <$> list_find (fun c => c_id c = id) (carts w).

Definition cart_delete (id : oid) (w : World) : World :=
  with_carts w (filter (fun c => c_id c <> id) (carts w)).

(** Modelled from the spec: [Order.create] of the absent [models/Order.js]
    stores the document it is given under a fresh [_id]. *)
Definition order_create (o : Order) (w : World) : Order * World :=
  let o' := mkOrder (next_oid w) (o_user o) (o_orderItems o) (o_shippingAddress o)
              (o_paymentMethod o) (o_paymentResult o) (o_itemsPrice o) (o_taxPrice o)
              (o_shippingPrice o) (o_totalPrice o) (o_isPaid o) (o_paidAt o)
              (o_isDelivered o) (o_deliveredAt o) (o_status o) in
  (o', with_next_oid (with_orders w (orders w ++ [o'])) (S (next_oid w))).

Definition order_findById (id : oid) (w : World) : option Order :=
  snd <$> list_find (fun o => o_id o = id) (orders w).

Definition replace_order (o : Order) (os : list Order) : list Order :=
  map (fun d => if decide (o_id d = o_id o) then o else d) os.

(** Modelled from the spec: [order.save()] of the absent [models/Order.js]
    replaces the stored document with the same [_id]. *)
Definition order_save (o : Order) (w : World) : saved Order * World :=
  match order_findById (o_id o) w with
  | None => (Rejected DocumentNotFoundError, w)
  | Some _ => (Saved o, with_orders w (replace_order o (orders w)))
  end.

(** The gateway registers the intent and names it; a new intent awaits its
    payment method. *)
Definition stripe_create (amount : num) (currency method : string) (userId : oid)
    (orderId : Z) (w : World) : PaymentIntent * World :=
  let i := mkPaymentIntent (length (intents w)) (length (intents w)) amount currency method
             "requires_payment_method" userId orderId in
  (i, with_intents w (intents w ++ [i])).

Definition stripe_retrieve (id : oid) (w : World) : option PaymentIntent :=
  snd <$> list_find (fun i => pi_id i = id) (intents w).

(** One node of a handler, performed on the world. *)
Definition step1 {R} (p : prog R) (w : World) : prog R * World :=
  match p with
  | Ret r => (Ret r, w)
  | Date_now k => (k (clock w), w)
  | ObjectId_new k => (k (next_oid w), with_next_oid w (S (next_oid w)))
  | Product_findById id k => (k (products w !! id), w)
  | Product_save p k => let '(r, w') := product_save p w in (k r, w')
  | Product_populate ids k => (k (map (fun id => products w !! id) ids), w)
  | Cart_findOne user k => (k (cart_findOne user w), w)
  | Cart_findById id k => (k (cart_findById id w), w)
  | Cart_create user k => let '(c, w') := cart_create user w in (k c, w')
  | Cart_save c k => let '(r, w') := cart_save c w in (k r, w')
  | Cart_findByIdAndDelete id k => (k tt, cart_delete id w)
  | Order_create o k => let '(o', w') := order_create o w in (k o', w')
  | Order_findById id k => (k (order_findById id w), w)
  | Order_save o k => let '(r, w') := order_save o w in (k r, w')
  | Stripe_create a c m u o k => let '(i, w') := stripe_create a c m u o w in (k i, w')
  | Stripe_retrieve id k => (k (stripe_retrieve id w), w)
  end.

(** A handler run to its response with no other request in flight. *)
Fixpoint run {R} (p : prog R) (w : World) : R * World :=
  match p with
  | Ret r => (r, w)
  | Date_now k => run (k (clock w)) w
  | ObjectId_new k => run (k (next_oid w)) (with_next_oid w (S (next_oid w)))
  | Product_findById id k => run (k (products w !! id)) w
  | Product_save p k => let '(r, w') := product_save p w in run (k r) w'
  | Product_populate ids k => run (k (map (fun id => products w !! id) ids)) w
  | Cart_findOne user k => run (k (cart_findOne user w)) w
  | Cart_findById id k => run (k (cart_findById id w)) w
  | Cart_create user k => let '(c, w') := cart_create user w in run (k c) w'
  | Cart_save c k => let '(r, w') := cart_save c w in run (k r) w'
  | Cart_findByIdAndDelete id k => run (k tt) (cart_delete id w)
  | Order_create o k => let '(o', w') := order_create o w in run (k o') w'
  | Order_findById id k => run (k (order_findById id w)) w
  | Order_save o k => let '(r, w') := order_save o w in run (k r) w'
  | Stripe_create a c m u o k => let '(i, w') := stripe_create a c m u o w in run (k i) w'
  | Stripe_retrieve id k => run (k (stripe_retrieve id w)) w
  end.

(** Requests in flight: the scheduler names, step after step, the handler
    whose pending call completes next.  A handler can be overtaken at each of
    its nodes, the two that are not awaited included: there are at least the
    interleavings of the event loop. *)
Fixpoint run_sched (sched : list nat) (pool : list (prog Response)) (w : World)
  : list (prog Response) * World :=
  match sched with
  | [] => (pool, w)
  | i :: sched' =>
      match pool !! i with
      | None => run_sched sched' pool w
      | Some p => let '(p', w') := step1 p w in run_sched sched' (<[i := p']> pool) w'
      end
  end.

End Store.

Arguments Saved {A} doc.
Arguments Rejected {A} e.
Arguments Ret {JSN R} r.
Arguments Date_now {JSN R} k.
Arguments ObjectId_new {JSN R} k.
Arguments Product_findById {JSN R} id k.
Arguments Product_save {JSN R} p k.
Arguments Product_populate {JSN R} ids k.
Arguments Cart_findOne {JSN R} user k.
Arguments Cart_findById {JSN R} id k.
Arguments Cart_create {JSN R} user k.
Arguments Cart_save {JSN R} c k.
Arguments Cart_findByIdAndDelete {JSN R} id k.
Arguments Order_create {JSN R} o k.
Arguments Order_findById {JSN R} id k.
Arguments Order_save {JSN R} o k.
Arguments Stripe_create {JSN R} amount currency method userId orderId k.
Arguments Stripe_retrieve {JSN R} id k.

(** ** The handlers *)

Section Handlers.
Context {JSN : JSNumber}.

(** [product.images[0]?.url || ""]. *)
Definition first_image (p : Product) : string :=
  match p_images p with
  | [] => ""
  | url :: _ => url
  end.

(** *** [controllers/cartController.js] *)

(** The tail of the three mutating cart handlers:
    [cart = await Cart.findById(cart._id).populate(...)], then the 200. *)
Definition respond_with_cart (cartId : oid) : prog Response :=
  Cart_findById cartId (fun found =>
  match found with
  | None => Ret (res_json 200 (CartData None []))
  | Some cart =>
      Product_populate (map ci_product (c_items cart)) (fun populated =>
      Ret (res_json 200 (CartData (Some cart) populated)))
  end).

Definition save_and_respond (cart : Cart) : prog Response :=
  Cart_save cart (fun r =>
  match r with
  | Rejected e => Ret (next e)
  | Saved _ => respond_with_cart (c_id cart)
  end).

Definition getCart (user : oid) : prog Response :=
  Cart_findOne user (fun found =>
  match found with
  | Some cart =>
      Product_populate (map ci_product (c_items cart)) (fun populated =>
      Ret (res_json 200 (CartData (Some cart) populated)))
  | None =>
      Cart_create user (fun cart => Ret (res_json 200 (CartData (Some cart) [])))
  end).

(** [addToCart], after the cart has been found or created.  [product_id] is
    the ObjectId that [productId] casts to, under which the product was
    found: [findIndex] compares the string [productId] with each line's
    [item.product.toString()], while the pushed line's [product] path casts
    it. *)
Definition addToCart_in (cart : Cart) (product : Product) (productId : IdString)
    (product_id : oid) (quantity : QuantityParam) : prog Response :=
  match list_find (fun item => toString (ci_product item) = productId) (c_items cart) with
  | Some (itemIndex, item) =>
      let item' := set_quantity item (add_assign (ci_quantity item) quantity) in
      if p_stock product <? ci_quantity item' then
        Ret (next (ErrorResponse (Cannot_add_more_than_available_stock (p_stock product)) 400))
      else save_and_respond (set_items cart (<[itemIndex := item']> (c_items cart)))
  | None =>
      ObjectId_new (fun id =>
      save_and_respond
        (set_items cart
           (c_items cart
            ++ [mkCartItem id product_id (ToNumber quantity) (p_price product)])))
  end.

Definition addToCart (user : oid) (productId : IdString) (quantity : QuantityParam)
  : prog Response :=
  match castObjectId productId with
  | None => Ret (next CastError)
  | Some product_id =>
      Product_findById product_id (fun found =>
      match found with
      | None => Ret (next (ErrorResponse (Product_not_found_with_id_of productId) 404))
      | Some product =>
          if p_stock product <? ToNumber quantity then
            Ret (next (ErrorResponse
                         (Product_has_insufficient_stock_Available (p_stock product)) 400))
          else
            Cart_findOne user (fun found =>
            match found with
            | None =>
                Cart_create user (fun cart =>
                addToCart_in cart product productId product_id quantity)
            | Some cart => addToCart_in cart product productId product_id quantity
            end)
      end)
  end.

Definition updateCartItem (user : oid) (itemId : oid) (quantity : Z) : prog Response :=
  Cart_findOne user (fun found =>
  match found with
  | None => Ret (next (ErrorResponse Cart_not_found 404))
  | Some cart =>
      match list_find (fun item => ci_id item = itemId) (c_items cart) with
      | None => Ret (next (ErrorResponse Item_not_found_in_cart 404))
      | Some (itemIndex, item) =>
          Product_findById (ci_product item) (fun found =>
          match found with
          | None => Ret (next (ErrorResponse Product_not_found 404))
          | Some product =>
              if p_stock product <? quantity then
                Ret (next (ErrorResponse
                             (Cannot_add_more_than_available_stock (p_stock product)) 400))
              else if quantity <=? 0 then
                save_and_respond (set_items cart (delete itemIndex (c_items cart)))
              else
                save_and_respond
                  (set_items cart (<[itemIndex := set_quantity item quantity]> (c_items cart)))
          end)
      end
  end).

Definition removeFromCart (user : oid) (itemId : oid) : prog Response :=
  Cart_findOne user (fun found =>
  match found with
  | None => Ret (next (ErrorResponse Cart_not_found 404))
  | Some cart =>
      match list_find (fun item => ci_id item = itemId) (c_items cart) with
      | None => Ret (next (ErrorResponse Item_not_found_in_cart 404))
      | Some (itemIndex, _) =>
          save_and_respond (set_items cart (delete itemIndex (c_items cart)))
      end
  end).

Definition clearCart (user : oid) : prog Response :=
  Cart_findOne user (fun found =>
  match found with
  | None => Ret (next (ErrorResponse Cart_not_found 404))
  | Some cart =>
      Cart_save (set_items cart []) (fun r =>
      match r with
      | Rejected e => Ret (next e)
      | Saved cart' => Ret (res_json 200 (CartData (Some cart') []))
      end)
  end).

(** *** The order controller *)

(** The first loop of [createOrder]: every product exists and has the stock
    for its own line. *)
Fixpoint verify_items (items : list OrderItem) (k : prog Response) : prog Response :=
  match items with
  | [] => k
  | item :: rest =>
      Product_findById (oi_product item) (fun found =>
      match found with
      | None => Ret (next (ErrorResponse (Product_not_found_with_id (oi_product item)) 404))
      | Some product =>
          if p_stock product <? oi_quantity item then
            Ret (next (ErrorResponse (Product_is_out_of_stock (p_name product)) 400))
          else verify_items rest k
      end)
  end.

(** The stock loop of [createOrder] and of [processPayment], over the
    (product, quantity) of each line:
    [product = await Product.findById(..); product.stock -= quantity;
     await product.save()]. *)
Fixpoint decrement_stock (lines : list (oid * Z)) (k : prog Response) : prog Response :=
  match lines with
  | [] => k
  | (productId, quantity) :: rest =>
      Product_findById productId (fun found =>
      match found with
      | None => Ret (next TypeError)
      | Some product =>
          Product_save (set_stock product (p_stock product - quantity)) (fun r =>
          match r with
          | Rejected e => Ret (next e)
          | Saved _ => decrement_stock rest k
          end)
      end)
  end.

(** The body of a [POST /api/orders] request. *)
Record OrderBody := mkOrderBody {
  b_orderItems : list OrderItem;
  b_shippingAddress : string;
  b_paymentMethod : string;
  b_itemsPrice : num;
  b_taxPrice : num;
  b_shippingPrice : num;
  b_totalPrice : num;
}.

Definition createOrder (user : oid) (body : OrderBody) : prog Response :=
  match b_orderItems body with
  | [] => Ret (next (ErrorResponse No_order_items 400))
  | _ :: _ =>
      verify_items (b_orderItems body)
        (Order_create
           (mkOrder 0%nat user (b_orderItems body) (b_shippingAddress body)
              (b_paymentMethod body) None (b_itemsPrice body) (b_taxPrice body)
              (b_shippingPrice body) (b_totalPrice body) false None false None "pending")
           (fun order =>
            decrement_stock (map (fun item => (oi_product item, oi_quantity item))
                               (b_orderItems body))
              (Ret (res_json 201 (OrderData order)))))
  end.

Definition mark_paid (order : Order) (now : Z) (body : PaymentResult) : Order :=
  mkOrder (o_id order) (o_user order) (o_orderItems order) (o_shippingAddress order)
    (o_paymentMethod order) (Some body) (o_itemsPrice order) (o_taxPrice order)
    (o_shippingPrice order) (o_totalPrice order) true (Some now)
    (o_isDelivered order) (o_deliveredAt order) (o_status order).

Definition updateOrderToPaid (orderId : oid) (body : PaymentResult) : prog Response :=
  Order_findById orderId (fun found =>
  match found with
  | None => Ret (next (ErrorResponse (Order_not_found_with_id_of orderId) 404))
  | Some order =>
      Date_now (fun now =>
      Order_save (mark_paid order now body) (fun r =>
      match r with
      | Rejected e => Ret (next e)
      | Saved updatedOrder => Ret (res_json 200 (OrderData updatedOrder))
      end))
  end).

(** *** The payment controller *)

(** The loop of [createPaymentIntent]; [totalAmount] is the running sum. *)
Fixpoint price_items (items : list OrderItem) (totalAmount : num)
    (k : num -> prog Response) : prog Response :=
  match items with
  | [] => k totalAmount
  | item :: rest =>
      Product_findById (oi_product item) (fun found =>
      match found with
      | None => Ret (next (ErrorResponse (Product_not_found_with_id (oi_product item)) 404))
      | Some product =>
          if p_stock product <? oi_quantity item then
            Ret (next (ErrorResponse (Product_is_out_of_stock (p_name product)) 400))
          else
            price_items rest
              (num_add totalAmount (num_mul (p_price product) (num_of_Z (oi_quantity item))))
              k
      end)
  end.

(** "Calculate tax and shipping": the four locals that follow the loop.
    [shipping] is [shipping?.price], absent when either is. *)
Record Quote := mkQuote {
  q_totalAmount : num;
  q_taxAmount : num;
  q_shippingAmount : num;
  q_finalAmount : num;
}.

Definition quote (totalAmount : num) (shipping : option num) : Quote :=
  let taxRate := num_tax_rate in
  let taxAmount := num_mul totalAmount taxRate in
  let shippingAmount :=
    match shipping with
    | Some price => if num_truthy price then price else num_of_Z 0
    | None => num_of_Z 0
    end in
  let finalAmount :=
    Math_round (num_mul (num_add (num_add totalAmount taxAmount) shippingAmount)
                  (num_of_Z 100)) in
  mkQuote totalAmount taxAmount shippingAmount finalAmount.

(** The sum [createPaymentIntent] rounds: items, tax and shipping. *)
Definition q_total (q : Quote) : num :=
  num_add (num_add (q_totalAmount q) (q_taxAmount q)) (q_shippingAmount q).

(** The gateway call for a quote, and the 200 that reports it. *)
Definition charge (user : oid) (q : Quote) (paymentMethodType : option string)
  : prog Response :=
  Date_now (fun now =>
  Stripe_create (q_finalAmount q) "usd"
    (match paymentMethodType with
     | Some t => if String.eqb t "" then "card" else t
     | None => "card"
     end)
    user now (fun paymentIntent =>
  Ret (res_json 200
         (IntentData (pi_client_secret paymentIntent) (q_finalAmount q)
            (pi_id paymentIntent))))).

Definition createPaymentIntent (user : oid) (items : list OrderItem) (shipping : option num)
    (paymentMethodType : option string) : prog Response :=
  price_items items (num_of_Z 0) (fun totalAmount =>
  charge user (quote totalAmount shipping) paymentMethodType).

(** [cart.items.map(item => ({ product: item.product._id, ... }))] over the
    populated cart; reading [_id] of a product that is gone throws. *)
Fixpoint order_items_of (items : list CartItem) (populated : list (option Product))
  : option (list OrderItem) :=
  match items, populated with
  | [], _ => Some []
  | item :: items', Some product :: populated' =>
      cons (mkOrderItem (p_id product) (p_name product) (ci_quantity item) (ci_price item)
              (first_image product))
        <$> order_items_of items' populated'
  | _ :: _, _ => None
  end.

Definition processPayment (user : oid) (email : string) (paymentIntentId : oid)
    (shippingAddress : string) : prog Response :=
  Stripe_retrieve paymentIntentId (fun retrieved =>
  match retrieved with
  | None => Ret (next StripeError)
  | Some paymentIntent =>
      if negb (String.eqb (pi_status paymentIntent) "succeeded") then
        Ret (next (ErrorResponse Payment_not_successful 400))
      else
        Cart_findOne user (fun found =>
        match found with
        | None => Ret (next (ErrorResponse No_items_in_cart 400))
        | Some cart =>
            Product_populate (map ci_product (c_items cart)) (fun populated =>
            match c_items cart with
            | [] => Ret (next (ErrorResponse No_items_in_cart 400))
            | _ :: _ =>
                match order_items_of (c_items cart) populated with
                | None => Ret (next TypeError)
                | Some orderItems =>
                    let itemsPrice := c_totalPrice cart in
                    let taxPrice := num_mul itemsPrice num_tax_rate in
                    let shippingPrice := num_of_Z 10 in
                    let totalPrice := num_add (num_add itemsPrice taxPrice) shippingPrice in
                    Date_now (fun update_time =>
                    Date_now (fun paidAt =>
                    Order_create
                      (mkOrder 0%nat user orderItems shippingAddress "stripe"
                         (Some (mkPaymentResult paymentIntentId (pi_status paymentIntent)
                                  (Millis update_time) email))
                         itemsPrice taxPrice shippingPrice totalPrice
                         true (Some paidAt) false None "pending")
                      (fun order =>
                       decrement_stock
                         (map (fun item => (ci_product item, ci_quantity item)) (c_items cart))
                         (Cart_findByIdAndDelete (c_id cart) (fun _ =>
                          Ret (res_json 201 (OrderData order)))))))
                end
            end)
        end)
  end).

(** What [stripe.webhooks.constructEvent] made of the raw body, the signature
    header and the secret: it throws with a message, or returns the event. *)
Record Event := mkEvent {
  ev_type : string;
  ev_object : oid;
}.

(** The [switch] on [event.type] only writes to the console, which is not
    modelled; every verified event is acknowledged. *)
Definition handleWebhook (constructed : string + Event) : prog Response :=
  match constructed with
  | inl err_message => Ret (res_send 400 ("Webhook Error: " ++ err_message))
  | inr event =>
      if String.eqb (ev_type event) "payment_intent.succeeded" then
        Ret (res_json 200 Received)
      else if String.eqb (ev_type event) "payment_intent.payment_failed" then
        Ret (res_json 200 Received)
      else Ret (res_json 200 Received)
  end.

(** *** Requests *)

Inductive request :=
| GET_cart (user : oid)
| POST_cart (user : oid) (productId : IdString) (quantity : QuantityParam)
| PUT_cart_item (user : oid) (itemId : oid) (quantity : Z)
| DELETE_cart_item (user : oid) (itemId : oid)
| DELETE_cart (user : oid)
| POST_orders (user : oid) (body : OrderBody)
| PUT_orders_pay (orderId : oid) (body : PaymentResult)
| POST_payment_create_payment_intent (user : oid) (items : list OrderItem)
    (shipping : option num) (paymentMethodType : option string)
| POST_payment_process_payment (user : oid) (email : string) (paymentIntentId : oid)
    (shippingAddress : string)
| POST_payment_webhook (constructed : string + Event).

Definition handle (r : request) : prog Response :=
  match r with
  | GET_cart user => getCart user
  | POST_cart user productId quantity => addToCart user productId quantity
  | PUT_cart_item user itemId quantity => updateCartItem user itemId quantity
  | DELETE_cart_item user itemId => removeFromCart user itemId
  | DELETE_cart user => clearCart user
  | POST_orders user body => createOrder user body
  | PUT_orders_pay orderId body => updateOrderToPaid orderId body
  | POST_payment_create_payment_intent user items shipping method =>
      createPaymentIntent user items shipping method
  | POST_payment_process_payment user email id address =>
      processPayment user email id address
  | POST_payment_webhook constructed => handleWebhook constructed
  end.

(** Requests served one after the other, each to completion. *)
Fixpoint serve (rs : list request) (w : World) : list Response * World :=
  match rs with
  | [] => ([], w)
  | r :: rs' =>
      let '(res, w') := run (handle r) w in
      let '(ress, w'') := serve rs' w' in
      (res :: ress, w'')
  end.

(** *** The environment *)

(** The customer completes the payment at the gateway. *)
Definition gateway_succeeds (id : oid) (w : World) : World :=
  with_intents w
    (map (fun i => if decide (pi_id i = id) then set_status i "succeeded" else i) (intents w)).

(** Time passes. *)
Definition tick (dt : Z) (w : World) : World := with_clock w (clock w + dt).

End Handlers.

(** ** What the claims speak of *)

Section Predicates.
Context {JSN : JSNumber}.

(** Every stored product has a stock that is not negative. *)
Definition stock_nonneg (w : World) : Prop :=
  map_Forall (fun _ p => 0 <= p_stock p) (products w).

(** Every stored cart's total is the hook's sum over its items. *)
Definition carts_consistent (w : World) : Prop :=
  Forall (fun c => c_totalPrice c = cart_total (c_items c)) (carts w).

(** A property of the world that no single call can break. *)
Definition stable (P : World -> Prop) : Prop :=
  forall R (p : prog R) w, P w -> P (snd (step1 p w)).

(** The four handlers that mutate a cart. *)
Definition cart_mutation (r : request) : Prop :=
  match r with
  | POST_cart _ _ _ | PUT_cart_item _ _ _ | DELETE_cart_item _ _ | DELETE_cart _ => True
  | _ => False
  end.

(** The quantity of a product that a user's stored cart already holds. *)
Definition quantity_in_cart (w : World) (user productId : oid) : Z :=
  match cart_findOne user w with
  | None => 0
  | Some cart =>
      match list_find (fun item => ci_product item = productId) (c_items cart) with
      | Some (_, item) => ci_quantity item
      | None => 0
      end
  end.

(** The two 400s by which [addToCart] refuses a quantity for lack of stock. *)
Definition insufficient_stock (res : Response) : Prop :=
  match res with
  | next (ErrorResponse (Product_has_insufficient_stock_Available _) 400) => True
  | next (ErrorResponse (Cannot_add_more_than_available_stock _) 400) => True
  | _ => False
  end.

(** A requested line whose product is missing or short of stock. *)
Definition unavailable (w : World) (item : OrderItem) : Prop :=
  match products w !! oi_product item with
  | None => True
  | Some product => p_stock product < oi_quantity item
  end.

(** The 404 and the 400 by which an order or an intent is refused. *)
Definition refused (res : Response) : Prop :=
  match res with
  | next (ErrorResponse (Product_not_found_with_id _) 404) => True
  | next (ErrorResponse (Product_is_out_of_stock _) 400) => True
  | _ => False
  end.

(** The units of a product on the lines of the given orders. *)
Definition units_ordered (productId : oid) (os : list Order) : Z :=
  fold_right Z.add 0
    (map (fun o =>
            fold_right Z.add 0
              (map (fun item => if decide (oi_product item = productId)
                                then oi_quantity item else 0)
                 (o_orderItems o)))
       os).

(** [totalPrice] is [itemsPrice + taxPrice + shippingPrice], added in the
    order the source adds them. *)
Definition balanced (o : Order) : Prop :=
  o_totalPrice o = num_add (num_add (o_itemsPrice o) (o_taxPrice o)) (o_shippingPrice o).



(** What the pricing loop reads of a request line. *)
Definition product_and_quantity (item : OrderItem) : oid * Z :=
  (oi_product item, oi_quantity item).

(** *** Worked scenarios *)


Definition alice : oid := 7%nat.
Definition bob : oid := 8%nat.

(** Product A (10.00, 5 in stock) and product B (25.00, 2 in stock). *)
Definition product_A : Product := mkProduct 1 "Product A" (num_of_Z 10) 5 [].
Definition product_B : Product := mkProduct 2 "Product B" (num_of_Z 25) 2 [].

Definition shop : World :=
  mkWorld (<[1%nat := product_A]> (<[2%nat := product_B]> ∅)) [] [] [] 100 1000.

Definition line (productId : oid) (quantity : Z) : OrderItem :=
  mkOrderItem productId "" quantity (num_of_Z 0) "".

(** Alice puts two B in her cart, asks for an intent with shipping 5.00, and
    pays it at the gateway. *)
Definition paid_cart : World :=
  gateway_succeeds 0
    (snd (serve [POST_cart alice (toString 2) (Number 2);
                 POST_payment_create_payment_intent alice [line 2 2] (Some (num_of_Z 5)) None]
            shop)).

Definition succeeded (id : oid) : string + Event :=
  inr (mkEvent "payment_intent.succeeded" id).

(** A shop with one unit of its only product, and two orders for it. *)
Definition last_unit : World :=
  mkWorld (<[1%nat := mkProduct 1 "Product A" (num_of_Z 10) 1 []]> ∅) [] [] [] 100 1000.

Definition one_unit : OrderBody :=
  mkOrderBody [line 1 1] "address" "card" (num_of_Z 10) (num_of_Z 1) (num_of_Z 5)
    (num_of_Z 16).

Definition two_orders : list request := [POST_orders alice one_unit; POST_orders bob one_unit].

(** Both requests pass the stock check, both create their order, both read the
    stock, then both save. *)
Definition both_read_then_write : list nat := [0; 1; 0; 1; 0; 1; 0; 1]%nat.

(** An order whose declared total is not the sum of its declared parts. *)
Definition lopsided : OrderBody :=
  mkOrderBody [line 1 1] "address" "card" (num_of_Z 10) (num_of_Z 1) (num_of_Z 5)
    (num_of_Z 1).

(** The shop after one order, number 100, has been placed. *)
Definition one_order : World := snd (serve [POST_orders alice one_unit] shop).

Definition receipt : PaymentResult := mkPaymentResult 31 "COMPLETED" (Text "t") "a@example.com".

Definition alice_has_three_A : World := snd (serve [POST_cart alice (toString 1) (Number 3)] shop).

Definition alices_cart : Cart :=
  mkCart 100 alice [mkCartItem 101 2 2 (num_of_Z 25)] (num_of_Z 50).

(** One A, which is in stock, and three B, of which there are two. *)
Definition one_line_short : OrderBody :=
  mkOrderBody [line 1 1; line 2 3] "address" "card" (num_of_Z 85) (num_of_Z 6) (num_of_Z 5)
    (num_of_Z 96).

(** Every cart mutation in turn, on a cart that holds three A as item 101. *)
Definition cart_session : list request :=
  [POST_cart alice (toString 2) (Number 1); POST_cart alice (toString 1) (Number 1); PUT_cart_item alice 101 2;
   DELETE_cart_item alice 101; DELETE_cart alice].

(** The same line as two clients send it: one with the catalog's price, one
    with a price of its own. *)
Definition honest_line : OrderItem := mkOrderItem 2 "Product B" 2 (num_of_Z 25) "".
Definition forged_line : OrderItem := mkOrderItem 2 "Product B" 2 (num_of_Z 1) "".

(** *** The claims' statements at an input *)

(** The units on order never exceed what was on order plus what was in
    stock. *)
Definition never_oversold (w : World) (reqs : list request) (sched : list nat) : Prop :=
  forall productId product,
    products w !! productId = Some product ->
    units_ordered productId (orders (snd (run_sched sched (map handle reqs) w)))
    <= units_ordered productId (orders w) + p_stock product.


(** Two deliveries of the succeeded event for intent [id] leave exactly one
    order more than there was. *)
Definition settled_once_by_webhooks (w : World) (id : oid) : Prop :=
  length (orders (snd (serve [POST_payment_webhook (succeeded id);
                              POST_payment_webhook (succeeded id)] w)))
  = S (length (orders w)).

(** A second [updateOrderToPaid], [dt] after the first and with the same
    payment result, leaves the stored orders as the first left them. *)
Definition second_markPaid_is_noop (w : World) (orderId : oid) (body : PaymentResult)
    (dt : Z) : Prop :=
  let w1 := snd (run (updateOrderToPaid orderId body) w) in
  orders (snd (run (updateOrderToPaid orderId body) (tick dt w1))) = orders w1.

(** An intent for two units of a product priced 25.00, shipping 5.00, with
    the figures it is quoted at. *)
Definition intent_for_two_at_25 (itemsPrice tax total amount : num) : Prop :=
  forall (w : World) (user productId : oid) (product : Product)
         (name : string) (price : num) (image : string) (paymentMethodType : option string),
    products w !! productId = Some product ->
    p_price product = num_of_Z 25 ->
    2 <= p_stock product ->
    let q := quote itemsPrice (Some (num_of_Z 5)) in
    run (createPaymentIntent user [mkOrderItem productId name 2 price image]
           (Some (num_of_Z 5)) paymentMethodType) w
    = run (charge user q paymentMethodType) w
    /\ q_taxAmount q = tax
    /\ q_total q = total
    /\ q_finalAmount q = amount
    /\ exists intent,
         run (charge user q paymentMethodType) w
         = (res_json 200 (IntentData (pi_client_secret intent) amount (pi_id intent)),
            with_intents w (intents w ++ [intent]))
         /\ pi_amount intent = amount.

(** Three units of product A, twice over. *)
Definition add_three_twice : Prop :=
  let cart := mkCart 100 alice [mkCartItem 101 1 3 (num_of_Z 10)] (num_of_Z 30) in
  let first := run (addToCart alice (toString 1) (Number 3)) shop in
  let second := run (addToCart alice (toString 1) (Number 3)) (snd first) in
  fst first = res_json 200 (CartData (Some cart) [Some product_A])
  /\ carts (snd first) = [cart]
  /\ fst second = next (ErrorResponse (Cannot_add_more_than_available_stock 5) 400)
  /\ carts (snd second) = [cart].

(** Three more units of product A into a cart that holds three, of a stock
    of five, under another spelling of A's id. *)
Definition add_three_respelled : Prop :=
  let cart :=
    mkCart 100 alice [mkCartItem 101 1 3 (num_of_Z 10); mkCartItem 102 1 3 (num_of_Z 10)]
      (num_of_Z 60) in
  let out := run (addToCart alice (respelled 1) (Number 3)) alice_has_three_A in
  products alice_has_three_A !! 1%nat = Some product_A
  /\ p_stock product_A < quantity_in_cart alice_has_three_A alice 1 + 3
  /\ fst out = res_json 200 (CartData (Some cart) [Some product_A; Some product_A])
  /\ carts (snd out) = [cart].

End Predicates.

(** ** The rest of the order controller *)

Section Orders.
Context {JSN : JSNumber}.

Definition mark_delivered (order : Order) (now : Z) : Order :=
  mkOrder (o_id order) (o_user order) (o_orderItems order) (o_shippingAddress order)
    (o_paymentMethod order) (o_paymentResult order) (o_itemsPrice order) (o_taxPrice order)
    (o_shippingPrice order) (o_totalPrice order) (o_isPaid order) (o_paidAt order)
    true (Some now) "delivered".

Definition set_order_status (order : Order) (status : string) : Order :=
  mkOrder (o_id order) (o_user order) (o_orderItems order) (o_shippingAddress order)
    (o_paymentMethod order) (o_paymentResult order) (o_itemsPrice order) (o_taxPrice order)
    (o_shippingPrice order) (o_totalPrice order) (o_isPaid order) (o_paidAt order)
    (o_isDelivered order) (o_deliveredAt order) status.

Definition set_delivered (order : Order) (now : Z) : Order :=
  mkOrder (o_id order) (o_user order) (o_orderItems order) (o_shippingAddress order)
    (o_paymentMethod order) (o_paymentResult order) (o_itemsPrice order) (o_taxPrice order)
    (o_shippingPrice order) (o_totalPrice order) (o_isPaid order) (o_paidAt order)
    true (Some now) (o_status order).

(** The tail of the three handlers that rewrite an order:
    [updatedOrder = await order.save()], then the 200. *)
Definition save_order_and_respond (order : Order) : prog Response :=
  Order_save order (fun r =>
  match r with
  | Rejected e => Ret (next e)
  | Saved updatedOrder => Ret (res_json 200 (OrderData updatedOrder))
  end).

Definition updateOrderToDelivered (orderId : oid) : prog Response :=
  Order_findById orderId (fun found =>
  match found with
  | None => Ret (next (ErrorResponse (Order_not_found_with_id_of orderId) 404))
  | Some order => Date_now (fun now => save_order_and_respond (mark_delivered order now))
  end).

Definition updateOrderStatus (orderId : oid) (status : string) : prog Response :=
  Order_findById orderId (fun found =>
  match found with
  | None => Ret (next (ErrorResponse (Order_not_found_with_id_of orderId) 404))
  | Some order =>
      let order := set_order_status order status in
      if String.eqb status "delivered" then
        Date_now (fun now => save_order_and_respond (set_delivered order now))
      else save_order_and_respond order
  end).

(** Modelled from the spec: [models/User.js] is not among the sources.  What
    the order controller reads of a user: its [_id], the [name] and [email]
    that [populate] selects, and the [role] of the requester. *)
Record User := mkUser {
  u_id : oid;
  u_name : string;
  u_email : string;
  u_role : string;
}.

(** The answers of the reading handlers and of [deleteOrder]. *)
Inductive reply :=
| reply_populated (status : nat) (count : nat) (data : list (Order * option User))
| reply_orders (status : nat) (count : nat) (data : list Order)
| reply_order (status : nat) (order : Order) (owner : User)
| reply_empty (status : nat)
| reply_not_authorized (statusCode : nat)
| reply_next (e : error).

(** [.populate({ path: "user", select: "name email" })]: the owner's
    document, or null when it is gone. *)
Definition populate_user (users : gmap nat User) (order : Order) : Order * option User :=
  (order, users !! o_user order).

(** [GET /api/orders]: every order, each with its owner. *)
Definition getOrders (users : gmap nat User) (w : World) : reply :=
  let orders := map (populate_user users) (orders w) in
  reply_populated 200 (length orders) orders.

(** [GET /api/orders/myorders]: [Order.find({ user: req.user.id })]. *)
Definition getMyOrders (requester : User) (w : World) : reply :=
  let orders := filter (fun o => o_user o = u_id requester) (orders w) in
  reply_orders 200 (length orders) orders.

(** [GET /api/orders/:id]: the owner or an admin; reading [_id] of an owner
    that is gone throws. *)
Definition getOrderById (users : gmap nat User) (requester : User) (orderId : oid)
    (w : World) : reply :=
  match order_findById orderId w with
  | None => reply_next (ErrorResponse (Order_not_found_with_id_of orderId) 404)
  | Some order =>
      match users !! o_user order with
      | None => reply_next TypeError
      | Some owner =>
          if negb (u_id owner =? u_id requester)%nat
             && negb (String.eqb (u_role requester) "admin")
          then reply_not_authorized 401
          else reply_order 200 order owner
      end
  end.

(** [DELETE /api/orders/:id]: [order.deleteOne()] removes the document with
    the order's [_id]. *)
Definition deleteOrder (orderId : oid) (w : World) : reply * World :=
  match order_findById orderId w with
  | None => (reply_next (ErrorResponse (Order_not_found_with_id_of orderId) 404), w)
  | Some order =>
      (reply_empty 200, with_orders w (filter (fun o => o_id o <> o_id order) (orders w)))
  end.

(** The three requests that rewrite a stored order. *)
Inductive order_update :=
| PUT_pay (orderId : oid) (body : PaymentResult)
| PUT_deliver (orderId : oid)
| PUT_status (orderId : oid) (status : string).

Definition apply_update (u : order_update) : prog Response :=
  match u with
  | PUT_pay orderId body => updateOrderToPaid orderId body
  | PUT_deliver orderId => updateOrderToDelivered orderId
  | PUT_status orderId status => updateOrderStatus orderId status
  end.

(** What each of the three updates makes of the order it finds. *)
Definition updated (u : order_update) (now : Z) (order : Order) : Order :=
  match u with
  | PUT_pay _ body => mark_paid order now body
  | PUT_deliver _ => mark_delivered order now
  | PUT_status _ status =>
      if String.eqb status "delivered" then mark_delivered order now
      else set_order_status order status
  end.

Definition target (u : order_update) : oid :=
  match u with
  | PUT_pay orderId _ | PUT_deliver orderId | PUT_status orderId _ => orderId
  end.

(** What an order is for: its owner, its lines, its address and its
    prices. *)
Definition order_terms (o : Order)
  : oid * oid * list OrderItem * string * string * (num * num * num * num) :=
  (o_id o, o_user o, o_orderItems o, o_shippingAddress o, o_paymentMethod o,
   (o_itemsPrice o, o_taxPrice o, o_shippingPrice o, o_totalPrice o)).

End Orders.

(** ** Paging through the catalog *)

Section Paging.
Context {A : Type}.

(** [Number.parseInt(req.query.x, 10) || dflt]: the parameter is absent or
    not a number ([None]), or an integer; zero gives way to the default. *)
Definition parse_or (param : option Z) (dflt : Z) : Z :=
  match param with
  | Some n => if n =? 0 then dflt else n
  | None => dflt
  end.

Record PageLink := mkPageLink {
  pl_page : Z;
  pl_limit : Z;
}.

Record Page := mkPage {
  pg_count : nat;
  pg_next : option PageLink;
  pg_prev : option PageLink;
  pg_data : list A;
}.

(** The pagination of [getProducts], lines 85 to 119 of the product
    controller.  [matching] is what [Product.find(filter)] holds in the sort
    order of the request; [countDocuments] counts it.  The database refuses a
    negative [skip]; a negative [limit] stands for its absolute value. *)
Definition getProducts_page (matching : list A) (page_param limit_param : option Z)
  : option Page :=
  let page := parse_or page_param 1 in
  let limit := parse_or limit_param 10 in
  let startIndex := (page - 1) * limit in
  let endIndex := page * limit in
  let total := Z.of_nat (length matching) in
  if startIndex <? 0 then None
  else
    let products := firstn (Z.to_nat (Z.abs limit)) (skipn (Z.to_nat startIndex) matching) in
    Some (mkPage (length products)
            (if endIndex <? total then Some (mkPageLink (page + 1) limit) else None)
            (if 0 <? startIndex then Some (mkPageLink (page - 1) limit) else None)
            products).


End Paging.

(** ** What the further properties speak of *)

Section Footprints.
Context {JSN : JSNumber}.

(** An exception, as opposed to an [ErrorResponse] that the handler built. *)
Definition thrown (e : error) : Prop :=
  match e with
  | ErrorResponse _ _ => False
  | _ => True
  end.

(** Handlers that write nothing but carts: every call is a read, a fresh
    ObjectId or a cart write. *)
Fixpoint writes_only_carts {R} (p : prog R) : Prop :=
  match p with
  | Ret _ => True
  | Date_now k => forall x, writes_only_carts (k x)
  | ObjectId_new k => forall x, writes_only_carts (k x)
  | Product_findById _ k => forall x, writes_only_carts (k x)
  | Product_populate _ k => forall x, writes_only_carts (k x)
  | Cart_findOne _ k => forall x, writes_only_carts (k x)
  | Cart_findById _ k => forall x, writes_only_carts (k x)
  | Cart_create _ k => forall x, writes_only_carts (k x)
  | Cart_save _ k => forall x, writes_only_carts (k x)
  | Cart_findByIdAndDelete _ k => forall x, writes_only_carts (k x)
  | Order_findById _ k => forall x, writes_only_carts (k x)
  | Stripe_retrieve _ k => forall x, writes_only_carts (k x)
  | Product_save _ _ | Order_create _ _ | Order_save _ _
  | Stripe_create _ _ _ _ _ _ => False
  end.

(** What a handler's calls can reach besides the carts. *)
Definition beside_carts (w : World) : gmap nat Product * list Order * list PaymentIntent :=
  (products w, orders w, intents w).

(** Handlers that make no call to the gateway. *)
Fixpoint no_gateway {R} (p : prog R) : Prop :=
  match p with
  | Ret _ => True
  | Date_now k => forall x, no_gateway (k x)
  | ObjectId_new k => forall x, no_gateway (k x)
  | Product_findById _ k => forall x, no_gateway (k x)
  | Product_save _ k => forall x, no_gateway (k x)
  | Product_populate _ k => forall x, no_gateway (k x)
  | Cart_findOne _ k => forall x, no_gateway (k x)
  | Cart_findById _ k => forall x, no_gateway (k x)
  | Cart_create _ k => forall x, no_gateway (k x)
  | Cart_save _ k => forall x, no_gateway (k x)
  | Cart_findByIdAndDelete _ k => forall x, no_gateway (k x)
  | Order_create _ k => forall x, no_gateway (k x)
  | Order_findById _ k => forall x, no_gateway (k x)
  | Order_save _ k => forall x, no_gateway (k x)
  | Stripe_create _ _ _ _ _ _ | Stripe_retrieve _ _ => False
  end.

(** What [processPayment] reads of the gateway's intents: which there are,
    and the status of each. *)
Definition gateway_view (pis : list PaymentIntent) : list (oid * string) :=
  map (fun i => (pi_id i, pi_status i)) pis.

(** The five requests of the cart controller. *)
Definition cart_request (r : request) : Prop :=
  match r with
  | GET_cart _ | POST_cart _ _ _ | PUT_cart_item _ _ _ | DELETE_cart_item _ _
  | DELETE_cart _ => True
  | _ => False
  end.

(** A request that names no product by another spelling of its id than the
    one [toString] gives. *)
Definition plainly_spelled (r : request) : Prop :=
  match r with
  | POST_cart _ (respelled _) _ => False
  | _ => True
  end.

(** The products are stored under their own [_id]. *)
Definition products_wf (w : World) : Prop :=
  map_Forall (fun id p => p_id p = id) (products w).

(** The units of a product on the given (product, quantity) lines. *)
Definition units (productId : oid) (lines : list (oid * Z)) : Z :=
  fold_right Z.add 0
    (map (fun line => if decide (fst line = productId) then snd line else 0) lines).

(** The world but for its products. *)
Definition beside_products (w : World)
  : list Cart * list Order * list PaymentIntent * nat * Z :=
  (carts w, orders w, intents w, next_oid w, clock w).

(** The carts and the orders. *)
Definition beside_stock (w : World) : list Cart * list Order := (carts w, orders w).

(** The product with [n] units taken from its stock. *)
Definition take (n : Z) (p : Product) : Product := set_stock p (p_stock p - n).

(** The (product, quantity) lines of a cart, as the stock loop reads them. *)
Definition cart_lines (c : Cart) : list (oid * Z) :=
  map (fun item => (ci_product item, ci_quantity item)) (c_items c).

(** No cart holds two lines of the same product. *)
Definition one_line_per_product (w : World) : Prop :=
  Forall (fun c => NoDup (map ci_product (c_items c))) (carts w).

(** Every line of every stored cart has a quantity of at least 1. *)
Definition quantities_positive (w : World) : Prop :=
  Forall (fun c => items_valid (c_items c) = true) (carts w).

End Footprints.

(** ** Further scenarios *)

Section Scenarios.
Context {JSN : JSNumber}.

(** The order that [one_order] holds. *)
Definition order_100 : Order :=
  mkOrder 100 alice [line 1 1] "address" "card" None (num_of_Z 10) (num_of_Z 1) (num_of_Z 5)
    (num_of_Z 16) false None false None "pending".

(** Two lines of one unit each, of the same product. *)
Definition one_unit_twice : OrderBody :=
  mkOrderBody [line 1 1; line 1 1] "address" "card" (num_of_Z 20) (num_of_Z 2) (num_of_Z 5)
    (num_of_Z 27).

(** Alice has paid for the two B in her cart; meanwhile Bob has ordered one
    of them. *)
Definition one_B : OrderBody :=
  mkOrderBody [line 2 1] "address" "card" (num_of_Z 25) (num_of_Z 2) (num_of_Z 5)
    (num_of_Z 32).

Definition paid_cart_short : World := snd (serve [POST_orders bob one_B] paid_cart).

(** Alice has paid for the two B in her cart; meanwhile product B has been
    taken off the catalog. *)
Definition paid_cart_gone : World := with_products paid_cart (delete 2%nat (products paid_cart)).

(** The gateway holds the same intent, succeeded, but for 1 and for Bob. *)
Definition another_intent : list PaymentIntent :=
  [mkPaymentIntent 0 0 (num_of_Z 1) "usd" "card" "succeeded" bob 0].

(** The order that settles [paid_cart]. *)
Definition alices_order : Order :=
  mkOrder 102 alice [mkOrderItem 2 "Product B" 2 (num_of_Z 25) ""] "address" "stripe"
    (Some (mkPaymentResult 0 "succeeded" (Millis 1000) "alice@example.com"))
    (num_of_Z 50) (num_mul (num_of_Z 50) num_tax_rate) (num_of_Z 10)
    (num_add (num_add (num_of_Z 50) (num_mul (num_of_Z 50) num_tax_rate)) (num_of_Z 10))
    true (Some 1000) false None "pending".

(** Alice's cart of three A, and the line it holds. *)
Definition three_A : CartItem := mkCartItem 101 1 3 (num_of_Z 10).
Definition cart_of_three_A : Cart := mkCart 100 alice [three_A] (num_of_Z 30).

Definition alice_user : User := mkUser alice "Alice" "alice@example.com" "user".
Definition bob_admin : User := mkUser bob "Bob" "bob@example.com" "admin".

Definition members : gmap nat User := <[alice := alice_user]> (<[bob := bob_admin]> ∅).

End Scenarios.

(** ** Properties of the store, for every request and every schedule *)

Section Invariants.
Context {JSN : JSNumber}.

(** Name the outcome of the call at the head of the goal. *)
Ltac destruct_call :=
  match goal with
  | |- context [product_save ?p ?w] => destruct (product_save p w)
  | |- context [cart_create ?u ?w] => destruct (cart_create u w)
  | |- context [cart_save ?c ?w] => destruct (cart_save c w)
  | |- context [order_create ?o ?w] => destruct (order_create o w)
  | |- context [order_save ?o ?w] => destruct (order_save o w)
  | |- context [stripe_create ?a ?c ?m ?u ?o ?w] => destruct (stripe_create a c m u o w)
  end.

Lemma run_step1 R (p : prog R) w :
  run p w = match p with
            | Ret r => (r, w)
            | _ => run (fst (step1 p w)) (snd (step1 p w))
            end.
Proof. destruct p; simpl; try reflexivity; destruct_call; reflexivity. Qed.

Lemma stable_run P : stable P -> forall R (p : prog R) w, P w -> P (snd (run p w)).
Proof.
  intros HP R p.
  induction p as [r|k IH|k IH|id k IH|p k IH|ids k IH|u k IH|id k IH|u k IH|c k IH
                 |id k IH|o k IH|id k IH|o k IH|a c m u o k IH|id k IH];
    intros w Hw; [exact Hw|..];
    rewrite run_step1;
    match goal with |- P (snd (run (fst (step1 ?q w)) _)) => pose proof (HP _ q w Hw) as Hs end;
    simpl in *; try destruct_call; apply IH; exact Hs.
Qed.

Lemma stable_serve P : stable P -> forall rs w, P w -> P (snd (serve rs w)).
Proof.
  intros HP rs. induction rs as [|r rs IH]; intros w Hw; simpl; [exact Hw|].
  pose proof (stable_run P HP _ (handle r) w Hw) as H1.
  destruct (run (handle r) w) as [res w1]. simpl in H1.
  specialize (IH w1 H1). destruct (serve rs w1) as [ress w2]. exact IH.
Qed.

Lemma stable_run_sched P :
  stable P -> forall sched pool w, P w -> P (snd (run_sched sched pool w)).
Proof.
  intros HP sched. induction sched as [|i sched IH]; intros pool w Hw; simpl; [exact Hw|].
  destruct (pool !! i) as [p|]; [|apply IH; exact Hw].
  pose proof (HP _ p w Hw) as Hs. destruct (step1 p w) as [p' w']. apply IH. exact Hs.
Qed.

Lemma run_sched_head (p : prog Response) (w : World) (sched : list nat) :
  run_sched (0%nat :: sched) [p] w = run_sched sched [fst (step1 p w)] (snd (step1 p w)).
Proof. simpl. destruct (step1 p w). reflexivity. Qed.

(** A handler whose calls complete one after the other with nothing in
    between has run to completion: [run] is one of the schedules. *)
Lemma run_is_a_schedule (p : prog Response) (w : World) :
  exists sched, run_sched sched [p] w = ([Ret (fst (run p w))], snd (run p w)).
Proof.
  revert w.
  induction p as [r|k IH|k IH|id k IH|p k IH|ids k IH|u k IH|id k IH|u k IH|c k IH
                 |id k IH|o k IH|id k IH|o k IH|a c m u o k IH|id k IH];
    intros w; [exists []; reflexivity|..];
    rewrite run_step1;
    match goal with
    | |- context [step1 ?q w] =>
        destruct (step1 q w) as [p' w'] eqn:Hstep;
        assert (exists x, p' = k x) as [x ->]
          by (revert Hstep; simpl; try destruct_call; intros [= <- <-]; eauto);
        destruct (IH x w') as [sched Hsched];
        exists (0%nat :: sched); rewrite run_sched_head, Hstep; exact Hsched
    end.
Qed.
Lemma product_save_stock_nonneg p w :
  stock_nonneg w -> stock_nonneg (snd (product_save p w)).
Proof.
  intros Hw. unfold product_save.
  destruct (Z.ltb_spec (p_stock p) 0) as [Hneg|Hpos]; [exact Hw|].
  destruct (products w !! p_id p) as [stored|] eqn:Hstored; [|exact Hw].
  simpl. apply map_Forall_insert_2; [exact Hpos|exact Hw].
Qed.

Lemma stock_nonneg_stable : stable stock_nonneg.
Proof.
  intros R p w Hw. destruct p; simpl; try exact Hw.
  - pose proof (product_save_stock_nonneg p w Hw) as Hs.
    destruct (product_save p w); exact Hs.
  - destruct (cart_save c w) as [r w'] eqn:E. unfold cart_save in E.
    destruct (negb _); [inversion E; subst; exact Hw|].
    destruct (list_find _ _); inversion E; subst; exact Hw.
  - destruct (order_save o w) as [r w'] eqn:E. unfold order_save in E.
    destruct (order_findById _ _); inversion E; subst; exact Hw.
Qed.

Lemma cart_save_consistent c w :
  carts_consistent w -> carts_consistent (snd (cart_save c w)).
Proof.
  intros Hw. unfold cart_save.
  destruct (negb _); [exact Hw|].
  destruct (list_find _ _); [|exact Hw].
  simpl. unfold carts_consistent, replace_cart in *. simpl.
  apply Forall_forall. intros d Hd. apply list_elem_of_In, in_map_iff in Hd.
  destruct Hd as [d0 [Hd0 Hin]]. destruct (decide _); subst d.
  - reflexivity.
  - rewrite Forall_forall in Hw. apply Hw, list_elem_of_In, Hin.
Qed.

Lemma carts_consistent_stable : stable carts_consistent.
Proof.
  intros R p w Hw. destruct p; simpl; try exact Hw.
  - destruct (product_save p w) as [r w'] eqn:E. unfold product_save in E.
    destruct (_ <? _); [inversion E; subst; exact Hw|].
    destruct (_ !! _); inversion E; subst; exact Hw.
  - unfold carts_consistent in *. simpl. apply Forall_app. split; [exact Hw|].
    constructor; [reflexivity|constructor].
  - pose proof (cart_save_consistent c w Hw) as Hs. destruct (cart_save c w); exact Hs.
  - unfold carts_consistent, cart_delete in *. simpl.
    apply Forall_forall. intros d Hd. apply list_elem_of_filter in Hd.
    rewrite Forall_forall in Hw. apply Hw, Hd.
  - destruct (order_save o w) as [r w'] eqn:E. unfold order_save in E.
    destruct (order_findById _ _); inversion E; subst; exact Hw.
Qed.

End Invariants.

(** ** The claims that hold for every arithmetic *)

Section Claims.
Context {JSN : JSNumber}.

(** *** Stock under concurrent requests *)

(** C3, as the code has it: whatever requests are in flight and however their
    calls interleave, no stored product ever has a negative stock.  The guard
    is the schema validator that [product.save()] runs, not an atomic
    conditional decrement: the stock loop reads, subtracts and writes back. *)
Theorem stock_never_negative (w : World) (reqs : list request) (sched : list nat) :
  stock_nonneg w ->
  stock_nonneg (snd (run_sched sched (map handle reqs) w)).
Proof. apply stable_run_sched, stock_nonneg_stable. Qed.

(** *** The cart total *)

Lemma find_replace_cart (c' : Cart) (cs : list Cart) :
  is_Some (list_find (fun d => c_id d = c_id c') cs) ->
  snd <$> list_find (fun d => c_id d = c_id c') (replace_cart c' cs) = Some c'.
Proof.
  induction cs as [|d cs IH]; simpl; [intros [? ?]; discriminate|].
  destruct (decide (c_id d = c_id c')) as [Heq|Hne].
  - intros _. rewrite decide_True by reflexivity. reflexivity.
  - intros Hsome. rewrite decide_False by exact Hne.
    destruct (list_find _ cs) as [[i x]|] eqn:Hfind; [|destruct Hsome; discriminate].
    specialize (IH (ltac:(eauto))).
    destruct (list_find _ (replace_cart c' cs)) as [[j y]|]; [exact IH|discriminate].
Qed.

(** A cart that [save] accepted is stored with the hook's total, and is the
    cart that [findById] then returns. *)
Lemma cart_save_saved (c c' : Cart) (w w' : World) :
  cart_save c w = (Saved c', w') ->
  c_totalPrice c' = cart_total (c_items c') /\ cart_findById (c_id c) w' = Some c'.
Proof.
  unfold cart_save. destruct (negb _); [discriminate|].
  destruct (list_find _ (carts w)) as [found|] eqn:Hfind; [|discriminate].
  intros [= <- <-]. split; [reflexivity|].
  unfold cart_findById. simpl.
  apply (find_replace_cart (pre_save c)). simpl. rewrite Hfind. eauto.
Qed.

Lemma cart_findById_stored (id : oid) (w : World) (c : Cart) :
  cart_findById id w = Some c -> c ∈ carts w.
Proof.
  unfold cart_findById. destruct (list_find _ _) as [[i x]|] eqn:Hfind; [|discriminate].
  intros [= <-]. apply list_find_Some in Hfind as [Hlookup _].
  apply list_elem_of_lookup. eauto.
Qed.

Lemma save_and_respond_200 (cart c : Cart) (populated : list (option Product)) (w : World) :
  fst (run (save_and_respond cart) w) = res_json 200 (CartData (Some c) populated) ->
  c_totalPrice c = cart_total (c_items c) /\ c ∈ carts (snd (run (save_and_respond cart) w)).
Proof.
  unfold save_and_respond, respond_with_cart. simpl.
  destruct (cart_save cart w) as [[c'|e] w'] eqn:Hsave; simpl; [|discriminate].
  destruct (cart_save_saved _ _ _ _ Hsave) as [Htotal Hfound]. rewrite Hfound. simpl.
  intros [= <- _]. split; [exact Htotal|]. eapply cart_findById_stored, Hfound.
Qed.

(** The goal is about a cart handler that has reached its [save]. *)
Ltac saved_cart :=
  simpl;
  match goal with
  | |- fst _ = res_json 200 (CartData (Some ?c) ?ps) -> _ =>
      match goal with
      | |- context [cart_save ?cart ?w] => exact (save_and_respond_200 cart c ps w)
      end
  end.

Lemma mutated_cart_is_consistent (w : World) (r : request) (c : Cart)
    (populated : list (option Product)) :
  cart_mutation r ->
  fst (run (handle r) w) = res_json 200 (CartData (Some c) populated) ->
  c_totalPrice c = cart_total (c_items c) /\ c ∈ carts (snd (run (handle r) w)).
Proof.
  destruct r as [| user productId quantity | user itemId quantity | user itemId | user
                | | | | | ]; try contradiction; intros _; cbn [handle].
  - unfold addToCart.
    destruct (castObjectId productId) as [product_id|]; [|discriminate]. simpl.
    destruct (products w !! product_id) as [product|]; [|discriminate].
    destruct (_ <? _); [discriminate|]. simpl.
    destruct (cart_findOne user w) as [cart|]; simpl; unfold addToCart_in.
    + destruct (list_find _ (c_items cart)) as [[itemIndex item]|].
      * destruct (_ <? _); [discriminate|]. saved_cart.
      * simpl. saved_cart.
    + simpl. saved_cart.
  - unfold updateCartItem. simpl.
    destruct (cart_findOne user w) as [cart|]; [|discriminate].
    destruct (list_find _ _) as [[itemIndex item]|]; [|discriminate]. simpl.
    destruct (products w !! ci_product item) as [product|]; [|discriminate].
    destruct (_ <? _); [discriminate|].
    destruct (_ <=? _); saved_cart.
  - unfold removeFromCart. simpl.
    destruct (cart_findOne user w) as [cart|]; [|discriminate].
    destruct (list_find _ _) as [[itemIndex item]|]; [|discriminate].
    saved_cart.
  - unfold clearCart. simpl.
    destruct (cart_findOne user w) as [cart|]; [|discriminate]. simpl.
    destruct (cart_save (set_items cart []) w) as [[c'|e] w'] eqn:Hsave; simpl;
      [|discriminate].
    destruct (cart_save_saved _ _ _ _ Hsave) as [Htotal Hfound].
    intros [= <- _]. split; [exact Htotal|]. eapply cart_findById_stored, Hfound.
Qed.

(** C8: the cart that a successful add, update, remove or clear answers with
    is stored, and its [totalPrice] is the sum of [price * quantity] over its
    items; and, served from a store whose carts all have that total, any
    sequence of requests (failed mutations among them) leaves every stored
    cart with it. *)
Theorem cart_total_is_sum_of_lines :
  (forall (w : World) (r : request) (c : Cart) (populated : list (option Product)),
      cart_mutation r ->
      fst (run (handle r) w) = res_json 200 (CartData (Some c) populated) ->
      c_totalPrice c = cart_total (c_items c) /\ c ∈ carts (snd (run (handle r) w)))
  /\ (forall (w : World) (rs : list request),
        carts_consistent w ->
        carts_consistent (snd (serve rs w))).
Proof.
  split; [exact mutated_cart_is_consistent|].
  intros w rs. apply stable_serve, carts_consistent_stable.
Qed.

(** *** Itemized checkout is all-or-nothing *)

Lemma verify_items_refuses (w : World) (items : list OrderItem) (k : prog Response) :
  Exists (unavailable w) items ->
  refused (fst (run (verify_items items k) w)) /\ snd (run (verify_items items k) w) = w.
Proof.
  induction items as [|item rest IH]; intros Hex; [inversion Hex|].
  simpl. unfold unavailable in Hex.
  destruct (products w !! oi_product item) as [product|] eqn:Hfound; [|simpl; auto].
  destruct (Z.ltb_spec (p_stock product) (oi_quantity item)) as [Hshort|Henough];
    [simpl; auto|].
  apply IH. inversion Hex as [? ? Hhead|? ? Htail]; subst; [|exact Htail].
  rewrite Hfound in Hhead. lia.
Qed.

(** C6: if some requested line names a missing product or asks for more than
    that product's stock, [createOrder] answers with the 404 or the 400 of
    the first such line, and the store is as it was: no order, and every
    product's stock untouched. *)
Theorem createOrder_all_or_nothing (w : World) (user : oid) (body : OrderBody) :
  Exists (unavailable w) (b_orderItems body) ->
  refused (fst (run (createOrder user body) w))
  /\ snd (run (createOrder user body) w) = w.
Proof.
  intros Hex. unfold createOrder.
  destruct (b_orderItems body) as [|item rest] eqn:Hitems; [inversion Hex|].
  apply verify_items_refuses, Hex.
Qed.

(** *** The client's prices do not reach the gateway *)

Lemma price_items_reads_product_and_quantity (w : World) (k : num -> prog Response)
    (items1 items2 : list OrderItem) (totalAmount : num) :
  map product_and_quantity items1 = map product_and_quantity items2 ->
  run (price_items items1 totalAmount k) w = run (price_items items2 totalAmount k) w.
Proof.
  revert items2 totalAmount.
  induction items1 as [|item1 rest1 IH]; intros [|item2 rest2] totalAmount Hsame;
    try discriminate; [reflexivity|].
  simpl in Hsame. injection Hsame as Hproduct Hquantity Hrest.
  simpl. rewrite Hproduct, Hquantity.
  destruct (products w !! oi_product item2) as [product|]; [|reflexivity].
  destruct (p_stock product <? oi_quantity item2); [reflexivity|].
  apply IH, Hrest.
Qed.

(** C10: two [createPaymentIntent] requests whose lines agree on product and
    quantity, and which differ only in the other fields the client sent with
    each line (its price among them), get the same response and leave the same
    store and the same intent at the gateway. *)
Theorem client_prices_are_ignored (w : World) (user : oid) (items1 items2 : list OrderItem)
    (shipping : option num) (paymentMethodType : option string) :
  map product_and_quantity items1 = map product_and_quantity items2 ->
  run (createPaymentIntent user items1 shipping paymentMethodType) w
  = run (createPaymentIntent user items2 shipping paymentMethodType) w.
Proof. apply price_items_reads_product_and_quantity. Qed.

(** *** Adding more than the stock *)

(** Against the lower-case hex of an id, [findIndex] finds the first line of
    that product. *)
Lemma find_line_toString (items : list CartItem) (productId : oid) :
  list_find (fun item => toString (ci_product item) = toString productId) items
  = list_find (fun item => ci_product item = productId) items.
Proof.
  induction items as [|item rest IH]; [reflexivity|]. simpl.
  destruct (decide (ci_product item = productId)) as [->|Hne].
  - rewrite decide_True by reflexivity. reflexivity.
  - rewrite decide_False by congruence. rewrite IH. reflexivity.
Qed.

(** When the requested quantity, added to what the
    user's cart already holds of the product, exceeds the product's stock,
    [addToCart] answers with one of its two insufficient-stock 400s and the
    store, the cart included, is as it was. *)
Lemma addToCart_over_stock (w : World) (user productId : oid) (quantity : Z)
    (product : Product) :
  products w !! productId = Some product ->
  p_stock product < quantity_in_cart w user productId + quantity ->
  insufficient_stock (fst (run (addToCart user (toString productId) (Number quantity)) w))
  /\ snd (run (addToCart user (toString productId) (Number quantity)) w) = w.
Proof.
  intros Hfound Hover. unfold addToCart, quantity_in_cart in *. simpl. rewrite Hfound.
  destruct (Z.ltb_spec (p_stock product) quantity) as [Hshort|Henough]; [simpl; auto|].
  simpl. destruct (cart_findOne user w) as [cart|]; [|lia].
  unfold addToCart_in. rewrite find_line_toString.
  destruct (list_find _ (c_items cart)) as [[itemIndex item]|]; [|lia].
  simpl. destruct (Z.ltb_spec (p_stock product) (ci_quantity item + quantity)); [|lia].
  simpl. auto.
Qed.

(** *** Calls that leave the orders alone *)

Lemma product_save_orders (p : Product) (w : World) :
  orders (snd (product_save p w)) = orders w.
Proof.
  unfold product_save. destruct (_ <? _); [reflexivity|].
  destruct (_ !! _); reflexivity.
Qed.

(** The stock loop answers with an error of its own or with what follows it,
    and stores no order. *)
Lemma decrement_stock_outcome (lines : list (oid * Z)) (k : prog Response) (w : World) :
  (exists e, fst (run (decrement_stock lines k) w) = next e
             /\ orders (snd (run (decrement_stock lines k) w)) = orders w)
  \/ (exists w', run (decrement_stock lines k) w = run k w' /\ orders w' = orders w).
Proof.
  revert w. induction lines as [|[productId quantity] rest IH]; intros w; simpl.
  - right. exists w. auto.
  - destruct (products w !! productId) as [product|]; [|left; exists TypeError; auto].
    simpl.
    pose proof (product_save_orders (set_stock product (p_stock product - quantity)) w) as Ho.
    destruct (product_save _ w) as [[doc|e] w1]; simpl in Ho.
    + destruct (IH w1) as [[e [Hres Hord]]|[w' [Hrun Hord]]].
      * left. exists e. split; [exact Hres|congruence].
      * right. exists w'. split; [exact Hrun|congruence].
    + left. exists e. simpl. auto.
Qed.

(** *** Order totals *)

(** What [processPayment] does to the stored orders: nothing, or one more
    order, whose total is its cart's total plus 7% plus 10. *)
Lemma processPayment_orders (w : World) (user : oid) (email : string)
    (paymentIntentId : oid) (shippingAddress : string) :
  let out := run (processPayment user email paymentIntentId shippingAddress) w in
  ((exists e, fst out = next e) /\ orders (snd out) = orders w)
  \/ (exists cart o,
        cart_findOne user w = Some cart
        /\ orders (snd out) = orders w ++ [o]
        /\ (forall data, fst out = res_json 201 data -> data = OrderData o)
        /\ (forall status data, fst out = res_json status data -> status = 201%nat)
        /\ o_itemsPrice o = c_totalPrice cart
        /\ o_taxPrice o = num_mul (c_totalPrice cart) num_tax_rate
        /\ o_shippingPrice o = num_of_Z 10
        /\ balanced o).
Proof.
  unfold processPayment. simpl.
  destruct (stripe_retrieve paymentIntentId w) as [paymentIntent|]; [|left; simpl; eauto].
  destruct (negb _); [left; simpl; eauto|].
  simpl. destruct (cart_findOne user w) as [cart|]; [|left; simpl; eauto].
  simpl.
  set (lines := map (fun item => (ci_product item, ci_quantity item)) (c_items cart)).
  clearbody lines.
  destruct (c_items cart) as [|item items] eqn:Hitems; [left; simpl; eauto|].
  destruct (order_items_of _ _) as [orderItems|]; [|left; simpl; eauto].
  simpl. right.
  match goal with
  | |- context [decrement_stock ?lines ?k] =>
      match goal with
      | |- context [run (decrement_stock lines k) ?w1] =>
          destruct (decrement_stock_outcome lines k w1) as [[e [Hres Hord]]|[w' [Hrun Hord]]]
      end
  end.
  - eexists cart, _. split; [reflexivity|]. split; [rewrite Hord; reflexivity|].
    split; [intros data Hdata; rewrite Hres in Hdata; discriminate|].
    split; [intros status data Hdata; rewrite Hres in Hdata; discriminate|].
    repeat split.
  - eexists cart, _. split; [reflexivity|]. rewrite Hrun. simpl.
    split; [rewrite Hord; reflexivity|].
    split; [intros data Hdata; injection Hdata as <-; reflexivity|].
    split; [intros status data Hdata; injection Hdata as <- _; reflexivity|].
    repeat split.
Qed.

(** The first loop of [createOrder] refuses the request and changes nothing,
    or changes nothing and lets the request through. *)
Lemma verify_items_outcome (items : list OrderItem) (k : prog Response) (w : World) :
  (exists e, run (verify_items items k) w = (next e, w))
  \/ run (verify_items items k) w = run k w.
Proof.
  induction items as [|item rest IH]; simpl; [right; reflexivity|].
  destruct (products w !! oi_product item) as [product|]; [|left; eauto].
  destruct (_ <? _); [left; eauto|]. exact IH.
Qed.

(** What [createOrder] does to the stored orders: nothing, or one more order
    that carries the four prices of the request as they were declared. *)
Lemma createOrder_orders (w : World) (user : oid) (body : OrderBody) :
  let out := run (createOrder user body) w in
  orders (snd out) = orders w
  \/ (exists o,
        orders (snd out) = orders w ++ [o]
        /\ o_itemsPrice o = b_itemsPrice body
        /\ o_taxPrice o = b_taxPrice body
        /\ o_shippingPrice o = b_shippingPrice body
        /\ o_totalPrice o = b_totalPrice body).
Proof.
  unfold createOrder. destruct (b_orderItems body) as [|item rest] eqn:Hitems;
    [left; reflexivity|].
  rewrite <- Hitems. clear Hitems.
  match goal with
  | |- context [verify_items ?items ?k] =>
      destruct (verify_items_outcome items k w) as [[e ->]| ->]
  end; [left; reflexivity|].
  simpl. right.
  match goal with
  | |- context [run (decrement_stock ?ls ?k) ?w1] =>
      destruct (decrement_stock_outcome ls k w1) as [[e [Hres Hord]]|[w' [Hrun Hord]]]
  end.
  - eexists. split; [rewrite Hord; reflexivity|]. repeat split.
  - eexists. rewrite Hrun. simpl. split; [rewrite Hord; reflexivity|]. repeat split.
Qed.

(** C7, as the code has it: every order stored by [processPayment] has
    [totalPrice = itemsPrice + taxPrice + shippingPrice]; an order stored by
    [createOrder] has the four prices the client declared, whatever they
    are, so its total is the sum of its parts exactly when the declared total
    is. *)
Theorem order_total_by_origin :
  (forall (w : World) (user : oid) (email : string) (paymentIntentId : oid)
          (shippingAddress : string),
      let w' := snd (run (processPayment user email paymentIntentId shippingAddress) w) in
      orders w' = orders w \/ exists o, orders w' = orders w ++ [o] /\ balanced o)
  /\ (forall (w : World) (user : oid) (body : OrderBody),
        let w' := snd (run (createOrder user body) w) in
        orders w' = orders w
        \/ exists o, orders w' = orders w ++ [o]
                     /\ (balanced o <->
                         b_totalPrice body
                         = num_add (num_add (b_itemsPrice body) (b_taxPrice body))
                             (b_shippingPrice body))).
Proof.
  split.
  - intros w user email paymentIntentId shippingAddress.
    destruct (processPayment_orders w user email paymentIntentId shippingAddress)
      as [[_ Hsame]|[cart [o [_ [Hmore [_ [_ [_ [_ [_ Hbal]]]]]]]]]].
    + left. exact Hsame.
    + right. exists o. auto.
  - intros w user body.
    destruct (createOrder_orders w user body) as [Hsame|[o [Hmore [Hi [Ht [Hs Htot]]]]]].
    + left. exact Hsame.
    + right. exists o. split; [exact Hmore|].
      unfold balanced. rewrite Hi, Ht, Hs, Htot. reflexivity.
Qed.

(** *** The webhook *)

Lemma handleWebhook_run (w : World) (constructed : string + Event) :
  run (handleWebhook constructed) w
  = (match constructed with
     | inl err_message => res_send 400 ("Webhook Error: " ++ err_message)
     | inr _ => res_json 200 Received
     end, w).
Proof.
  destruct constructed as [err_message|event]; simpl; [reflexivity|].
  destruct (String.eqb _ _); [reflexivity|].
  destruct (String.eqb _ _); reflexivity.
Qed.

Lemma serve_cons (r : request) (rs : list request) (w : World) :
  snd (serve (r :: rs) w) = snd (serve rs (snd (run (handle r) w))).
Proof.
  simpl. destruct (run (handle r) w) as [res w1]. simpl.
  destruct (serve rs w1). reflexivity.
Qed.

Lemma serve_webhooks (events : list (string + Event)) (w : World) :
  snd (serve (map POST_payment_webhook events) w) = w.
Proof.
  revert w. induction events as [|event events IH]; intros w; [reflexivity|].
  rewrite map_cons, serve_cons. cbn [handle]. rewrite handleWebhook_run. apply IH.
Qed.

(** C2, as the code has it: [handleWebhook] settles nothing.  Whatever the
    event, the store is as it was, and a verified event is acknowledged with
    200.  So a [processPayment] followed by any number of webhook deliveries
    leaves exactly what [processPayment] alone leaves, which is at most one
    new order, and exactly the order it reports when it answers 201. *)
Theorem webhook_settles_nothing :
  (forall (w : World) (constructed : string + Event),
      snd (run (handleWebhook constructed) w) = w)
  /\ (forall (w : World) (event : Event),
        fst (run (handleWebhook (inr event)) w) = res_json 200 Received)
  /\ (forall (w : World) (user : oid) (email : string) (paymentIntentId : oid)
             (shippingAddress : string) (events : list (string + Event)),
        snd (serve (POST_payment_process_payment user email paymentIntentId shippingAddress
                      :: map POST_payment_webhook events) w)
        = snd (run (processPayment user email paymentIntentId shippingAddress) w))
  /\ (forall (w : World) (user : oid) (email : string) (paymentIntentId : oid)
             (shippingAddress : string) (status : nat) (data : payload),
        let out := run (processPayment user email paymentIntentId shippingAddress) w in
        fst out = res_json status data ->
        exists o, status = 201%nat /\ data = OrderData o /\ orders (snd out) = orders w ++ [o]).
Proof.
  split; [intros; rewrite handleWebhook_run; reflexivity|].
  split; [intros; rewrite handleWebhook_run; reflexivity|].
  split.
  - intros. rewrite serve_cons. cbn [handle]. apply serve_webhooks.
  - intros w user email paymentIntentId shippingAddress status data out Hout.
    destruct (processPayment_orders w user email paymentIntentId shippingAddress)
      as [[[e He] _]|[cart [o [_ [Hmore [Hdata [Hstatus _]]]]]]].
    + fold out in He. rewrite He in Hout. discriminate.
    + exists o. fold out in Hmore, Hdata, Hstatus.
      pose proof (Hstatus _ _ Hout) as ->. split; [reflexivity|].
      split; [apply Hdata, Hout|exact Hmore].
Qed.

(** *** Marking an order paid *)

Lemma order_findById_id (id : oid) (w : World) (o : Order) :
  order_findById id w = Some o -> o_id o = id.
Proof.
  unfold order_findById. destruct (list_find _ _) as [[i o']|] eqn:Hfind; [|discriminate].
  intros [= <-]. apply list_find_Some in Hfind. tauto.
Qed.

Lemma find_replace_order (o' : Order) (os : list Order) :
  is_Some (list_find (fun d => o_id d = o_id o') os) ->
  snd <$> list_find (fun d => o_id d = o_id o') (replace_order o' os) = Some o'.
Proof.
  induction os as [|d os IH]; simpl; [intros [? ?]; discriminate|].
  destruct (decide (o_id d = o_id o')) as [Heq|Hne].
  - intros _. rewrite decide_True by reflexivity. reflexivity.
  - intros Hsome. rewrite decide_False by exact Hne.
    destruct (list_find _ os) as [[i x]|] eqn:Hfind; [|destruct Hsome; discriminate].
    specialize (IH (ltac:(eauto))).
    destruct (list_find _ (replace_order o' os)) as [[j y]|]; [exact IH|discriminate].
Qed.

Lemma replace_order_twice (o1 o2 : Order) (os : list Order) :
  o_id o2 = o_id o1 ->
  replace_order o2 (replace_order o1 os) = replace_order o2 os.
Proof.
  intros Hid. unfold replace_order. rewrite map_map. apply map_ext. intros d.
  destruct (decide (o_id d = o_id o1)) as [Heq|Hne].
  - rewrite decide_True by congruence. rewrite decide_True by congruence. reflexivity.
  - reflexivity.
Qed.

(** [updateOrderToPaid] in one step: the 404, or the order rewritten with the
    request's payment result and the clock's time. *)
Lemma updateOrderToPaid_run (w : World) (orderId : oid) (body : PaymentResult) :
  run (updateOrderToPaid orderId body) w
  = match order_findById orderId w with
    | None => (next (ErrorResponse (Order_not_found_with_id_of orderId) 404), w)
    | Some order =>
        (res_json 200 (OrderData (mark_paid order (clock w) body)),
         with_orders w (replace_order (mark_paid order (clock w) body) (orders w)))
    end.
Proof.
  unfold updateOrderToPaid. simpl.
  destruct (order_findById orderId w) as [order|] eqn:Hfound; [|reflexivity].
  simpl. unfold order_save. simpl.
  rewrite (order_findById_id _ _ _ Hfound), Hfound. reflexivity.
Qed.

(** C9, as the code has it: a second [updateOrderToPaid] with the same
    payment result, [dt] later, leaves the store exactly as a single one made
    at the later time would.  The order keeps one payment result, and every
    field is as the first call set it except [paidAt], which is overwritten
    with the time of the second call (nothing is compared with the stored
    transaction id). *)
Theorem markPaid_last_write_wins (w : World) (orderId : oid) (body : PaymentResult) (dt : Z) :
  snd (run (updateOrderToPaid orderId body)
         (tick dt (snd (run (updateOrderToPaid orderId body) w))))
  = snd (run (updateOrderToPaid orderId body) (tick dt w)).
Proof.
  rewrite !updateOrderToPaid_run.
  destruct (order_findById orderId w) as [order|] eqn:Hfound.
  - pose proof (order_findById_id _ _ _ Hfound) as Hid.
    unfold order_findById in *. simpl.
    destruct (list_find _ (orders w)) as [[i x]|] eqn:Hfind; [|discriminate].
    injection Hfound as ->.
    pose proof (find_replace_order (mark_paid order (clock w) body) (orders w)) as Hrep.
    simpl in Hrep. rewrite Hid in Hrep. rewrite Hrep by eauto. simpl.
    unfold with_orders, tick, with_clock. simpl. f_equal.
    apply replace_order_twice. reflexivity.
  - simpl. unfold order_findById in *. simpl. rewrite Hfound. reflexivity.
Qed.

(** *** The amount authorized and the amount recorded *)

Lemma charge_run (w : World) (user : oid) (q : Quote) (paymentMethodType : option string) :
  run (charge user q paymentMethodType) w
  = let i := fst (stripe_create (q_finalAmount q) "usd"
                    (match paymentMethodType with
                     | Some t => if String.eqb t "" then "card" else t
                     | None => "card"
                     end) user (clock w) w) in
    (res_json 200 (IntentData (pi_client_secret i) (q_finalAmount q) (pi_id i)),
     with_intents w (intents w ++ [i])).
Proof. reflexivity. Qed.






End Claims.

(** ** Further properties of the controllers *)

Section Further.
Context {JSN : JSNumber}.

(** *** What the cart controller leaves alone *)

Lemma cart_save_beside (c : Cart) (w : World) :
  beside_carts (snd (cart_save c w)) = beside_carts w.
Proof.
  unfold cart_save. destruct (negb _); [reflexivity|].
  destruct (list_find _ _); reflexivity.
Qed.

Lemma writes_only_carts_step R (p : prog R) (w : World) :
  writes_only_carts p ->
  writes_only_carts (fst (step1 p w)) /\ beside_carts (snd (step1 p w)) = beside_carts w.
Proof.
  destruct p; simpl; intros Hp; try contradiction; auto.
  pose proof (cart_save_beside c w) as Hsave.
  destruct (cart_save c w) as [r w']. simpl. auto.
Qed.

Lemma cart_request_footprint (r : request) :
  cart_request r -> writes_only_carts (handle r).
Proof.
  destruct r; simpl; try contradiction; intros _;
    unfold getCart, addToCart, addToCart_in, updateCartItem, removeFromCart, clearCart,
      save_and_respond, respond_with_cart;
    repeat (simpl; intros;
            match goal with
            | |- True => exact I
            | |- writes_only_carts (match ?x with _ => _ end) => destruct x
            | |- writes_only_carts (if ?b then _ else _) => destruct b
            end).
Qed.

(** The requests of the cart controller, however many are in flight and
    however their calls interleave, change no product, no order and no
    payment intent. *)
Theorem cart_requests_touch_only_carts (w : World) (reqs : list request)
    (sched : list nat) :
  Forall cart_request reqs ->
  let w' := snd (run_sched sched (map handle reqs) w) in
  products w' = products w /\ orders w' = orders w /\ intents w' = intents w.
Proof.
  intros Hreqs. cbv zeta.
  assert (Hpool : Forall writes_only_carts (map handle reqs)).
  { apply Forall_map. eapply Forall_impl; [exact Hreqs|]. apply cart_request_footprint. }
  clear Hreqs.
  enough (H : beside_carts (snd (run_sched sched (map handle reqs) w)) = beside_carts w).
  { unfold beside_carts in H. injection H as -> -> ->. auto. }
  revert w Hpool. generalize (map handle reqs) as pool.
  induction sched as [|i sched IH]; intros pool w Hpool; [reflexivity|].
  simpl. destruct (pool !! i) as [p|] eqn:Hi; [|apply IH, Hpool].
  destruct (writes_only_carts_step _ p w (Forall_lookup_1 _ _ _ _ Hpool Hi))
    as [Hnext Hframe].
  destruct (step1 p w) as [p' w']. simpl in *. rewrite <- Hframe.
  apply IH. apply Forall_insert; assumption.
Qed.

(** *** A refusal changes nothing *)

Lemma cart_save_rejected (c : Cart) (w w' : World) (e : error) :
  cart_save c w = (Rejected e, w') -> thrown e /\ w' = w.
Proof.
  unfold cart_save. destruct (negb _); [intros [= <- <-]; simpl; auto|].
  destruct (list_find _ _); [discriminate|]. intros [= <- <-]. simpl. auto.
Qed.

Lemma save_and_respond_no_refusal (cart : Cart) (w : World) (m : message) (code : nat) :
  fst (run (save_and_respond cart) w) <> next (ErrorResponse m code).
Proof.
  unfold save_and_respond, respond_with_cart. simpl.
  destruct (cart_save cart w) as [[c'|e] w'] eqn:Hsave; simpl.
  - destruct (cart_findById _ w'); simpl; discriminate.
  - destruct (cart_save_rejected _ _ _ _ Hsave) as [He _].
    intros [= ->]. exact He.
Qed.

(** The stock loop fails by an exception only. *)
Lemma decrement_stock_thrown (lines : list (oid * Z)) (k : prog Response) (w : World) :
  (exists e, fst (run (decrement_stock lines k) w) = next e /\ thrown e)
  \/ (exists w', run (decrement_stock lines k) w = run k w').
Proof.
  revert w. induction lines as [|[productId quantity] rest IH]; intros w; simpl.
  - right. exists w. reflexivity.
  - destruct (products w !! productId) as [product|]; [|left; exists TypeError; simpl; auto].
    simpl. unfold product_save.
    destruct (_ <? 0); [left; eexists; simpl; split; [reflexivity|exact I]|].
    destruct (products w !! _); [|left; eexists; simpl; split; [reflexivity|exact I]].
    apply IH.
Qed.

(** The pricing loop refuses the request and changes nothing, or hands its
    sum on and changes nothing. *)
Lemma price_items_outcome (items : list OrderItem) (totalAmount : num)
    (k : num -> prog Response) (w : World) :
  (exists m code, run (price_items items totalAmount k) w = (next (ErrorResponse m code), w))
  \/ (exists total, run (price_items items totalAmount k) w = run (k total) w).
Proof.
  revert totalAmount. induction items as [|item rest IH]; intros totalAmount; simpl;
    [right; eauto|].
  destruct (products w !! oi_product item) as [product|]; [|left; eauto].
  destruct (_ <? _); [left; eauto|]. apply IH.
Qed.

(** The goal is about a cart handler that has reached its [save]. *)
Ltac no_refusal :=
  simpl;
  match goal with
  | |- fst _ = next (ErrorResponse ?m ?code) -> _ =>
      match goal with
      | |- context [cart_save ?cart ?w] =>
          let H := fresh in
          intros H; destruct (save_and_respond_no_refusal cart w m code H)
      end
  end.

(** Whenever a handler answers with an [ErrorResponse] of its own making (a
    404 or a 400), the store and the gateway are exactly as they were. *)
Theorem refusal_changes_nothing (w : World) (r : request) (m : message) (code : nat) :
  fst (run (handle r) w) = next (ErrorResponse m code) ->
  snd (run (handle r) w) = w.
Proof.
  destruct r as [user | user productId quantity | user itemId quantity | user itemId | user
                | user body | orderId body | user items shipping method
                | user email paymentIntentId address | constructed]; cbn [handle].
  - unfold getCart. simpl. destruct (cart_findOne user w); simpl; discriminate.
  - unfold addToCart.
    destruct (castObjectId productId) as [product_id|]; [|reflexivity]. simpl.
    destruct (products w !! product_id) as [product|]; [|reflexivity].
    destruct (_ <? _); [reflexivity|]. simpl.
    destruct (cart_findOne user w) as [cart|]; simpl; unfold addToCart_in.
    + destruct (list_find _ (c_items cart)) as [[itemIndex item]|].
      * destruct (_ <? _); [reflexivity|]. no_refusal.
      * no_refusal.
    + no_refusal.
  - unfold updateCartItem. simpl.
    destruct (cart_findOne user w) as [cart|]; [|reflexivity].
    destruct (list_find _ _) as [[itemIndex item]|]; [|reflexivity]. simpl.
    destruct (products w !! ci_product item) as [product|]; [|reflexivity].
    destruct (_ <? _); [reflexivity|].
    destruct (_ <=? _); no_refusal.
  - unfold removeFromCart. simpl.
    destruct (cart_findOne user w) as [cart|]; [|reflexivity].
    destruct (list_find _ _) as [[itemIndex item]|]; [|reflexivity].
    no_refusal.
  - unfold clearCart. simpl.
    destruct (cart_findOne user w) as [cart|]; [|reflexivity]. simpl.
    destruct (cart_save (set_items cart []) w) as [[c'|e] w'] eqn:Hsave; simpl;
      [discriminate|].
    destruct (cart_save_rejected _ _ _ _ Hsave) as [He _]. intros [= ->]. destruct He.
  - unfold createOrder. destruct (b_orderItems body) as [|item rest] eqn:Hitems;
      [reflexivity|].
    rewrite <- Hitems. clear Hitems.
    match goal with
    | |- context [verify_items ?items ?k] =>
        destruct (verify_items_outcome items k w) as [[e ->]| ->]
    end; [reflexivity|].
    simpl.
    match goal with
    | |- context [run (decrement_stock ?ls ?k) ?w1] =>
        destruct (decrement_stock_thrown ls k w1) as [[e [-> He]]|[w' ->]]
    end; [intros [= ->]; destruct He|simpl; discriminate].
  - rewrite updateOrderToPaid_run.
    destruct (order_findById orderId w); [simpl; discriminate|reflexivity].
  - unfold createPaymentIntent.
    match goal with
    | |- context [price_items ?items ?t ?k] =>
        destruct (price_items_outcome items t k w) as [[m' [code' ->]]|[total ->]]
    end; [reflexivity|].
    rewrite charge_run. simpl. discriminate.
  - unfold processPayment. simpl.
    destruct (stripe_retrieve paymentIntentId w) as [paymentIntent|]; [|reflexivity].
    destruct (negb _); [reflexivity|]. simpl.
    destruct (cart_findOne user w) as [cart|]; [|reflexivity]. simpl.
    set (lines := map (fun item => (ci_product item, ci_quantity item)) (c_items cart)).
    clearbody lines.
    destruct (c_items cart) as [|item items]; [reflexivity|].
    destruct (order_items_of _ _) as [orderItems|]; [|reflexivity].
    simpl.
    match goal with
    | |- context [run (decrement_stock ?ls ?k) ?w1] =>
        destruct (decrement_stock_thrown ls k w1) as [[e [-> He]]|[w' ->]]
    end; [intros [= ->]; destruct He|simpl; discriminate].
  - rewrite handleWebhook_run. reflexivity.
Qed.

(** *** Stock taken is stock ordered *)

Lemma units_ordered_single (productId : oid) (o : Order) :
  units_ordered productId [o] = units productId (map product_and_quantity (o_orderItems o)).
Proof.
  unfold units_ordered, units. simpl. rewrite Z.add_0_r. rewrite map_map. reflexivity.
Qed.

Lemma take_take (a b : Z) (p : Product) : take b (take a p) = take (a + b) p.
Proof. unfold take, set_stock. simpl. f_equal. lia. Qed.

Lemma take_0 (p : Product) : take 0 p = p.
Proof. destruct p. unfold take, set_stock. simpl. f_equal. lia. Qed.

(** The stock loop on a well-formed catalog: an exception, or every product
    has lost exactly the units that the lines hold of it, and nothing else
    has changed. *)
Lemma decrement_stock_takes (lines : list (oid * Z)) (k : prog Response) (w : World) :
  products_wf w ->
  (exists e, fst (run (decrement_stock lines k) w) = next e /\ thrown e)
  \/ (exists w',
        run (decrement_stock lines k) w = run k w'
        /\ beside_products w' = beside_products w
        /\ forall id, products w' !! id = take (units id lines) <$> products w !! id).
Proof.
  revert w. induction lines as [|[productId quantity] rest IH]; intros w Hwf.
  - right. exists w. split; [reflexivity|]. split; [reflexivity|].
    intros id. unfold units. simpl. destruct (products w !! id) as [p|]; [|reflexivity].
    simpl. rewrite take_0. reflexivity.
  - simpl. destruct (products w !! productId) as [product|] eqn:Hfound;
      [|left; exists TypeError; simpl; auto].
    simpl. unfold product_save. simpl.
    destruct (_ <? 0); [left; eexists; simpl; split; [reflexivity|exact I]|].
    pose proof (Hwf _ _ Hfound) as Hid. simpl in Hid. rewrite Hid, Hfound.
    match goal with
    | |- context [run (decrement_stock rest k) ?w1] =>
        destruct (IH w1) as [Hthrown|[w' [Hrun [Hbeside Hstock]]]]
    end.
    { apply map_Forall_insert_2; [exact Hid|exact Hwf]. }
    + left. exact Hthrown.
    + right. exists w'. split; [exact Hrun|]. split; [exact Hbeside|].
      intros id. rewrite Hstock. simpl. unfold units. simpl.
      destruct (decide (productId = id)) as [->|Hne].
      * rewrite lookup_insert_eq, Hfound. simpl. f_equal.
        change (set_stock product (p_stock product - quantity)) with (take quantity product).
        apply take_take.
      * rewrite lookup_insert_ne by exact Hne. reflexivity.
Qed.

Lemma createOrder_201 (w : World) (user : oid) (body : OrderBody)
    (status : nat) (data : payload) :
  products_wf w ->
  fst (run (createOrder user body) w) = res_json status data ->
  exists o,
    status = 201%nat /\ data = OrderData o
    /\ o_orderItems o = b_orderItems body
    /\ orders (snd (run (createOrder user body) w)) = orders w ++ [o]
    /\ carts (snd (run (createOrder user body) w)) = carts w
    /\ intents (snd (run (createOrder user body) w)) = intents w
    /\ forall id,
         products (snd (run (createOrder user body) w)) !! id
         = take (units_ordered id [o]) <$> products w !! id.
Proof.
  intros Hwf. unfold createOrder.
  destruct (b_orderItems body) as [|item rest] eqn:Hitems; [discriminate|].
  rewrite <- Hitems. clear Hitems.
  match goal with
  | |- context [verify_items ?items ?k] =>
      destruct (verify_items_outcome items k w) as [[e ->]| ->]
  end; [discriminate|].
  simpl.
  match goal with
  | |- context [run (decrement_stock ?ls ?k) ?w1] =>
      destruct (decrement_stock_takes ls k w1 Hwf) as [[e [-> He]]|[w' [-> [Hbeside Hstock]]]]
  end; [discriminate|].
  simpl. intros [= <- <-]. eexists. split; [reflexivity|]. split; [reflexivity|].
  unfold beside_products in Hbeside. simpl in Hbeside.
  injection Hbeside as Hcarts Horders Hintents _ _.
  split; [reflexivity|]. split; [exact Horders|]. split; [exact Hcarts|].
  split; [exact Hintents|].
  intros id. rewrite Hstock. rewrite units_ordered_single. reflexivity.
Qed.

(** When [createOrder] answers 201, the order it reports is stored with the
    lines of the request, and every product of a well-formed catalog has lost
    exactly the units the order holds of it; carts and gateway are
    untouched. *)
Theorem createOrder_takes_what_it_orders (w : World) (user : oid) (body : OrderBody)
    (status : nat) (data : payload) :
  products_wf w ->
  fst (run (createOrder user body) w) = res_json status data ->
  exists o,
    status = 201%nat /\ data = OrderData o
    /\ o_orderItems o = b_orderItems body
    /\ orders (snd (run (createOrder user body) w)) = orders w ++ [o]
    /\ carts (snd (run (createOrder user body) w)) = carts w
    /\ intents (snd (run (createOrder user body) w)) = intents w
    /\ forall id,
         products (snd (run (createOrder user body) w)) !! id
         = take (units_ordered id [o]) <$> products w !! id.
Proof. apply createOrder_201. Qed.

Lemma verify_items_refusal (items : list OrderItem) (k : prog Response) (w : World) :
  (exists m code, run (verify_items items k) w = (next (ErrorResponse m code), w))
  \/ run (verify_items items k) w = run k w.
Proof.
  induction items as [|item rest IH]; simpl; [right; reflexivity|].
  destruct (products w !! oi_product item) as [product|]; [|left; eauto].
  destruct (_ <? _); [left; eauto|]. exact IH.
Qed.

(** When [createOrder] ends in the error of the stock validator, which
    [product.save()] throws in the stock loop, [Order.create] has already
    run: the order stays behind, unpaid, with the lines of the request. *)
Theorem createOrder_short_stock_leaves_order (w : World) (user : oid) (body : OrderBody) :
  fst (run (createOrder user body) w) = next (ValidationError "Stock cannot be negative") ->
  exists o,
    orders (snd (run (createOrder user body) w)) = orders w ++ [o]
    /\ o_orderItems o = b_orderItems body
    /\ o_user o = user
    /\ o_isPaid o = false.
Proof.
  unfold createOrder.
  destruct (b_orderItems body) as [|item rest] eqn:Hitems; [intros [=]|].
  rewrite <- Hitems. clear Hitems.
  match goal with
  | |- context [verify_items ?items ?k] =>
      destruct (verify_items_refusal items k w) as [[m [code ->]]| ->]
  end; [intros [=]|].
  simpl.
  match goal with
  | |- context [run (decrement_stock ?ls ?k) ?w1] =>
      destruct (decrement_stock_outcome ls k w1) as [[e' [Hres Hord]]|[w' [Hrun Hord]]]
  end.
  - intros _. eexists. rewrite Hord. simpl. repeat split.
  - rewrite Hrun. simpl. discriminate.
Qed.

(** Whatever becomes of the stock loop before what follows it, it changes
    neither carts nor orders. *)
Lemma decrement_stock_frame (lines : list (oid * Z)) (k : prog Response) (w : World) :
  (exists e, fst (run (decrement_stock lines k) w) = next e
             /\ beside_stock (snd (run (decrement_stock lines k) w)) = beside_stock w)
  \/ (exists w', run (decrement_stock lines k) w = run k w'
                 /\ beside_stock w' = beside_stock w).
Proof.
  revert w. induction lines as [|[productId quantity] rest IH]; intros w; simpl.
  - right. exists w. auto.
  - destruct (products w !! productId) as [product|]; [|left; exists TypeError; auto].
    simpl. unfold product_save.
    destruct (_ <? 0); [left; eexists; simpl; auto|].
    destruct (products w !! _); [|left; eexists; simpl; auto].
    match goal with
    | |- context [run (decrement_stock rest k) ?w1] =>
        destruct (IH w1) as [[e [Hres Hb]]|[w' [Hrun Hb]]]
    end.
    + left. exists e. auto.
    + right. exists w'. auto.
Qed.

(** *** Settlement *)

Lemma order_items_of_lines (w : World) (items : list CartItem) (ois : list OrderItem) :
  products_wf w ->
  order_items_of items (map (fun id => products w !! id) (map ci_product items)) = Some ois ->
  map product_and_quantity ois
  = map (fun item => (ci_product item, ci_quantity item)) items.
Proof.
  intros Hwf. revert ois. induction items as [|item rest IH]; intros ois; simpl.
  - intros [= <-]. reflexivity.
  - destruct (products w !! ci_product item) as [product|] eqn:Hfound; [|discriminate].
    destruct (order_items_of rest _) as [ois'|]; [|discriminate].
    simpl. intros [= <-]. simpl. unfold product_and_quantity at 1. simpl.
    rewrite (Hwf _ _ Hfound). f_equal. apply IH. reflexivity.
Qed.

(** When [processPayment] answers 201, the order it reports is stored, paid,
    priced from the cart's total, the user's cart is deleted, and every
    product of a well-formed catalog has lost exactly the units the order
    holds of it. *)
Theorem processPayment_settles (w : World) (user : oid) (email : string)
    (paymentIntentId : oid) (address : string) (status : nat) (data : payload) :
  products_wf w ->
  fst (run (processPayment user email paymentIntentId address) w) = res_json status data ->
  let w' := snd (run (processPayment user email paymentIntentId address) w) in
  exists cart o,
    cart_findOne user w = Some cart
    /\ status = 201%nat /\ data = OrderData o
    /\ orders w' = orders w ++ [o]
    /\ o_isPaid o = true
    /\ o_itemsPrice o = c_totalPrice cart
    /\ map product_and_quantity (o_orderItems o) = cart_lines cart
    /\ carts w' = filter (fun c => c_id c <> c_id cart) (carts w)
    /\ intents w' = intents w
    /\ forall id, products w' !! id = take (units_ordered id [o]) <$> products w !! id.
Proof.
  intros Hwf. unfold processPayment. simpl.
  destruct (stripe_retrieve paymentIntentId w) as [paymentIntent|]; [|discriminate].
  destruct (negb _); [discriminate|]. simpl.
  destruct (cart_findOne user w) as [cart|]; [|discriminate]. simpl.
  destruct (order_items_of _ _) as [orderItems|] eqn:Hois;
    [|destruct (c_items cart); discriminate].
  pose proof (order_items_of_lines w _ _ Hwf Hois) as Hlines.
  fold (cart_lines cart) in Hlines |- *. clear Hois.
  destruct (c_items cart) as [|item items]; [discriminate|].
  simpl.
  match goal with
  | |- context [run (decrement_stock ?ls ?k) ?w1] =>
      destruct (decrement_stock_takes ls k w1 Hwf) as [[e [-> He]]|[w' [-> [Hbeside Hstock]]]]
  end; [discriminate|].
  simpl. intros [= <- <-]. eexists cart, _.
  unfold beside_products in Hbeside. simpl in Hbeside.
  injection Hbeside as Hcarts Horders Hintents _ _.
  split; [reflexivity|]. split; [reflexivity|]. split; [reflexivity|].
  split; [exact Horders|]. split; [reflexivity|]. split; [reflexivity|].
  split; [exact Hlines|]. split; [rewrite Hcarts; reflexivity|].
  split; [exact Hintents|].
  intros id. rewrite Hstock. rewrite units_ordered_single. simpl. rewrite Hlines.
  reflexivity.
Qed.

(** [processPayment] does not look at the stock before it stores the order:
    when the stock loop is stopped by the validator, the paid order stays
    behind and the cart is still there. *)
Theorem processPayment_short_stock_leaves_order (w : World) (user : oid) (email : string)
    (paymentIntentId : oid) (address : string) (m : string) :
  fst (run (processPayment user email paymentIntentId address) w) = next (ValidationError m) ->
  let w' := snd (run (processPayment user email paymentIntentId address) w) in
  exists o,
    orders w' = orders w ++ [o]
    /\ o_isPaid o = true
    /\ o_user o = user
    /\ carts w' = carts w.
Proof.
  unfold processPayment. simpl.
  destruct (stripe_retrieve paymentIntentId w) as [paymentIntent|]; [|discriminate].
  destruct (negb _); [discriminate|]. simpl.
  destruct (cart_findOne user w) as [cart|]; [|discriminate]. simpl.
  set (lines := map (fun item => (ci_product item, ci_quantity item)) (c_items cart)).
  clearbody lines.
  destruct (c_items cart) as [|item items]; [discriminate|].
  destruct (order_items_of _ _) as [orderItems|]; [|discriminate].
  simpl.
  match goal with
  | |- context [run (decrement_stock ?ls ?k) ?w1] =>
      destruct (decrement_stock_frame ls k w1) as [[e [Hres Hbeside]]|[w' [Hrun Hbeside]]]
  end.
  - intros _. eexists. unfold beside_stock in Hbeside. simpl in Hbeside.
    injection Hbeside as -> ->. simpl. repeat split.
  - rewrite Hrun. simpl. discriminate.
Qed.

(** *** The cart after a request *)

Lemma cart_findOne_found (user : oid) (w : World) (cart : Cart) :
  cart_findOne user w = Some cart ->
  c_user cart = user /\ cart ∈ carts w
  /\ is_Some (list_find (fun d => c_id d = c_id cart) (carts w)).
Proof.
  unfold cart_findOne. destruct (list_find _ _) as [[j x]|] eqn:Hfind; [|discriminate].
  intros [= <-]. apply list_find_Some in Hfind as [Hlookup [Huser _]].
  assert (Hin : x ∈ carts w) by (apply list_elem_of_lookup; eauto).
  split; [exact Huser|]. split; [exact Hin|].
  apply (list_find_elem_of _ _ x); [exact Hin|reflexivity].
Qed.

(** The user's cart, once replaced by a cart of the same user and [_id], is
    the cart that [findOne] returns. *)
Lemma cart_findOne_replace (user : oid) (w : World) (cart c' : Cart) :
  cart_findOne user w = Some cart ->
  c_user c' = user ->
  c_id c' = c_id cart ->
  cart_findOne user (with_carts w (replace_cart c' (carts w))) = Some c'.
Proof.
  unfold cart_findOne. simpl. intros Hfound Huser Hid. revert Hfound.
  induction (carts w) as [|d cs IH]; simpl; [discriminate|].
  destruct (decide (c_id d = c_id c')) as [Heq|Hne].
  - intros _. rewrite decide_True by exact Huser. reflexivity.
  - destruct (decide (c_user d = user)) as [Hd|Hd].
    + intros [= ->]. congruence.
    + destruct (list_find _ cs) as [[j x]|]; [|discriminate].
      simpl. intros [= ->]. specialize (IH eq_refl).
      destruct (list_find _ (replace_cart c' cs)) as [[j' y]|]; [|discriminate].
      simpl in *. exact IH.
Qed.

Lemma items_valid_Forall (items : list CartItem) :
  items_valid items = true <-> Forall (fun item => 1 <= ci_quantity item) items.
Proof.
  unfold items_valid. induction items as [|item rest IH]; simpl.
  - split; [constructor|reflexivity].
  - rewrite andb_true_iff, IH, Forall_cons, Z.leb_le. reflexivity.
Qed.

(** A valid cart that is stored under its [_id] is saved, and the handler
    answers with it as saved. *)
Lemma save_and_respond_ok (c : Cart) (w : World) :
  items_valid (c_items c) = true ->
  is_Some (list_find (fun d => c_id d = c_id c) (carts w)) ->
  run (save_and_respond c) w
  = (res_json 200 (CartData (Some (pre_save c))
                     (map (fun id => products w !! id) (map ci_product (c_items c)))),
     with_carts w (replace_cart (pre_save c) (carts w))).
Proof.
  intros Hvalid Hstored. unfold save_and_respond, respond_with_cart. simpl.
  unfold cart_save. simpl. rewrite Hvalid. simpl.
  pose proof (find_replace_cart (pre_save c) (carts w) Hstored) as Hfind.
  destruct Hstored as [found Hstored]. simpl in Hstored. rewrite Hstored. simpl.
  unfold cart_findById. simpl. simpl in Hfind. rewrite Hfind. reflexivity.
Qed.

(** [getCart] creates the user's cart when there is none, empty and with a
    total of 0, and otherwise changes nothing; asked again, it finds the cart
    it created: no user is left with two carts. *)
Theorem getCart_creates_at_most_once (w : World) (user : oid) :
  let w1 := snd (run (getCart user) w) in
  is_Some (cart_findOne user w1)
  /\ snd (run (getCart user) w1) = w1
  /\ (is_Some (cart_findOne user w) -> w1 = w)
  /\ (cart_findOne user w = None ->
      carts w1 = carts w ++ [mkCart (next_oid w) user [] (num_of_Z 0)]).
Proof.
  cbv zeta. unfold getCart. simpl.
  destruct (cart_findOne user w) as [cart|] eqn:Hfound; simpl.
  - rewrite Hfound. simpl. split; [eauto|]. split; [reflexivity|].
    split; [reflexivity|discriminate].
  - assert (Hnew : cart_findOne user
                     (with_next_oid
                        (with_carts w (carts w ++ [pre_save (mkCart (next_oid w) user []
                                                              (num_of_Z 0))]))
                        (S (next_oid w)))
                   = Some (pre_save (mkCart (next_oid w) user [] (num_of_Z 0)))).
    { unfold cart_findOne in *. simpl.
      destruct (list_find _ (carts w)) as [found|] eqn:Hnone; [discriminate|].
      rewrite list_find_app_r by exact Hnone. simpl.
      rewrite decide_True by reflexivity. reflexivity. }
    rewrite Hnew. simpl. split; [eauto|]. split; [reflexivity|].
    split; [intros [? ?]; discriminate|reflexivity].
Qed.

(** A cart with no line of a product has no line that any spelling of the
    product's id matches. *)
Lemma find_line_absent (items : list CartItem) (productId : IdString) (product_id : oid) :
  castObjectId productId = Some product_id ->
  list_find (fun item => ci_product item = product_id) items = None ->
  list_find (fun item => toString (ci_product item) = productId) items = None.
Proof.
  intros Hcast Hnone. apply list_find_None. apply list_find_None in Hnone.
  eapply Forall_impl; [exact Hnone|]. intros item Hne Heq. apply Hne.
  rewrite <- Heq in Hcast. injection Hcast as <-. reflexivity.
Qed.

(** [addToCart] for a product the cart already holds, named by the string
    that [toString] gives of its id: the line's quantity becomes what [+=]
    makes of it (the sum, when the quantity is sent as a number; the digits
    appended, when it is sent as a string), its price stays the price it was
    added at (the catalog's current price is not read into it), and no line
    is added. *)
Theorem addToCart_existing_line (w : World) (user productId : oid) (quantity : QuantityParam)
    (product : Product) (cart : Cart) (itemIndex : nat) (item : CartItem) :
  products w !! productId = Some product ->
  cart_findOne user w = Some cart ->
  list_find (fun item => ci_product item = productId) (c_items cart) = Some (itemIndex, item) ->
  ToNumber quantity <= p_stock product ->
  add_assign (ci_quantity item) quantity <= p_stock product ->
  1 <= add_assign (ci_quantity item) quantity ->
  items_valid (c_items cart) = true ->
  let items' := <[itemIndex := mkCartItem (ci_id item) (ci_product item)
                                 (add_assign (ci_quantity item) quantity) (ci_price item)]>
                  (c_items cart) in
  let cart' := mkCart (c_id cart) user items' (cart_total items') in
  let out := run (addToCart user (toString productId) quantity) w in
  (exists populated, fst out = res_json 200 (CartData (Some cart') populated))
  /\ cart_findOne user (snd out) = Some cart'
  /\ length items' = length (c_items cart).
Proof.
  intros Hproduct Hcart Hline Hq Hsum Hpos Hvalid. cbv zeta.
  destruct (cart_findOne_found _ _ _ Hcart) as [Huser [_ Hstored]].
  unfold addToCart. simpl. rewrite Hproduct.
  destruct (Z.ltb_spec (p_stock product) (ToNumber quantity)); [lia|]. simpl. rewrite Hcart.
  unfold addToCart_in. rewrite find_line_toString, Hline. cbn [set_quantity ci_quantity].
  destruct (Z.ltb_spec (p_stock product) (add_assign (ci_quantity item) quantity)); [lia|].
  rewrite save_and_respond_ok; [| |exact Hstored].
  - unfold pre_save, set_items, set_totalPrice, set_quantity. simpl. rewrite Huser.
    split; [eauto|]. split; [|apply length_insert].
    apply (cart_findOne_replace user w cart); [exact Hcart|reflexivity|reflexivity].
  - simpl. apply items_valid_Forall, Forall_insert.
    + apply items_valid_Forall, Hvalid.
    + simpl. exact Hpos.
Qed.

Lemma addToCart_new_line_run (w : World) (user : oid) (productId : IdString)
    (product_id : oid) (quantity : QuantityParam) (product : Product) (cart : Cart) :
  castObjectId productId = Some product_id ->
  products w !! product_id = Some product ->
  cart_findOne user w = Some cart ->
  list_find (fun item => ci_product item = product_id) (c_items cart) = None ->
  1 <= ToNumber quantity <= p_stock product ->
  items_valid (c_items cart) = true ->
  let items' := c_items cart
                ++ [mkCartItem (next_oid w) product_id (ToNumber quantity) (p_price product)] in
  let cart' := mkCart (c_id cart) user items' (cart_total items') in
  let w1 := with_next_oid w (S (next_oid w)) in
  run (addToCart user productId quantity) w
  = (res_json 200 (CartData (Some cart')
                     (map (fun id => products w !! id) (map ci_product items'))),
     with_carts w1 (replace_cart cart' (carts w))).
Proof.
  intros Hcast Hproduct Hcart Hline [Hpos Hq] Hvalid. cbv zeta.
  destruct (cart_findOne_found _ _ _ Hcart) as [Huser [_ Hstored]].
  unfold addToCart. rewrite Hcast. simpl. rewrite Hproduct.
  destruct (Z.ltb_spec (p_stock product) (ToNumber quantity)); [lia|]. simpl. rewrite Hcart.
  unfold addToCart_in. rewrite (find_line_absent _ _ _ Hcast Hline). cbn [run].
  rewrite save_and_respond_ok; [| |exact Hstored].
  - unfold pre_save, set_items, set_totalPrice. simpl. rewrite Huser. reflexivity.
  - simpl. apply items_valid_Forall, Forall_app. split.
    + apply items_valid_Forall, Hvalid.
    + repeat constructor. simpl. exact Hpos.
Qed.

(** [addToCart] for a product the cart does not hold, under any spelling of
    its id: one line is added after the others, with the quantity asked for
    and the catalog's current price. *)
Theorem addToCart_new_line (w : World) (user : oid) (productId : IdString)
    (product_id : oid) (quantity : QuantityParam) (product : Product) (cart : Cart) :
  castObjectId productId = Some product_id ->
  products w !! product_id = Some product ->
  cart_findOne user w = Some cart ->
  list_find (fun item => ci_product item = product_id) (c_items cart) = None ->
  1 <= ToNumber quantity <= p_stock product ->
  items_valid (c_items cart) = true ->
  let items' := c_items cart
                ++ [mkCartItem (next_oid w) product_id (ToNumber quantity) (p_price product)] in
  let cart' := mkCart (c_id cart) user items' (cart_total items') in
  let out := run (addToCart user productId quantity) w in
  (exists populated, fst out = res_json 200 (CartData (Some cart') populated))
  /\ cart_findOne user (snd out) = Some cart'.
Proof.
  intros Hcast Hproduct Hcart Hline Hq Hvalid. cbv zeta.
  rewrite (addToCart_new_line_run w user productId product_id quantity product cart
             Hcast Hproduct Hcart Hline Hq Hvalid).
  simpl. split; [eauto|].
  apply (cart_findOne_replace user (with_next_oid w (S (next_oid w))) cart);
    [exact Hcart|reflexivity|reflexivity].
Qed.

Lemma removeFromCart_run (w : World) (user itemId : oid) (cart : Cart) (itemIndex : nat)
    (item : CartItem) :
  cart_findOne user w = Some cart ->
  list_find (fun item => ci_id item = itemId) (c_items cart) = Some (itemIndex, item) ->
  items_valid (c_items cart) = true ->
  let items' := delete itemIndex (c_items cart) in
  let cart' := mkCart (c_id cart) user items' (cart_total items') in
  run (removeFromCart user itemId) w
  = (res_json 200 (CartData (Some cart')
                     (map (fun id => products w !! id) (map ci_product items'))),
     with_carts w (replace_cart cart' (carts w))).
Proof.
  intros Hcart Hline Hvalid. cbv zeta.
  destruct (cart_findOne_found _ _ _ Hcart) as [Huser [_ Hstored]].
  unfold removeFromCart. simpl. rewrite Hcart, Hline.
  rewrite save_and_respond_ok; [| |exact Hstored].
  - unfold pre_save, set_items, set_totalPrice. simpl. rewrite Huser. reflexivity.
  - simpl. apply items_valid_Forall, Forall_delete, items_valid_Forall, Hvalid.
Qed.

(** [updateCartItem] on a line of the cart, for a quantity within the stock:
    a quantity of 0 or less removes the line, any other becomes the line's
    quantity; the line keeps its price and its place. *)
Theorem updateCartItem_sets_or_removes (w : World) (user itemId : oid) (quantity : Z)
    (cart : Cart) (itemIndex : nat) (item : CartItem) (product : Product) :
  cart_findOne user w = Some cart ->
  list_find (fun item => ci_id item = itemId) (c_items cart) = Some (itemIndex, item) ->
  products w !! ci_product item = Some product ->
  quantity <= p_stock product ->
  items_valid (c_items cart) = true ->
  let items' :=
    if quantity <=? 0 then delete itemIndex (c_items cart)
    else <[itemIndex := mkCartItem (ci_id item) (ci_product item) quantity (ci_price item)]>
           (c_items cart) in
  let cart' := mkCart (c_id cart) user items' (cart_total items') in
  let out := run (updateCartItem user itemId quantity) w in
  (exists populated, fst out = res_json 200 (CartData (Some cart') populated))
  /\ cart_findOne user (snd out) = Some cart'.
Proof.
  intros Hcart Hline Hproduct Hq Hvalid. cbv zeta.
  destruct (cart_findOne_found _ _ _ Hcart) as [Huser [_ Hstored]].
  unfold updateCartItem. simpl. rewrite Hcart, Hline. simpl. rewrite Hproduct.
  destruct (Z.ltb_spec (p_stock product) quantity); [lia|].
  destruct (Z.leb_spec quantity 0) as [Hle|Hgt].
  - rewrite save_and_respond_ok; [| |exact Hstored].
    + unfold pre_save, set_items, set_totalPrice. simpl. rewrite Huser.
      split; [eauto|].
      apply (cart_findOne_replace user w cart); [exact Hcart|reflexivity|reflexivity].
    + simpl. apply items_valid_Forall, Forall_delete, items_valid_Forall, Hvalid.
  - rewrite save_and_respond_ok; [| |exact Hstored].
    + unfold pre_save, set_items, set_totalPrice, set_quantity. simpl. rewrite Huser.
      split; [eauto|].
      apply (cart_findOne_replace user w cart); [exact Hcart|reflexivity|reflexivity].
    + simpl. apply items_valid_Forall, Forall_insert.
      * apply items_valid_Forall, Hvalid.
      * simpl. lia.
Qed.

(** [clearCart] on a user who has a cart always succeeds: the cart is kept
    under its [_id], with no line and a total of 0. *)
Theorem clearCart_empties (w : World) (user : oid) (cart : Cart) :
  cart_findOne user w = Some cart ->
  let cart' := mkCart (c_id cart) user [] (num_of_Z 0) in
  run (clearCart user) w
  = (res_json 200 (CartData (Some cart') []), with_carts w (replace_cart cart' (carts w)))
  /\ cart_findOne user (snd (run (clearCart user) w)) = Some cart'.
Proof.
  intros Hcart. cbv zeta.
  destruct (cart_findOne_found _ _ _ Hcart) as [Huser [_ [found Hstored]]].
  assert (Hrun : run (clearCart user) w
                 = (res_json 200 (CartData (Some (mkCart (c_id cart) user [] (num_of_Z 0))) []),
                    with_carts w (replace_cart (mkCart (c_id cart) user [] (num_of_Z 0))
                                    (carts w)))).
  { unfold clearCart. simpl. rewrite Hcart. simpl. unfold cart_save. simpl.
    rewrite Hstored. simpl. unfold pre_save, set_items, set_totalPrice. simpl.
    rewrite Huser. reflexivity. }
  rewrite Hrun. split; [reflexivity|].
  apply (cart_findOne_replace user w cart); [exact Hcart|reflexivity|reflexivity].
Qed.

(** Adding a product the cart does not hold and then removing the line that
    was created gives back the cart's lines as they were. *)
Theorem add_then_remove (w : World) (user : oid) (productId : IdString) (product_id : oid)
    (quantity : QuantityParam) (product : Product) (cart : Cart) :
  castObjectId productId = Some product_id ->
  products w !! product_id = Some product ->
  cart_findOne user w = Some cart ->
  list_find (fun item => ci_product item = product_id) (c_items cart) = None ->
  1 <= ToNumber quantity <= p_stock product ->
  items_valid (c_items cart) = true ->
  Forall (fun item => ci_id item <> next_oid w) (c_items cart) ->
  let w1 := snd (run (addToCart user productId quantity) w) in
  let out := run (removeFromCart user (next_oid w)) w1 in
  (exists populated,
      fst out = res_json 200 (CartData (Some (mkCart (c_id cart) user (c_items cart)
                                                 (cart_total (c_items cart)))) populated))
  /\ cart_findOne user (snd out)
     = Some (mkCart (c_id cart) user (c_items cart) (cart_total (c_items cart))).
Proof.
  intros Hcast Hproduct Hcart Hline Hq Hvalid Hfresh. cbv zeta.
  rewrite (addToCart_new_line_run w user productId product_id quantity product cart
             Hcast Hproduct Hcart Hline Hq Hvalid).
  cbn [snd].
  set (new := mkCartItem (next_oid w) product_id (ToNumber quantity) (p_price product)).
  set (cart1 := mkCart (c_id cart) user (c_items cart ++ [new])
                  (cart_total (c_items cart ++ [new]))).
  set (w1 := with_carts (with_next_oid w (S (next_oid w))) (replace_cart cart1 (carts w))).
  assert (Hcart1 : cart_findOne user w1 = Some cart1).
  { apply (cart_findOne_replace user (with_next_oid w (S (next_oid w))) cart);
      [exact Hcart|reflexivity|reflexivity]. }
  assert (Hfind : list_find (fun item => ci_id item = next_oid w) (c_items cart1)
                  = Some (length (c_items cart), new)).
  { simpl. rewrite list_find_app_r.
    - simpl. rewrite decide_True by reflexivity. simpl. rewrite ?Nat.add_0_r. reflexivity.
    - apply list_find_None. exact Hfresh. }
  assert (Hvalid1 : items_valid (c_items cart1) = true).
  { simpl. apply items_valid_Forall, Forall_app. split.
    - apply items_valid_Forall, Hvalid.
    - repeat constructor. simpl. lia. }
  rewrite (removeFromCart_run w1 user (next_oid w) cart1 _ new Hcart1 Hfind Hvalid1).
  cbn [c_items c_id cart1 snd fst].
  rewrite (delete_middle (c_items cart) [] new), app_nil_r.
  split; [eauto|].
  apply (cart_findOne_replace user w1 cart1); [exact Hcart1|reflexivity|reflexivity].
Qed.

(** *** What every stored cart looks like *)

Lemma quantities_positive_stable : stable quantities_positive.
Proof.
  intros R p w Hw. destruct p; simpl; try exact Hw.
  - unfold product_save. destruct (_ <? _); [exact Hw|].
    destruct (_ !! _); exact Hw.
  - apply Forall_app. split; [exact Hw|]. repeat constructor.
  - unfold cart_save. simpl.
    destruct (items_valid (c_items c)) eqn:Hvalid; simpl; [|exact Hw].
    destruct (list_find _ _); [|exact Hw].
    simpl. unfold quantities_positive, replace_cart in *. simpl.
    apply Forall_forall. intros d Hd. apply list_elem_of_In, in_map_iff in Hd.
    destruct Hd as [d0 [Hd0 Hin]]. destruct (decide _); subst d.
    + exact Hvalid.
    + rewrite Forall_forall in Hw. apply Hw, list_elem_of_In, Hin.
  - unfold quantities_positive, cart_delete in *. simpl.
    apply Forall_forall. intros d Hd. apply list_elem_of_filter in Hd.
    rewrite Forall_forall in Hw. apply Hw, Hd.
  - unfold order_save. destruct (order_findById _ _); exact Hw.
Qed.

(** Whatever requests are in flight and however their calls interleave, every
    line of every stored cart keeps a quantity of at least 1: a request that
    would store less is stopped by the schema's validator. *)
Theorem cart_quantities_stay_positive (w : World) (reqs : list request) (sched : list nat) :
  quantities_positive w ->
  quantities_positive (snd (run_sched sched (map handle reqs) w)).
Proof. apply stable_run_sched, quantities_positive_stable. Qed.

Lemma save_and_respond_carts (P : Cart -> Prop) (c : Cart) (w : World) :
  Forall P (carts w) -> P (pre_save c) ->
  Forall P (carts (snd (run (save_and_respond c) w))).
Proof.
  intros Hw Hc. unfold save_and_respond, respond_with_cart. simpl.
  unfold cart_save. destruct (negb _); [exact Hw|].
  destruct (list_find _ (carts w)); [|exact Hw]. simpl.
  assert (Hall : Forall P (replace_cart (pre_save c) (carts w))).
  { unfold replace_cart. apply Forall_forall. intros d Hd.
    apply list_elem_of_In, in_map_iff in Hd. destruct Hd as [d0 [Hd0 Hin]].
    destruct (decide _); subst d; [exact Hc|].
    rewrite Forall_forall in Hw. apply Hw, list_elem_of_In, Hin. }
  destruct (cart_findById _ _); exact Hall.
Qed.

(** The goal is about the carts after a cart handler has reached its
    [save]. *)
Ltac saved_carts P :=
  simpl;
  match goal with
  | |- context [cart_save ?cart ?w] => apply (save_and_respond_carts P cart w)
  end.

(** A property of carts that holds of an empty cart and that the four
    changes a handler makes to a cart's lines preserve is kept, by every
    request that spells its product as [toString] does, for every stored
    cart. *)
Lemma carts_keep (P : Cart -> Prop) :
  (forall id user, P (mkCart id user [] (num_of_Z 0))) ->
  (forall c i item q,
      P c -> c_items c !! i = Some item ->
      P (pre_save (set_items c (<[i := set_quantity item q]> (c_items c))))) ->
  (forall c i, P c -> P (pre_save (set_items c (delete i (c_items c))))) ->
  (forall c id productId q price,
      P c -> list_find (fun item => ci_product item = productId) (c_items c) = None ->
      P (pre_save (set_items c (c_items c ++ [mkCartItem id productId q price])))) ->
  forall (w : World) (r : request),
    plainly_spelled r ->
    Forall P (carts w) -> Forall P (carts (snd (run (handle r) w))).
Proof.
  intros Hempty Hset Hdelete Hadd w r Hplain Hw.
  assert (Hfound : forall user cart, cart_findOne user w = Some cart -> P cart).
  { intros user cart Hcart. destruct (cart_findOne_found _ _ _ Hcart) as [_ [Hin _]].
    rewrite Forall_forall in Hw. apply Hw, Hin. }
  destruct r as [user | user productId quantity | user itemId quantity | user itemId | user
                | user body | orderId body | user items shipping method
                | user email paymentIntentId address | constructed]; cbn [handle].
  - unfold getCart. simpl. destruct (cart_findOne user w); simpl; [exact Hw|].
    apply Forall_app. split; [exact Hw|]. repeat constructor. apply Hempty.
  - destruct productId as [productId|productId|]; [|destruct Hplain|exact Hw].
    unfold addToCart. simpl.
    destruct (products w !! productId) as [product|]; [|exact Hw].
    destruct (_ <? _); [exact Hw|]. simpl.
    destruct (cart_findOne user w) as [cart|] eqn:Hcart; simpl; unfold addToCart_in;
      rewrite ?find_line_toString.
    + destruct (list_find _ (c_items cart)) as [[itemIndex item]|] eqn:Hline.
      * destruct (_ <? _); [exact Hw|]. saved_carts P; [exact Hw|].
        apply list_find_Some in Hline as [Hlookup _].
        apply Hset; [eapply Hfound, Hcart|exact Hlookup].
      * saved_carts P; [exact Hw|]. apply Hadd; [eapply Hfound, Hcart|exact Hline].
    + saved_carts P.
      * apply Forall_app. split; [exact Hw|]. repeat constructor. apply Hempty.
      * apply (Hadd (mkCart (next_oid w) user [] (num_of_Z 0))); [apply Hempty|reflexivity].
  - unfold updateCartItem. simpl.
    destruct (cart_findOne user w) as [cart|] eqn:Hcart; [|exact Hw].
    destruct (list_find _ _) as [[itemIndex item]|] eqn:Hline; [|exact Hw]. simpl.
    destruct (products w !! ci_product item) as [product|]; [|exact Hw].
    destruct (_ <? _); [exact Hw|].
    destruct (_ <=? _); saved_carts P; try exact Hw.
    + apply Hdelete. eapply Hfound, Hcart.
    + apply list_find_Some in Hline as [Hlookup _].
      apply Hset; [eapply Hfound, Hcart|exact Hlookup].
  - unfold removeFromCart. simpl.
    destruct (cart_findOne user w) as [cart|] eqn:Hcart; [|exact Hw].
    destruct (list_find _ _) as [[itemIndex item]|]; [|exact Hw].
    saved_carts P; [exact Hw|]. apply Hdelete. eapply Hfound, Hcart.
  - unfold clearCart. simpl.
    destruct (cart_findOne user w) as [cart|] eqn:Hcart; [|exact Hw]. simpl.
    unfold cart_save. simpl. destruct (list_find _ (carts w)); [|exact Hw]. simpl.
    unfold replace_cart. apply Forall_forall. intros d Hd.
    apply list_elem_of_In, in_map_iff in Hd. destruct Hd as [d0 [Hd0 Hin]].
    destruct (decide _); subst d; [apply Hempty|].
    rewrite Forall_forall in Hw. apply Hw, list_elem_of_In, Hin.
  - unfold createOrder. destruct (b_orderItems body) as [|item rest] eqn:Hitems;
      [exact Hw|].
    rewrite <- Hitems. clear Hitems.
    match goal with
    | |- context [verify_items ?items ?k] =>
        destruct (verify_items_outcome items k w) as [[e ->]| ->]
    end; [exact Hw|].
    simpl.
    match goal with
    | |- context [run (decrement_stock ?ls ?k) ?w1] =>
        destruct (decrement_stock_frame ls k w1) as [[e [_ Hb]]|[w' [-> Hb]]]
    end; unfold beside_stock in Hb; simpl in Hb; injection Hb as Hb _.
    + rewrite Hb. exact Hw.
    + simpl. rewrite Hb. exact Hw.
  - rewrite updateOrderToPaid_run. destruct (order_findById orderId w); exact Hw.
  - unfold createPaymentIntent.
    match goal with
    | |- context [price_items ?items ?t ?k] =>
        destruct (price_items_outcome items t k w) as [[m' [code' ->]]|[total ->]]
    end; [exact Hw|].
    rewrite charge_run. exact Hw.
  - unfold processPayment. simpl.
    destruct (stripe_retrieve paymentIntentId w) as [paymentIntent|]; [|exact Hw].
    destruct (negb _); [exact Hw|]. simpl.
    destruct (cart_findOne user w) as [cart|]; [|exact Hw]. simpl.
    set (lines := map (fun item => (ci_product item, ci_quantity item)) (c_items cart)).
    clearbody lines.
    destruct (c_items cart) as [|item items]; [exact Hw|].
    destruct (order_items_of _ _) as [orderItems|]; [|exact Hw].
    simpl.
    match goal with
    | |- context [run (decrement_stock ?ls ?k) ?w1] =>
        destruct (decrement_stock_frame ls k w1) as [[e [_ Hb]]|[w' [-> Hb]]]
    end; unfold beside_stock in Hb; simpl in Hb; injection Hb as Hb _.
    + rewrite Hb. exact Hw.
    + simpl. rewrite Hb. apply Forall_forall. intros d Hd.
      apply list_elem_of_filter in Hd. rewrite Forall_forall in Hw. apply Hw, Hd.
  - rewrite handleWebhook_run. exact Hw.
Qed.

Lemma map_insert_same {A B} (f : A -> B) (l : list A) (i : nat) (x y : A) :
  l !! i = Some x -> f y = f x -> map f (<[i := y]> l) = map f l.
Proof.
  revert i. induction l as [|a l IH]; intros [|i]; simpl; try discriminate.
  - intros [= ->] ->. reflexivity.
  - intros Hx Hf. f_equal. apply IH; assumption.
Qed.

Lemma In_delete {A} (l : list A) (i : nat) (x : A) : In x (delete i l) -> In x l.
Proof.
  revert i. induction l as [|a l IH]; intros [|i]; simpl; auto.
  intros [->|Hin]; [auto|]. right. eapply IH, Hin.
Qed.

Lemma NoDup_map_delete {A B} (f : A -> B) (l : list A) (i : nat) :
  NoDup (map f l) -> NoDup (map f (delete i l)).
Proof.
  revert i. induction l as [|a l IH]; intros [|i]; simpl; auto.
  - intros H. apply NoDup_cons in H. tauto.
  - intros H. apply NoDup_cons in H as [Hnotin Hrest]. apply NoDup_cons. split.
    + intros Hin. apply Hnotin. apply list_elem_of_In, in_map_iff in Hin.
      destruct Hin as [x [Hx Hin]]. apply list_elem_of_In, in_map_iff.
      exists x. split; [exact Hx|]. eapply In_delete, Hin.
    + apply IH, Hrest.
Qed.

(** No request that names its product by the string [toString] gives of the
    id leaves a cart with two lines of the same product: [addToCart] then
    finds the line the cart holds. *)
Theorem one_line_per_product_kept (w : World) (rs : list request) :
  Forall plainly_spelled rs ->
  one_line_per_product w ->
  one_line_per_product (snd (serve rs w)).
Proof.
  intros Hrs. revert w. induction Hrs as [|r rs Hr Hrs IH]; intros w Hw; [exact Hw|].
  rewrite serve_cons. apply IH.
  apply (carts_keep (fun c => NoDup (map ci_product (c_items c)))); [..|exact Hr|exact Hw].
  - intros. simpl. constructor.
  - intros c i item q Hc Hlookup. simpl.
    rewrite (map_insert_same ci_product _ _ item); [exact Hc|exact Hlookup|reflexivity].
  - intros c i Hc. simpl. apply NoDup_map_delete, Hc.
  - intros c id productId q price Hc Hnone. simpl. rewrite map_app. simpl.
    apply NoDup_app. split; [exact Hc|]. split; [|apply NoDup_singleton].
    intros x Hx Hx'. apply list_elem_of_singleton in Hx'. subst x.
    apply list_elem_of_In, in_map_iff in Hx. destruct Hx as [item [Hitem Hin]].
    apply list_find_None in Hnone. rewrite Forall_forall in Hnone.
    apply (Hnone item); [apply list_elem_of_In, Hin|exact Hitem].
Qed.

(** *** Rewriting an order *)

Lemma find_replace_order_other (o' : Order) (id : oid) (os : list Order) :
  o_id o' <> id ->
  snd <$> list_find (fun d => o_id d = id) (replace_order o' os)
  = snd <$> list_find (fun d => o_id d = id) os.
Proof.
  intros Hne. induction os as [|d os IH]; simpl; [reflexivity|].
  destruct (decide (o_id d = o_id o')) as [Heq|Hother].
  - rewrite decide_False by exact Hne. rewrite decide_False by congruence.
    destruct (list_find _ (replace_order o' os)) as [[j y]|];
      destruct (list_find _ os) as [[j' y']|]; simpl in *; congruence.
  - destruct (decide (o_id d = id)); [reflexivity|].
    destruct (list_find _ (replace_order o' os)) as [[j y]|];
      destruct (list_find _ os) as [[j' y']|]; simpl in *; congruence.
Qed.

(** The order found under [id], once an order found under [orderId] has been
    rewritten as [o']. *)
Lemma order_findById_after_save (w : World) (orderId id : oid) (order o' : Order) :
  order_findById orderId w = Some order ->
  o_id o' = o_id order ->
  order_findById id (with_orders w (replace_order o' (orders w)))
  = if decide (id = orderId) then Some o' else order_findById id w.
Proof.
  intros Hfound Hid. pose proof (order_findById_id _ _ _ Hfound) as Horder.
  unfold order_findById in *. simpl. destruct (decide (id = orderId)) as [->|Hne].
  - rewrite <- Horder, <- Hid. apply find_replace_order.
    rewrite Hid, Horder. destruct (list_find _ (orders w)); [eauto|discriminate].
  - apply find_replace_order_other. congruence.
Qed.

Lemma save_order_and_respond_run (w : World) (orderId : oid) (order o' : Order) :
  order_findById orderId w = Some order ->
  o_id o' = o_id order ->
  run (save_order_and_respond o') w
  = (res_json 200 (OrderData o'), with_orders w (replace_order o' (orders w))).
Proof.
  intros Hfound Hid. unfold save_order_and_respond. simpl. unfold order_save.
  rewrite Hid, (order_findById_id _ _ _ Hfound), Hfound. reflexivity.
Qed.

Lemma apply_update_run (w : World) (u : order_update) :
  run (apply_update u) w
  = match order_findById (target u) w with
    | None => (next (ErrorResponse (Order_not_found_with_id_of (target u)) 404), w)
    | Some order =>
        (res_json 200 (OrderData (updated u (clock w) order)),
         with_orders w (replace_order (updated u (clock w) order) (orders w)))
    end.
Proof.
  destruct u as [orderId body|orderId|orderId status]; simpl.
  - apply updateOrderToPaid_run.
  - unfold updateOrderToDelivered. simpl.
    destruct (order_findById orderId w) as [order|] eqn:Hfound; [|reflexivity].
    simpl. apply (save_order_and_respond_run w orderId order); [exact Hfound|reflexivity].
  - unfold updateOrderStatus. simpl.
    destruct (order_findById orderId w) as [order|] eqn:Hfound; [|reflexivity].
    destruct (String.eqb_spec status "delivered") as [->|_]; simpl;
      apply (save_order_and_respond_run w orderId order); try exact Hfound; reflexivity.
Qed.

(** Setting the status to "delivered" is marking the order delivered: the
    two handlers answer alike and leave the same store.  On a stored order
    the answer is 200 with the order as it is then stored under its [_id]:
    flagged delivered, delivered now, with status "delivered", and otherwise
    as it was found.  On no order it is the 404, and nothing changes. *)
Theorem status_delivered_is_deliver (w : World) (orderId : oid) :
  run (updateOrderStatus orderId "delivered") w = run (updateOrderToDelivered orderId) w
  /\ (forall order,
        order_findById orderId w = Some order ->
        exists order',
          fst (run (updateOrderStatus orderId "delivered") w) = res_json 200 (OrderData order')
          /\ order_findById orderId (snd (run (updateOrderStatus orderId "delivered") w))
             = Some order'
          /\ o_isDelivered order' = true
          /\ o_deliveredAt order' = Some (clock w)
          /\ o_status order' = "delivered"
          /\ order_terms order' = order_terms order
          /\ o_isPaid order' = o_isPaid order
          /\ o_paidAt order' = o_paidAt order
          /\ o_paymentResult order' = o_paymentResult order)
  /\ (order_findById orderId w = None ->
      run (updateOrderStatus orderId "delivered") w
      = (next (ErrorResponse (Order_not_found_with_id_of orderId) 404), w)).
Proof.
  split; [|split].
  - unfold updateOrderStatus, updateOrderToDelivered. simpl.
    destruct (order_findById orderId w); reflexivity.
  - intros order Hfound. exists (mark_delivered order (clock w)).
    pose proof (apply_update_run w (PUT_status orderId "delivered")) as Hrun.
    change (apply_update (PUT_status orderId "delivered"))
      with (updateOrderStatus orderId "delivered") in Hrun.
    change (target (PUT_status orderId "delivered")) with orderId in Hrun.
    rewrite Hfound in Hrun.
    change (updated (PUT_status orderId "delivered") (clock w) order)
      with (mark_delivered order (clock w)) in Hrun.
    rewrite Hrun. cbn [fst snd]. split; [reflexivity|]. split; [|repeat split].
    rewrite (order_findById_after_save w orderId orderId order); [|exact Hfound|reflexivity].
    rewrite decide_True by reflexivity. reflexivity.
  - intros Hnone. unfold updateOrderStatus. simpl. rewrite Hnone. reflexivity.
Qed.

(** Marking an order paid or delivered, or setting its status, never changes
    an order's owner, lines, address or prices, never takes back [isPaid] or
    [isDelivered], and removes no order: whatever order was stored under an
    [_id] is still stored under it, on the same terms. *)
Theorem updates_keep_order_terms (w : World) (u : order_update) (id : oid) (order : Order) :
  order_findById id w = Some order ->
  exists order',
    order_findById id (snd (run (apply_update u) w)) = Some order'
    /\ order_terms order' = order_terms order
    /\ (o_isPaid order = true -> o_isPaid order' = true)
    /\ (o_isDelivered order = true -> o_isDelivered order' = true).
Proof.
  intros Hfound. rewrite apply_update_run.
  destruct (order_findById (target u) w) as [found|] eqn:Htarget; simpl.
  - rewrite (order_findById_after_save w (target u) id found);
      [|exact Htarget|destruct u; simpl; try destruct (String.eqb _ _); reflexivity].
    destruct (decide (id = target u)) as [->|Hne].
    + rewrite Htarget in Hfound. injection Hfound as ->.
      eexists. split; [reflexivity|].
      destruct u; simpl; try destruct (String.eqb _ _); simpl; auto.
    + exists order. auto.
  - exists order. auto.
Qed.

(** A status other than "delivered" is stored as it is given and leaves the
    delivery flags as they were: an order that was delivered stays flagged
    delivered under any later status. *)
Theorem status_change_keeps_delivery_flags (w : World) (orderId : oid) (status : string)
    (order : Order) :
  order_findById orderId w = Some order ->
  status <> "delivered" ->
  exists order',
    order_findById orderId (snd (run (updateOrderStatus orderId status) w)) = Some order'
    /\ o_status order' = status
    /\ o_isDelivered order' = o_isDelivered order
    /\ o_deliveredAt order' = o_deliveredAt order.
Proof.
  intros Hfound Hstatus.
  change (updateOrderStatus orderId status) with (apply_update (PUT_status orderId status)).
  rewrite apply_update_run. simpl. rewrite Hfound. simpl.
  destruct (String.eqb_spec status "delivered") as [->|_]; [contradiction|].
  rewrite (order_findById_after_save w orderId orderId order); [|exact Hfound|reflexivity].
  rewrite decide_True by reflexivity. eexists. split; [reflexivity|]. simpl. auto.
Qed.

(** *** Reading and deleting orders *)

(** [getOrderById] discloses an order only to its owner or to an admin, and
    the order it discloses is the stored order of that [_id]. *)
Theorem getOrderById_owner_or_admin (users : gmap nat User) (requester : User)
    (orderId : oid) (w : World) (status : nat) (order : Order) (owner : User) :
  getOrderById users requester orderId w = reply_order status order owner ->
  order_findById orderId w = Some order
  /\ users !! o_user order = Some owner
  /\ (u_id owner = u_id requester \/ u_role requester = "admin").
Proof.
  unfold getOrderById.
  destruct (order_findById orderId w) as [found|]; [|discriminate].
  destruct (users !! o_user found) as [u|] eqn:Howner; [|discriminate].
  destruct (Nat.eqb_spec (u_id u) (u_id requester)) as [Heq|Hne]; simpl.
  - intros [= _ <- <-]. auto.
  - destruct (String.eqb_spec (u_role requester) "admin") as [Hadmin|Hnot]; simpl;
      [|discriminate].
    intros [= _ <- <-]. auto.
Qed.

(** The owner of a stored order is always given it. *)
Theorem getOrderById_owner_reads (users : gmap nat User) (requester : User)
    (orderId : oid) (w : World) (order : Order) :
  order_findById orderId w = Some order ->
  users !! o_user order = Some requester ->
  getOrderById users requester orderId w = reply_order 200 order requester.
Proof.
  intros Hfound Howner. unfold getOrderById. rewrite Hfound, Howner.
  rewrite Nat.eqb_refl. reflexivity.
Qed.

Lemma find_after_delete (id : oid) (os : list Order) :
  list_find (fun d => o_id d = id) (filter (fun o => o_id o <> id) os) = None.
Proof.
  apply list_find_None, Forall_forall. intros d Hd.
  apply list_elem_of_filter in Hd as [Hne _]. exact Hne.
Qed.

(** An order whose owner's account is gone is still on the admin's list, with
    no owner, but cannot be opened by anyone: [getOrderById] reads the [_id]
    of the missing owner and throws. *)
Theorem orphaned_order_is_listed_not_opened (users : gmap nat User) (requester : User)
    (orderId : oid) (w : World) (order : Order) :
  order_findById orderId w = Some order ->
  users !! o_user order = None ->
  getOrderById users requester orderId w = reply_next TypeError
  /\ exists data,
       getOrders users w = reply_populated 200 (length (orders w)) data
       /\ In (order, None) data.
Proof.
  intros Hfound Hgone. split.
  - unfold getOrderById. rewrite Hfound, Hgone. reflexivity.
  - unfold getOrders. cbv zeta. rewrite length_map. eexists. split; [reflexivity|].
    apply in_map_iff. exists order. split; [unfold populate_user; rewrite Hgone; reflexivity|].
    unfold order_findById in Hfound.
    destruct (list_find _ (orders w)) as [[j found]|] eqn:Hfind; [|discriminate].
    injection Hfound as ->. apply list_find_Some in Hfind as [Hj _].
    apply list_elem_of_In. eapply list_elem_of_lookup_2. exact Hj.
Qed.

(** [deleteOrder] removes the order and nothing else: afterwards no order is
    stored under that [_id], a second delete answers 404 and changes nothing,
    and products, carts and intents are as they were (no stock comes
    back). *)
Theorem deleteOrder_removes (orderId : oid) (w : World) (order : Order) :
  order_findById orderId w = Some order ->
  let w' := snd (deleteOrder orderId w) in
  fst (deleteOrder orderId w) = reply_empty 200
  /\ order_findById orderId w' = None
  /\ deleteOrder orderId w'
     = (reply_next (ErrorResponse (Order_not_found_with_id_of orderId) 404), w')
  /\ products w' = products w /\ carts w' = carts w /\ intents w' = intents w
  /\ forall o, o ∈ orders w' <-> o ∈ orders w /\ o_id o <> orderId.
Proof.
  intros Hfound. cbv zeta. pose proof (order_findById_id _ _ _ Hfound) as Hid.
  unfold deleteOrder. rewrite Hfound. simpl. rewrite Hid.
  assert (Hgone : order_findById orderId
                    (with_orders w (filter (fun o => o_id o <> orderId) (orders w))) = None).
  { unfold order_findById. simpl. rewrite find_after_delete. reflexivity. }
  rewrite Hgone. split; [reflexivity|]. split; [reflexivity|]. split; [reflexivity|].
  split; [reflexivity|]. split; [reflexivity|]. split; [reflexivity|].
  intros o. simpl. rewrite list_elem_of_filter. tauto.
Qed.

(** [getMyOrders] lists, in stored order, the requester's orders and no
    other; an order settled for a user is on the user's list at once and on
    nobody else's. *)
Theorem settled_order_is_listed (w : World) (user : oid) (email : string)
    (paymentIntentId : oid) (address : string) (o : Order) (requester : User) :
  fst (run (processPayment user email paymentIntentId address) w)
  = res_json 201 (OrderData o) ->
  let w' := snd (run (processPayment user email paymentIntentId address) w) in
  forall mine, getMyOrders requester w = reply_orders 200 (length mine) mine ->
  getMyOrders requester w'
  = if decide (u_id requester = user)
    then reply_orders 200 (S (length mine)) (mine ++ [o])
    else reply_orders 200 (length mine) mine.
Proof.
  intros Hres. cbv zeta.
  destruct (processPayment_orders w user email paymentIntentId address)
    as [[[e He] _]|[cart [o' [_ [Hmore [Hdata _]]]]]]; [congruence|].
  specialize (Hdata _ Hres). injection Hdata as ->.
  assert (Huser : o_user o' = user).
  { revert Hres. unfold processPayment. simpl.
    destruct (stripe_retrieve paymentIntentId w) as [paymentIntent|]; [|discriminate].
    destruct (negb _); [discriminate|]. simpl.
    destruct (cart_findOne user w) as [cart0|]; [|discriminate]. simpl.
    set (lines := map (fun item => (ci_product item, ci_quantity item)) (c_items cart0)).
    clearbody lines.
    destruct (c_items cart0) as [|item items]; [discriminate|].
    destruct (order_items_of _ _) as [orderItems|]; [|discriminate].
    simpl.
    match goal with
    | |- context [run (decrement_stock ?ls ?k) ?w1] =>
        destruct (decrement_stock_thrown ls k w1) as [[e [-> He]]|[w' ->]]
    end; [discriminate|]. simpl. intros [= <-]. reflexivity. }
  intros mine. unfold getMyOrders. rewrite Hmore. intros [= _ Hmine].
  rewrite filter_app, <- Hmine.
  destruct (decide (u_id requester = user)) as [Heq|Hne].
  - rewrite filter_cons_True by congruence. rewrite filter_nil.
    rewrite length_app, Nat.add_1_r. reflexivity.
  - rewrite filter_cons_False by congruence. rewrite filter_nil, app_nil_r. reflexivity.
Qed.

(** An order that [createOrder] stored and [deleteOrder] then removed leaves
    the catalog as the order left it: the units it took do not come back. *)
Theorem deleted_order_is_not_restocked (w : World) (user : oid) (body : OrderBody)
    (o : Order) :
  products_wf w ->
  fst (run (createOrder user body) w) = res_json 201 (OrderData o) ->
  let out := deleteOrder (o_id o) (snd (run (createOrder user body) w)) in
  fst out = reply_empty 200
  /\ order_findById (o_id o) (snd out) = None
  /\ forall id, products (snd out) !! id = take (units_ordered id [o]) <$> products w !! id.
Proof.
  intros Hwf Hres. cbv zeta.
  destruct (createOrder_201 w user body _ _ Hwf Hres)
    as [o' [_ [Hdata [_ [Horders [_ [_ Hstock]]]]]]].
  injection Hdata as <-.
  set (w1 := snd (run (createOrder user body) w)) in *.
  assert (Hsome : is_Some (order_findById (o_id o) w1)).
  { unfold order_findById.
    destruct (list_find_elem_of (fun d => o_id d = o_id o) (orders w1) o) as [[j x] ->];
      [rewrite Horders; apply elem_of_app; right; apply list_elem_of_singleton; reflexivity
      |reflexivity|simpl; eauto]. }
  destruct Hsome as [found Hfound]. pose proof (order_findById_id _ _ _ Hfound) as Hid.
  unfold deleteOrder. rewrite Hfound. simpl. rewrite Hid.
  split; [reflexivity|]. split; [|exact Hstock].
  unfold order_findById. simpl. rewrite find_after_delete. reflexivity.
Qed.

(** *** The payment controller and the gateway *)


Lemma no_gateway_step R (p : prog R) (w : World) (pis : list PaymentIntent) :
  no_gateway p ->
  step1 p (with_intents w pis) = (fst (step1 p w), with_intents (snd (step1 p w)) pis)
  /\ no_gateway (fst (step1 p w)).
Proof.
  destruct p; simpl; intros Hp; try contradiction; auto;
    unfold product_save, cart_save, order_save, order_findById; simpl;
    repeat match goal with
           | |- context [if ?b then _ else _] => destruct b
           | |- context [match ?x with Some _ => _ | None => _ end] => destruct x
           end; simpl; auto.
Qed.

(** A handler that makes no call to the gateway runs the same whatever the
    gateway holds. *)
Lemma no_gateway_run R (p : prog R) (w : World) (pis : list PaymentIntent) :
  no_gateway p ->
  run p (with_intents w pis) = (fst (run p w), with_intents (snd (run p w)) pis).
Proof.
  revert w.
  induction p as [r|k IH|k IH|id k IH|p k IH|ids k IH|u k IH|id k IH|u k IH|c k IH
                 |id k IH|o k IH|id k IH|o k IH|a c m u o k IH|id k IH];
    intros w Hp; [reflexivity|..];
    try (simpl in Hp; contradiction);
    rewrite (run_step1 _ _ w), (run_step1 _ _ (with_intents w pis));
    match goal with
    | |- context [step1 ?q w] =>
        destruct (no_gateway_step _ q w pis Hp) as [-> Hnext];
        destruct (step1 q w) as [p' w'] eqn:Hstep
    end;
    cbn [fst snd];
    assert (exists x, p' = k x) as [x ->]
      by (revert Hstep; simpl;
          try match goal with
              | |- context [product_save ?a ?b] => destruct (product_save a b)
              | |- context [cart_create ?a ?b] => destruct (cart_create a b)
              | |- context [cart_save ?a ?b] => destruct (cart_save a b)
              | |- context [order_create ?a ?b] => destruct (order_create a b)
              | |- context [order_save ?a ?b] => destruct (order_save a b)
              end; intros [= <- <-]; eauto);
    apply IH, Hp.
Qed.

Lemma no_gateway_decrement_stock (lines : list (oid * Z)) (k : prog Response) :
  no_gateway k -> no_gateway (decrement_stock lines k).
Proof.
  intros Hk. induction lines as [|[productId quantity] rest IH]; simpl; [exact Hk|].
  intros [product|]; simpl; [|exact I]. intros [doc|e]; simpl; [exact IH|exact I].
Qed.

Lemma retrieve_same_view (id : oid) (pis1 pis2 : list PaymentIntent) :
  gateway_view pis1 = gateway_view pis2 ->
  pi_status <$> (snd <$> list_find (fun i => pi_id i = id) pis1)
  = pi_status <$> (snd <$> list_find (fun i => pi_id i = id) pis2).
Proof.
  revert pis2. induction pis1 as [|i1 pis1 IH]; intros [|i2 pis2]; simpl; try discriminate;
    [reflexivity|].
  intros [= Hid Hstatus Hrest]. rewrite Hid.
  destruct (decide (pi_id i2 = id)); simpl; [congruence|].
  specialize (IH _ Hrest).
  destruct (list_find _ pis1) as [[j x]|]; destruct (list_find _ pis2) as [[j' y]|];
    simpl in *; congruence.
Qed.

(** [processPayment] reads of the gateway only whether the intent exists and
    whether it has succeeded: with the same intents in the same states, but
    for any amounts and any users, it gives the same answer and leaves the
    same store.  The amount paid and the payer are not compared with the
    cart. *)
Theorem processPayment_reads_only_status (w : World) (pis : list PaymentIntent)
    (user : oid) (email : string) (paymentIntentId : oid) (address : string) :
  gateway_view pis = gateway_view (intents w) ->
  run (processPayment user email paymentIntentId address) (with_intents w pis)
  = (fst (run (processPayment user email paymentIntentId address) w),
     with_intents (snd (run (processPayment user email paymentIntentId address) w)) pis).
Proof.
  intros Hview. unfold processPayment. cbn [run].
  pose proof (retrieve_same_view paymentIntentId _ _ Hview) as Hsame.
  unfold stripe_retrieve. cbn [intents with_intents].
  destruct (list_find _ pis) as [[j1 i1]|]; destruct (list_find _ (intents w)) as [[j2 i2]|];
    simpl in Hsame; try discriminate; [|reflexivity].
  injection Hsame as Hstatus. cbn [fmap option_fmap option_map snd]. rewrite Hstatus.
  destruct (negb _); [reflexivity|].
  apply no_gateway_run.
  simpl. intros [cart|]; simpl; [|exact I]. intros populated.
  set (lines := map (fun item => (ci_product item, ci_quantity item)) (c_items cart)).
  clearbody lines.
  destruct (c_items cart); [exact I|].
  destruct (order_items_of _ _); simpl; [|exact I].
  intros update_time paidAt order. apply no_gateway_decrement_stock. simpl. auto.
Qed.

Lemma order_items_of_gone (w : World) (items : list CartItem) (item : CartItem) :
  In item items ->
  products w !! ci_product item = None ->
  order_items_of items (map (fun id => products w !! id) (map ci_product items)) = None.
Proof.
  intros Hin Hgone. induction items as [|first rest IH]; [contradiction|].
  simpl. destruct Hin as [->|Hin]; [rewrite Hgone; reflexivity|].
  destruct (products w !! ci_product first); [|reflexivity].
  rewrite (IH Hin). reflexivity.
Qed.

(** A paid cart that holds a product which is no longer in the catalog
    cannot be settled: [processPayment] stops in building the order's lines,
    before it has written anything. *)
Theorem processPayment_gone_product (w : World) (user : oid) (email : string)
    (paymentIntentId : oid) (address : string) (intent : PaymentIntent) (cart : Cart)
    (item : CartItem) :
  stripe_retrieve paymentIntentId w = Some intent ->
  pi_status intent = "succeeded" ->
  cart_findOne user w = Some cart ->
  In item (c_items cart) ->
  products w !! ci_product item = None ->
  run (processPayment user email paymentIntentId address) w = (next TypeError, w).
Proof.
  intros Hintent Hstatus Hcart Hin Hgone. unfold processPayment. cbn [run].
  rewrite Hintent, Hstatus. cbn [String.eqb Ascii.eqb Bool.eqb negb run].
  rewrite Hcart. cbn [run].
  rewrite (order_items_of_gone w _ item Hin Hgone).
  destruct (c_items cart); [contradiction|reflexivity].
Qed.

(** *** Paging *)

Section PagingProperties.
Context {A : Type}.
Implicit Types matching : list A.

Lemma getProducts_page_within matching (page limit : Z) :
  1 <= page -> 1 <= limit ->
  getProducts_page matching (Some page) (Some limit)
  = Some (mkPage
            (length (firstn (Z.to_nat limit)
                       (skipn (Z.to_nat ((page - 1) * limit)) matching)))
            (if page * limit <? Z.of_nat (length matching)
             then Some (mkPageLink (page + 1) limit) else None)
            (if 0 <? (page - 1) * limit then Some (mkPageLink (page - 1) limit) else None)
            (firstn (Z.to_nat limit) (skipn (Z.to_nat ((page - 1) * limit)) matching))).
Proof.
  intros Hpage Hlimit. unfold getProducts_page, parse_or.
  destruct (Z.eqb_spec page 0); [lia|]. destruct (Z.eqb_spec limit 0); [lia|].
  cbv zeta. destruct (Z.ltb_spec ((page - 1) * limit) 0); [nia|].
  rewrite Z.abs_eq by lia. reflexivity.
Qed.



(** On a page at or after the first, with a page size of at least 1: the
    page holds at most [limit] products and [count] counts them; there is a
    [next] link, to the page after, exactly when that page is not empty, and
    a [prev] link, to the page before, exactly when this is not page 1. *)
Theorem page_links_are_exact matching (page limit : Z) :
  1 <= page -> 1 <= limit ->
  exists p p',
    getProducts_page matching (Some page) (Some limit) = Some p
    /\ getProducts_page matching (Some (page + 1)) (Some limit) = Some p'
    /\ pg_count p = length (pg_data p)
    /\ Z.of_nat (pg_count p) <= limit
    /\ pg_next p = (if decide (pg_data p' = []) then None
                    else Some (mkPageLink (page + 1) limit))
    /\ pg_prev p = (if decide (page = 1) then None else Some (mkPageLink (page - 1) limit)).
Proof.
  intros Hpage Hlimit.
  rewrite !getProducts_page_within by lia.
  eexists _, _. split; [reflexivity|]. split; [reflexivity|]. simpl.
  split; [reflexivity|]. split; [rewrite length_firstn; lia|]. split.
  - replace ((page + 1 - 1) * limit) with (page * limit) by lia.
    destruct (Z.ltb_spec (page * limit) (Z.of_nat (length matching))) as [Hmore|Hlast].
    + rewrite decide_False; [reflexivity|].
      intros Hnil. apply (f_equal length) in Hnil.
      rewrite length_firstn, length_skipn in Hnil. simpl in Hnil. nia.
    + rewrite decide_True; [reflexivity|].
      rewrite skipn_all2 by nia. apply firstn_nil.
  - destruct (Z.ltb_spec 0 ((page - 1) * limit)); destruct (decide (page = 1));
      try reflexivity; nia.
Qed.

End PagingProperties.

(** The catalog of the worked scenarios is stored under its own ids. *)
Lemma shop_products_wf : products_wf shop.
Proof.
  apply map_Forall_insert_2; [reflexivity|].
  apply map_Forall_insert_2; [reflexivity|apply map_Forall_empty].
Qed.

End Further.

(** ** The worked figures, in exact decimals and in binary64 *)

Lemma float_neq (x y : float) : Prim2SF x <> Prim2SF y -> x <> y.
Proof. intros Hne Heq. apply Hne. rewrite Heq. reflexivity. Qed.

Lemma intent_for_two_at_25_from_total {JSN : JSNumber} (itemsPrice tax total amount : num) :
  num_add (num_of_Z 0) (num_mul (num_of_Z 25) (num_of_Z 2)) = itemsPrice ->
  q_taxAmount (quote itemsPrice (Some (num_of_Z 5))) = tax ->
  q_total (quote itemsPrice (Some (num_of_Z 5))) = total ->
  q_finalAmount (quote itemsPrice (Some (num_of_Z 5))) = amount ->
  intent_for_two_at_25 itemsPrice tax total amount.
Proof.
  intros Hitems Htax Htotal Hamount w user productId product name price image method
    Hfound Hprice Hstock.
  cbv zeta. split; [|split; [exact Htax|split; [exact Htotal|split; [exact Hamount|]]]].
  - unfold createPaymentIntent. simpl. rewrite Hfound.
    destruct (Z.ltb_spec (p_stock product) 2) as [Hshort|_]; [lia|].
    rewrite Hprice, Hitems. reflexivity.
  - rewrite charge_run. cbv zeta. rewrite Hamount. eexists. split; reflexivity.
Qed.

(** C4: for two units of a product whose catalog price is 25.00 and whose
    stock is at least 2, with shipping 5.00, [createPaymentIntent] charges
    the quote of an items price of 50.00: tax 3.50, total 58.50, and a gateway
    amount of 5850, which is the amount of the intent it creates and of its
    response.  In binary64 the tax is the double next above 3.5 (3.50 to the
    cent), the total is 58.5 and the amount is 5850 all the same. *)
Theorem intent_for_two_B_is_5850 :
  @intent_for_two_at_25 Exact 50%Q (7 # 2)%Q (117 # 2)%Q 5850%Q
  /\ @intent_for_two_at_25 Binary64 50%float 0x1.c000000000001p+1%float 58.5%float
       5850%float
  /\ @Math_round Binary64 (0x1.c000000000001p+1 * 100)%float = 350%float.
Proof.
  split; [|split].
  - apply intent_for_two_at_25_from_total; reflexivity.
  - apply intent_for_two_at_25_from_total; reflexivity.
  - reflexivity.
Qed.

(** An [addToCart] that names the product by the string [toString] gives of
    its id and sends the quantity as a number, and whose quantity, added to
    what the cart already holds of the product, exceeds the stock, is refused
    with a 400 for insufficient stock, and the store, the cart included, is
    unchanged.  In particular, with product A at 10.00 and 5 in stock: adding
    3 gives a cart of 3 with total 30.00; adding 3 again is refused, and the
    cart is still 3 units and 30.00. *)
Theorem addToCart_beyond_stock_is_refused :
  (forall (JSN : JSNumber) (w : World) (user productId : oid) (quantity : Z)
          (product : Product),
      products w !! productId = Some product ->
      p_stock product < quantity_in_cart w user productId + quantity ->
      insufficient_stock (fst (run (addToCart user (toString productId) (Number quantity)) w))
      /\ snd (run (addToCart user (toString productId) (Number quantity)) w) = w)
  /\ @add_three_twice Exact
  /\ @add_three_twice Binary64.
Proof.
  split; [intros JSN w user productId quantity product; apply addToCart_over_stock|].
  split; unfold add_three_twice; cbv zeta; repeat split; reflexivity.
Qed.

(** A quantity sent as a number is added to a line's quantity; sent as the
    string of the same digit, it is appended to it. *)
Example add_assign_appends_a_string :
  add_assign 3 (Number 2) = 5
  /\ add_assign 3 (Numeral d2 []) = 32
  /\ ToNumber (Numeral d2 []) = 2.
Proof. repeat split. Qed.

(** C5 fails on the code.  Alice's cart holds three A, of which there are
    five, and she adds three more, naming A by another spelling of its id:
    [findById] casts the string and finds the product, the first stock check
    passes, [findIndex] compares strings and finds no line, a second line of
    three A is pushed and the answer is 200.  The cart holds six A, at
    60.00. *)
Theorem respelled_id_passes_the_stock_check :
  @add_three_respelled Exact /\ @add_three_respelled Binary64.
Proof.
  split; unfold add_three_respelled; cbv zeta; repeat split; try reflexivity; simpl; lia.
Qed.

(** *** Where the specification and the code part ways *)






(** C2 fails as stated: with Alice's cart unsettled and her intent paid, two
    deliveries of [payment_intent.succeeded] leave no order at all. *)
Lemma webhook_deliveries_create_no_order :
  ~ @settled_once_by_webhooks Exact paid_cart 0
  /\ ~ @settled_once_by_webhooks Binary64 paid_cart 0.
Proof. split; intros H; vm_compute in H; discriminate. Qed.

Example webhook_leaves_cart_and_stock :
  let w : @World Binary64 := snd (serve [POST_payment_webhook (succeeded 0)] paid_cart) in
  orders w = [] /\ products w !! 2%nat = Some product_B
  /\ length (carts w) = 1%nat.
Proof. cbv zeta. repeat split; reflexivity. Qed.

(** C3 fails as stated: one unit in stock, two orders of one unit each whose
    calls interleave so that both read the stock before either writes.  Both
    are answered 201, two units are on order, and the stock is 0. *)
Lemma two_orders_for_the_last_unit :
  ~ @never_oversold Exact last_unit two_orders both_read_then_write
  /\ ~ @never_oversold Binary64 last_unit two_orders both_read_then_write.
Proof.
  split; intros H.
  - specialize (H 1%nat (mkProduct 1 "Product A" (num_of_Z 10) 1 []) eq_refl).
    vm_compute in H. apply H. reflexivity.
  - specialize (H 1%nat (mkProduct 1 "Product A" (num_of_Z 10) 1 []) eq_refl).
    vm_compute in H. apply H. reflexivity.
Qed.

Example two_orders_both_answered_201 :
  let out := @run_sched Binary64 both_read_then_write (map handle two_orders) last_unit in
  (exists o1 o2, fst out = [Ret (res_json 201 (OrderData o1)); Ret (res_json 201 (OrderData o2))]
                 /\ orders (snd out) = [o1; o2])
  /\ units_ordered 1 (orders (snd out)) = 2
  /\ products (snd out) !! 1%nat = Some (mkProduct 1 "Product A" (num_of_Z 10) 0 []).
Proof. cbv zeta. split; [eexists _, _; split; reflexivity|split; reflexivity]. Qed.

(** C7 fails as stated: [createOrder] stores an order declared with items
    10.00, tax 1.00, shipping 5.00 and total 1.00. *)
Lemma declared_total_is_stored_unchecked :
  ~ Forall (@balanced Exact) (orders (snd (run (createOrder alice lopsided) shop)))
  /\ ~ Forall (@balanced Binary64) (orders (snd (run (createOrder alice lopsided) shop))).
Proof.
  split; intros H; pose proof (Forall_lookup_1 _ _ 0%nat _ H eq_refl) as Hbalanced;
    unfold balanced in Hbalanced; simpl in Hbalanced.
  - vm_compute in Hbalanced. discriminate.
  - revert Hbalanced. apply float_neq. vm_compute. discriminate.
Qed.

(** C9 fails as stated: order 100 is marked paid at time 1000 and again, with
    the same payment result, one millisecond later; [paidAt] has moved. *)
Lemma second_markPaid_moves_paidAt :
  ~ @second_markPaid_is_noop Exact one_order 100 receipt 1
  /\ ~ @second_markPaid_is_noop Binary64 one_order 100 receipt 1.
Proof.
  split; intros H; apply (f_equal (map o_paidAt)) in H; vm_compute in H; discriminate.
Qed.

(** ** The theorems at work on the scenarios *)

(** The scenarios are run in the engine's arithmetic. *)
#[local] Existing Instance Binary64.


(** The two orders for the last unit: oversold, and the stock is 0. *)
Lemma stock_never_negative_witness :
  @stock_nonneg Binary64 last_unit
  /\ @stock_nonneg Binary64
       (snd (run_sched both_read_then_write (map handle two_orders) last_unit)).
Proof.
  assert (H : @stock_nonneg Binary64 last_unit).
  { apply map_Forall_insert_2; [simpl; lia|apply map_Forall_empty]. }
  split; [exact H|].
  exact (stock_never_negative last_unit two_orders both_read_then_write H).
Defined.

(** The shop's product B is such a product. *)
Lemma intent_for_two_B_is_5850_witness :
  (products (@shop Binary64) !! 2%nat = Some product_B
   /\ p_price (@product_B Binary64) = num_of_Z 25
   /\ 2 <= p_stock (@product_B Binary64))
  /\ run (createPaymentIntent alice [line 2 2] (Some (num_of_Z 5)) None) (@shop Binary64)
     = run (charge alice (quote (50%float : @num Binary64) (Some (num_of_Z 5))) None) shop.
Proof.
  assert (Hfound : products (@shop Binary64) !! 2%nat = Some product_B)
    by reflexivity.
  assert (Hprice : p_price (@product_B Binary64) = num_of_Z 25) by reflexivity.
  assert (Hstock : 2 <= p_stock (@product_B Binary64)) by (simpl; lia).
  split; [repeat split; assumption|].
  exact (proj1 (proj1 (proj2 intent_for_two_B_is_5850) shop alice 2%nat product_B ""
                  (num_of_Z 0) "" None Hfound Hprice Hstock)).
Defined.

(** Three A in the cart, three more asked for, five in stock. *)
Lemma addToCart_beyond_stock_is_refused_witness :
  (products (@alice_has_three_A Binary64) !! 1%nat = Some product_A
   /\ p_stock (@product_A Binary64) < quantity_in_cart (@alice_has_three_A Binary64) alice 1 + 3)
  /\ insufficient_stock (fst (run (addToCart alice (toString 1) (Number 3)) (@alice_has_three_A Binary64)))
  /\ snd (run (addToCart alice (toString 1) (Number 3)) (@alice_has_three_A Binary64)) = alice_has_three_A.
Proof.
  assert (Hfound : products (@alice_has_three_A Binary64) !! 1%nat = Some product_A)
    by reflexivity.
  assert (Hover : p_stock (@product_A Binary64) < quantity_in_cart (@alice_has_three_A Binary64) alice 1 + 3)
    by (vm_compute; reflexivity).
  split; [split; assumption|].
  exact (proj1 addToCart_beyond_stock_is_refused Binary64 alice_has_three_A alice 1%nat 3
           product_A Hfound Hover).
Defined.

(** One A and three B against a stock of two B. *)
Lemma createOrder_all_or_nothing_witness :
  Exists (unavailable (@shop Binary64)) (b_orderItems one_line_short)
  /\ refused (fst (run (createOrder alice one_line_short) (@shop Binary64)))
  /\ snd (run (createOrder alice one_line_short) (@shop Binary64)) = shop.
Proof.
  assert (H : Exists (unavailable (@shop Binary64)) (b_orderItems one_line_short)).
  { apply Exists_cons_tl, Exists_cons_hd. reflexivity. }
  split; [exact H|].
  exact (createOrder_all_or_nothing shop alice one_line_short H).
Defined.

(** A session of every cart mutation, and the first add to an empty cart. *)
Lemma cart_total_is_sum_of_lines_witness :
  (carts_consistent alice_has_three_A
   /\ carts_consistent (snd (serve cart_session alice_has_three_A)))
  /\ (cart_mutation (POST_cart alice (toString 1) (Number 3))
      /\ c_totalPrice (mkCart 100 alice [mkCartItem 101 1 3 (num_of_Z 10)] (num_of_Z 30))
         = cart_total [mkCartItem 101 1 3 (num_of_Z 10)]).
Proof.
  assert (H : carts_consistent alice_has_three_A) by (repeat constructor).
  split.
  - split; [exact H|].
    exact (proj2 cart_total_is_sum_of_lines alice_has_three_A cart_session H).
  - split; [exact I|].
    exact (proj1 (proj1 cart_total_is_sum_of_lines shop (POST_cart alice (toString 1) (Number 3))
                    (mkCart 100 alice [mkCartItem 101 1 3 (num_of_Z 10)] (num_of_Z 30))
                    [Some product_A] I eq_refl)).
Defined.

(** A line sent at 25.00 and the same line sent at 1.00. *)
Lemma client_prices_are_ignored_witness :
  map product_and_quantity [@honest_line Binary64] = map product_and_quantity [forged_line]
  /\ run (createPaymentIntent alice [honest_line] (Some (num_of_Z 5)) None) (@shop Binary64)
     = run (createPaymentIntent alice [forged_line] (Some (num_of_Z 5)) None) shop.
Proof.
  assert (H : map product_and_quantity [@honest_line Binary64]
              = map product_and_quantity [forged_line]) by reflexivity.
  split; [exact H|].
  exact (client_prices_are_ignored shop alice [honest_line] [forged_line]
           (Some (num_of_Z 5)) None H).
Defined.

(** An order declared with 10 + 1 + 5 = 16 is stored balanced. *)
Lemma order_total_by_origin_witness :
  exists o,
    orders (snd (run (createOrder alice one_unit) (@shop Binary64))) = orders shop ++ [o]
    /\ balanced o.
Proof.
  destruct (proj2 (@order_total_by_origin Binary64) shop alice one_unit)
    as [Hsame|[o [Hmore Hiff]]].
  - apply (f_equal length) in Hsame. vm_compute in Hsame. discriminate.
  - exists o. split; [exact Hmore|]. apply Hiff. reflexivity.
Defined.

(** Alice's paid cart settled, then two deliveries of the event. *)
Lemma webhook_settles_nothing_witness :
  exists o,
    orders (snd (run (processPayment alice "alice@example.com" 0 "address")
                   (@paid_cart Binary64)))
    = orders paid_cart ++ [o]
    /\ snd (serve [POST_payment_process_payment alice "alice@example.com" 0 "address";
                   POST_payment_webhook (succeeded 0); POST_payment_webhook (succeeded 0)]
              (@paid_cart Binary64))
       = snd (run (processPayment alice "alice@example.com" 0 "address") paid_cart).
Proof.
  edestruct (proj2 (proj2 (proj2 (@webhook_settles_nothing Binary64))) paid_cart alice
               "alice@example.com" 0%nat "address") as [o [_ [_ Hmore]]]; [reflexivity|].
  exists o. split; [exact Hmore|].
  exact (proj1 (proj2 (proj2 (@webhook_settles_nothing Binary64))) paid_cart alice
           "alice@example.com" 0%nat "address" [succeeded 0; succeeded 0]).
Defined.


(** *** The further properties at an input *)

(** Alice adds to her cart while Bob looks at his. *)
Lemma cart_requests_touch_only_carts_witness :
  Forall cart_request [POST_cart alice (toString 1) (Number 2); GET_cart bob]
  /\ products (snd (run_sched [0; 1; 0; 1; 0; 1]%nat
                      (map handle [POST_cart alice (toString 1) (Number 2); GET_cart bob]) (@shop Binary64)))
     = products shop.
Proof.
  assert (H : Forall (@cart_request Binary64) [POST_cart alice (toString 1) (Number 2); GET_cart bob])
    by (repeat constructor).
  split; [exact H|].
  exact (proj1 (cart_requests_touch_only_carts shop _ [0; 1; 0; 1; 0; 1]%nat H)).
Defined.

(** Three more A than the stock allows. *)
Lemma refusal_changes_nothing_witness :
  fst (run (handle (POST_cart alice (toString 1) (Number 3))) (@alice_has_three_A Binary64))
  = next (ErrorResponse (Cannot_add_more_than_available_stock 5) 400)
  /\ snd (run (handle (POST_cart alice (toString 1) (Number 3))) (@alice_has_three_A Binary64)) = alice_has_three_A.
Proof.
  assert (H : fst (run (handle (POST_cart alice (toString 1) (Number 3))) (@alice_has_three_A Binary64))
              = next (ErrorResponse (Cannot_add_more_than_available_stock 5) 400))
    by reflexivity.
  split; [exact H|].
  exact (refusal_changes_nothing alice_has_three_A (POST_cart alice (toString 1) (Number 3)) _ _ H).
Defined.

(** Alice orders one A from the shop. *)
Lemma createOrder_takes_what_it_orders_witness :
  (products_wf (@shop Binary64)
   /\ fst (run (createOrder alice one_unit) (@shop Binary64)) = res_json 201 (OrderData order_100))
  /\ exists o,
       orders (snd (run (createOrder alice one_unit) (@shop Binary64))) = orders shop ++ [o]
       /\ products (snd (run (createOrder alice one_unit) (@shop Binary64))) !! 1%nat
          = take (units_ordered 1 [o]) <$> products shop !! 1%nat.
Proof.
  assert (Hwf : products_wf (@shop Binary64)) by exact shop_products_wf.
  assert (Hres : fst (run (createOrder alice one_unit) (@shop Binary64))
                 = res_json 201 (OrderData order_100)) by reflexivity.
  split; [split; assumption|].
  destruct (createOrder_takes_what_it_orders shop alice one_unit _ _ Hwf Hres)
    as [o [_ [_ [_ [Horders [_ [_ Hstock]]]]]]].
  exists o. split; [exact Horders|exact (Hstock 1%nat)].
Defined.

(** Two lines of one unit each against a stock of one. *)
Lemma createOrder_short_stock_leaves_order_witness :
  fst (run (createOrder alice one_unit_twice) (@last_unit Binary64))
  = next (ValidationError "Stock cannot be negative")
  /\ exists o,
       orders (snd (run (createOrder alice one_unit_twice) (@last_unit Binary64)))
       = orders last_unit ++ [o]
       /\ o_isPaid o = false.
Proof.
  assert (Hres : fst (run (createOrder alice one_unit_twice) (@last_unit Binary64))
                 = next (ValidationError "Stock cannot be negative")) by reflexivity.
  split; [exact Hres|].
  destruct (createOrder_short_stock_leaves_order last_unit alice one_unit_twice Hres)
    as [o [Horders [_ [_ Hpaid]]]].
  exists o. split; assumption.
Defined.

(** Alice's paid cart of two B is settled. *)
Lemma processPayment_settles_witness :
  (products_wf (@paid_cart Binary64)
   /\ fst (run (processPayment alice "alice@example.com" 0 "address") (@paid_cart Binary64))
      = res_json 201 (OrderData alices_order))
  /\ exists o,
       orders (snd (run (processPayment alice "alice@example.com" 0 "address")
                      (@paid_cart Binary64))) = orders paid_cart ++ [o]
       /\ o_isPaid o = true.
Proof.
  assert (Hwf : products_wf (@paid_cart Binary64)) by exact shop_products_wf.
  assert (Hres : fst (run (processPayment alice "alice@example.com" 0 "address")
                        (@paid_cart Binary64))
                 = res_json 201 (OrderData alices_order)) by reflexivity.
  split; [split; assumption|].
  destruct (processPayment_settles paid_cart alice "alice@example.com" 0%nat "address" _ _
              Hwf Hres)
    as [cart [o [_ [_ [_ [Horders [Hpaid _]]]]]]].
  exists o. split; assumption.
Defined.

(** Alice's paid cart of two B, after Bob has ordered one of the two. *)
Lemma processPayment_short_stock_leaves_order_witness :
  fst (run (processPayment alice "alice@example.com" 0 "address") (@paid_cart_short Binary64))
  = next (ValidationError "Stock cannot be negative")
  /\ exists o,
       orders (snd (run (processPayment alice "alice@example.com" 0 "address")
                      (@paid_cart_short Binary64))) = orders paid_cart_short ++ [o]
       /\ o_isPaid o = true.
Proof.
  assert (Hres : fst (run (processPayment alice "alice@example.com" 0 "address")
                        (@paid_cart_short Binary64))
                 = next (ValidationError "Stock cannot be negative")) by reflexivity.
  split; [exact Hres|].
  destruct (processPayment_short_stock_leaves_order paid_cart_short alice "alice@example.com"
              0%nat "address" _ Hres)
    as [o [Horders [Hpaid _]]].
  exists o. split; assumption.
Defined.

(** Two more A into Alice's cart of three, with five in stock. *)
Lemma addToCart_existing_line_witness :
  (products (@alice_has_three_A Binary64) !! 1%nat = Some product_A
   /\ cart_findOne alice (@alice_has_three_A Binary64) = Some cart_of_three_A
   /\ list_find (fun item => ci_product item = 1%nat) (c_items (@cart_of_three_A Binary64))
      = Some (0%nat, three_A)
   /\ ToNumber (Number 2) <= p_stock (@product_A Binary64)
   /\ add_assign (ci_quantity (@three_A Binary64)) (Number 2) <= p_stock (@product_A Binary64)
   /\ 1 <= add_assign (ci_quantity (@three_A Binary64)) (Number 2)
   /\ items_valid (c_items (@cart_of_three_A Binary64)) = true)
  /\ cart_findOne alice
       (snd (run (addToCart alice (toString 1) (Number 2)) (@alice_has_three_A Binary64)))
     = Some (mkCart 100 alice [mkCartItem 101 1 5 (num_of_Z 10)]
               (cart_total [mkCartItem 101 1 5 (num_of_Z 10)])).
Proof.
  assert (Hproduct : products (@alice_has_three_A Binary64) !! 1%nat = Some product_A)
    by reflexivity.
  assert (Hcart : cart_findOne alice (@alice_has_three_A Binary64) = Some cart_of_three_A)
    by reflexivity.
  assert (Hline : list_find (fun item => ci_product item = 1%nat)
                    (c_items (@cart_of_three_A Binary64)) = Some (0%nat, three_A))
    by reflexivity.
  assert (Hasked : ToNumber (Number 2) <= p_stock (@product_A Binary64)) by (simpl; lia).
  assert (Hsum : add_assign (ci_quantity (@three_A Binary64)) (Number 2)
                 <= p_stock (@product_A Binary64))
    by (simpl; lia).
  assert (Hpos : 1 <= add_assign (ci_quantity (@three_A Binary64)) (Number 2))
    by (simpl; lia).
  assert (Hvalid : items_valid (c_items (@cart_of_three_A Binary64)) = true) by reflexivity.
  split; [repeat split; assumption|].
  exact (proj1 (proj2 (addToCart_existing_line alice_has_three_A alice 1%nat (Number 2)
                         product_A cart_of_three_A 0%nat three_A
                         Hproduct Hcart Hline Hasked Hsum Hpos Hvalid))).
Defined.

(** One B into Alice's cart of three A, named in another spelling. *)
Lemma addToCart_new_line_witness :
  (castObjectId (respelled 2) = Some 2%nat
   /\ products (@alice_has_three_A Binary64) !! 2%nat = Some product_B
   /\ cart_findOne alice (@alice_has_three_A Binary64) = Some cart_of_three_A
   /\ list_find (fun item => ci_product item = 2%nat) (c_items (@cart_of_three_A Binary64))
      = None
   /\ 1 <= ToNumber (Number 1) <= p_stock (@product_B Binary64)
   /\ items_valid (c_items (@cart_of_three_A Binary64)) = true)
  /\ cart_findOne alice
       (snd (run (addToCart alice (respelled 2) (Number 1)) (@alice_has_three_A Binary64)))
     = Some (mkCart 100 alice [three_A; mkCartItem 102 2 1 (num_of_Z 25)]
               (cart_total [three_A; mkCartItem 102 2 1 (num_of_Z 25)])).
Proof.
  assert (Hcast : castObjectId (respelled 2) = Some 2%nat) by reflexivity.
  assert (Hproduct : products (@alice_has_three_A Binary64) !! 2%nat = Some product_B)
    by reflexivity.
  assert (Hcart : cart_findOne alice (@alice_has_three_A Binary64) = Some cart_of_three_A)
    by reflexivity.
  assert (Hline : list_find (fun item => ci_product item = 2%nat)
                    (c_items (@cart_of_three_A Binary64)) = None)
    by reflexivity.
  assert (Hasked : 1 <= ToNumber (Number 1) <= p_stock (@product_B Binary64))
    by (simpl; lia).
  assert (Hvalid : items_valid (c_items (@cart_of_three_A Binary64)) = true) by reflexivity.
  split; [repeat split; try assumption; simpl; lia|].
  exact (proj2 (addToCart_new_line alice_has_three_A alice (respelled 2) 2%nat (Number 1)
                  product_B cart_of_three_A Hcast Hproduct Hcart Hline Hasked Hvalid)).
Defined.

(** Alice sets her line of three A to two. *)
Lemma updateCartItem_sets_or_removes_witness :
  (cart_findOne alice (@alice_has_three_A Binary64) = Some cart_of_three_A
   /\ list_find (fun item => ci_id item = 101%nat) (c_items (@cart_of_three_A Binary64))
      = Some (0%nat, three_A)
   /\ products (@alice_has_three_A Binary64) !! ci_product (@three_A Binary64) = Some product_A
   /\ 2 <= p_stock (@product_A Binary64)
   /\ items_valid (c_items (@cart_of_three_A Binary64)) = true)
  /\ cart_findOne alice (snd (run (updateCartItem alice 101 2) (@alice_has_three_A Binary64)))
     = Some (mkCart 100 alice [mkCartItem 101 1 2 (num_of_Z 10)]
               (cart_total [mkCartItem 101 1 2 (num_of_Z 10)])).
Proof.
  assert (Hcart : cart_findOne alice (@alice_has_three_A Binary64) = Some cart_of_three_A)
    by reflexivity.
  assert (Hline : list_find (fun item => ci_id item = 101%nat)
                    (c_items (@cart_of_three_A Binary64)) = Some (0%nat, three_A))
    by reflexivity.
  assert (Hproduct : products (@alice_has_three_A Binary64) !! ci_product (@three_A Binary64)
                     = Some product_A) by reflexivity.
  assert (Hasked : 2 <= p_stock (@product_A Binary64)) by (simpl; lia).
  assert (Hvalid : items_valid (c_items (@cart_of_three_A Binary64)) = true) by reflexivity.
  split; [repeat split; assumption|].
  exact (proj2 (updateCartItem_sets_or_removes alice_has_three_A alice 101%nat 2
                  cart_of_three_A 0%nat three_A product_A
                  Hcart Hline Hproduct Hasked Hvalid)).
Defined.

(** Alice clears her cart of three A. *)
Lemma clearCart_empties_witness :
  cart_findOne alice (@alice_has_three_A Binary64) = Some cart_of_three_A
  /\ cart_findOne alice (snd (run (clearCart alice) (@alice_has_three_A Binary64)))
     = Some (mkCart 100 alice [] (num_of_Z 0)).
Proof.
  assert (Hcart : cart_findOne alice (@alice_has_three_A Binary64) = Some cart_of_three_A)
    by reflexivity.
  split; [exact Hcart|].
  exact (proj2 (clearCart_empties alice_has_three_A alice cart_of_three_A Hcart)).
Defined.

(** One B into Alice's cart of three A, and out again. *)
Lemma add_then_remove_witness :
  (castObjectId (toString 2) = Some 2%nat
   /\ products (@alice_has_three_A Binary64) !! 2%nat = Some product_B
   /\ cart_findOne alice (@alice_has_three_A Binary64) = Some cart_of_three_A
   /\ list_find (fun item => ci_product item = 2%nat) (c_items (@cart_of_three_A Binary64))
      = None
   /\ 1 <= ToNumber (Number 1) <= p_stock (@product_B Binary64)
   /\ items_valid (c_items (@cart_of_three_A Binary64)) = true
   /\ Forall (fun item => ci_id item <> next_oid (@alice_has_three_A Binary64))
        (c_items (@cart_of_three_A Binary64)))
  /\ cart_findOne alice
       (snd (run (removeFromCart alice (next_oid (@alice_has_three_A Binary64)))
               (snd (run (addToCart alice (toString 2) (Number 1))
                       (@alice_has_three_A Binary64)))))
     = Some (mkCart 100 alice [three_A] (cart_total [three_A])).
Proof.
  assert (Hcast : castObjectId (toString 2) = Some 2%nat) by reflexivity.
  assert (Hproduct : products (@alice_has_three_A Binary64) !! 2%nat = Some product_B)
    by reflexivity.
  assert (Hcart : cart_findOne alice (@alice_has_three_A Binary64) = Some cart_of_three_A)
    by reflexivity.
  assert (Hline : list_find (fun item => ci_product item = 2%nat)
                    (c_items (@cart_of_three_A Binary64)) = None)
    by reflexivity.
  assert (Hasked : 1 <= ToNumber (Number 1) <= p_stock (@product_B Binary64))
    by (simpl; lia).
  assert (Hvalid : items_valid (c_items (@cart_of_three_A Binary64)) = true) by reflexivity.
  assert (Hfresh : Forall (fun item => ci_id item <> next_oid (@alice_has_three_A Binary64))
                     (c_items (@cart_of_three_A Binary64)))
    by (repeat constructor; discriminate).
  split; [repeat split; try assumption; simpl; lia|].
  exact (proj2 (add_then_remove alice_has_three_A alice (toString 2) 2%nat (Number 1)
                  product_B cart_of_three_A
                  Hcast Hproduct Hcart Hline Hasked Hvalid Hfresh)).
Defined.

(** Alice sets her line to 0 while she adds a B. *)
Lemma cart_quantities_stay_positive_witness :
  quantities_positive (@alice_has_three_A Binary64)
  /\ quantities_positive
       (snd (run_sched [0; 1; 0; 1; 0; 1; 0; 1]%nat
               (map handle [PUT_cart_item alice 101 0; POST_cart alice (toString 2) (Number 1)])
               (@alice_has_three_A Binary64))).
Proof.
  assert (H : quantities_positive (@alice_has_three_A Binary64)) by (repeat constructor).
  split; [exact H|].
  exact (cart_quantities_stay_positive alice_has_three_A
           [PUT_cart_item alice 101 0; POST_cart alice (toString 2) (Number 1)]
           [0; 1; 0; 1; 0; 1; 0; 1]%nat H).
Defined.

(** A session of every cart mutation, on a cart of three A. *)
Lemma one_line_per_product_kept_witness :
  (Forall plainly_spelled (@cart_session Binary64)
   /\ one_line_per_product (@alice_has_three_A Binary64))
  /\ one_line_per_product (snd (serve cart_session (@alice_has_three_A Binary64))).
Proof.
  assert (Hplain : Forall plainly_spelled (@cart_session Binary64))
    by (repeat constructor).
  assert (H : one_line_per_product (@alice_has_three_A Binary64)).
  { repeat constructor. simpl. intros Hin. inversion Hin. }
  split; [split; assumption|].
  exact (one_line_per_product_kept alice_has_three_A cart_session Hplain H).
Defined.

(** Order 100 is marked delivered. *)
Lemma updates_keep_order_terms_witness :
  order_findById 100 (@one_order Binary64) = Some order_100
  /\ exists order',
       order_findById 100 (snd (run (apply_update (PUT_deliver 100)) (@one_order Binary64)))
       = Some order'
       /\ order_terms order' = order_terms (@order_100 Binary64).
Proof.
  assert (H : order_findById 100 (@one_order Binary64) = Some order_100) by reflexivity.
  split; [exact H|].
  destruct (updates_keep_order_terms one_order (PUT_deliver 100) 100%nat order_100 H)
    as [order' [Hfound [Hterms _]]].
  exists order'. split; assumption.
Defined.

(** Order 100 is set to "delivered". *)
Lemma status_delivered_is_deliver_witness :
  order_findById 100 (@one_order Binary64) = Some order_100
  /\ exists order',
       order_findById 100 (snd (run (updateOrderStatus 100 "delivered") (@one_order Binary64)))
       = Some order'
       /\ o_isDelivered order' = true
       /\ o_deliveredAt order' = Some (clock (@one_order Binary64))
       /\ o_status order' = "delivered".
Proof.
  assert (H : order_findById 100 (@one_order Binary64) = Some order_100) by reflexivity.
  split; [exact H|].
  destruct (proj1 (proj2 (status_delivered_is_deliver one_order 100%nat)) order_100 H)
    as [order' [_ [Hstored [Hflag [Hat [Hstatus _]]]]]].
  exists order'. repeat split; assumption.
Defined.

(** Order 100 is set to "shipped". *)
Lemma status_change_keeps_delivery_flags_witness :
  (order_findById 100 (@one_order Binary64) = Some order_100 /\ "shipped" <> "delivered")
  /\ exists order',
       order_findById 100 (snd (run (updateOrderStatus 100 "shipped") (@one_order Binary64)))
       = Some order'
       /\ o_status order' = "shipped"
       /\ o_isDelivered order' = false.
Proof.
  assert (H : order_findById 100 (@one_order Binary64) = Some order_100) by reflexivity.
  assert (Hstatus : "shipped" <> "delivered") by discriminate.
  split; [split; assumption|].
  destruct (status_change_keeps_delivery_flags one_order 100%nat "shipped" order_100 H Hstatus)
    as [order' [Hfound [Hset [Hflag _]]]].
  exists order'. repeat split; assumption.
Defined.

(** Bob, an admin, reads Alice's order. *)
Lemma getOrderById_owner_or_admin_witness :
  getOrderById members bob_admin 100 (@one_order Binary64)
  = reply_order 200 order_100 alice_user
  /\ (u_id alice_user = u_id bob_admin \/ u_role bob_admin = "admin").
Proof.
  assert (H : getOrderById members bob_admin 100 (@one_order Binary64)
              = reply_order 200 order_100 alice_user) by reflexivity.
  split; [exact H|].
  exact (proj2 (proj2 (getOrderById_owner_or_admin members bob_admin 100%nat one_order
                         200%nat order_100 alice_user H))).
Defined.

(** Alice reads her order. *)
Lemma getOrderById_owner_reads_witness :
  (order_findById 100 (@one_order Binary64) = Some order_100
   /\ members !! o_user (@order_100 Binary64) = Some alice_user)
  /\ getOrderById members alice_user 100 (@one_order Binary64)
     = reply_order 200 order_100 alice_user.
Proof.
  assert (H : order_findById 100 (@one_order Binary64) = Some order_100) by reflexivity.
  assert (Howner : members !! o_user (@order_100 Binary64) = Some alice_user) by reflexivity.
  split; [split; assumption|].
  exact (getOrderById_owner_reads members alice_user 100%nat one_order order_100 H Howner).
Defined.

(** Order 100 when no account is left. *)
Lemma orphaned_order_is_listed_not_opened_witness :
  (order_findById 100 (@one_order Binary64) = Some order_100
   /\ (∅ : gmap nat User) !! o_user (@order_100 Binary64) = None)
  /\ getOrderById ∅ bob_admin 100 (@one_order Binary64) = reply_next TypeError.
Proof.
  assert (H : order_findById 100 (@one_order Binary64) = Some order_100) by reflexivity.
  assert (Hgone : (∅ : gmap nat User) !! o_user (@order_100 Binary64) = None) by reflexivity.
  split; [split; assumption|].
  exact (proj1 (orphaned_order_is_listed_not_opened ∅ bob_admin 100%nat one_order order_100
                  H Hgone)).
Defined.

(** Order 100 is deleted. *)
Lemma deleteOrder_removes_witness :
  order_findById 100 (@one_order Binary64) = Some order_100
  /\ order_findById 100 (snd (deleteOrder 100 (@one_order Binary64))) = None
  /\ products (snd (deleteOrder 100 (@one_order Binary64))) = products one_order.
Proof.
  assert (H : order_findById 100 (@one_order Binary64) = Some order_100) by reflexivity.
  split; [exact H|].
  destruct (deleteOrder_removes 100%nat one_order order_100 H)
    as [_ [Hgone [_ [Hproducts _]]]].
  split; assumption.
Defined.

(** Alice's paid cart is settled; she had no order before. *)
Lemma settled_order_is_listed_witness :
  (fst (run (processPayment alice "alice@example.com" 0 "address") (@paid_cart Binary64))
   = res_json 201 (OrderData alices_order)
   /\ getMyOrders alice_user (@paid_cart Binary64) = reply_orders 200 0 [])
  /\ getMyOrders alice_user
       (snd (run (processPayment alice "alice@example.com" 0 "address") (@paid_cart Binary64)))
     = reply_orders 200 1 [alices_order]
  /\ getMyOrders bob_admin
       (snd (run (processPayment alice "alice@example.com" 0 "address") (@paid_cart Binary64)))
     = reply_orders 200 0 [].
Proof.
  assert (Hres : fst (run (processPayment alice "alice@example.com" 0 "address")
                        (@paid_cart Binary64))
                 = res_json 201 (OrderData alices_order)) by reflexivity.
  assert (Hmine : getMyOrders alice_user (@paid_cart Binary64) = reply_orders 200 0 [])
    by reflexivity.
  assert (Hbobs : getMyOrders bob_admin (@paid_cart Binary64) = reply_orders 200 0 [])
    by reflexivity.
  split; [split; assumption|]. split.
  - exact (settled_order_is_listed paid_cart alice "alice@example.com" 0%nat "address"
             alices_order alice_user Hres [] Hmine).
  - exact (settled_order_is_listed paid_cart alice "alice@example.com" 0%nat "address"
             alices_order bob_admin Hres [] Hbobs).
Defined.

(** Alice orders one A, and the order is deleted: four A are left. *)
Lemma deleted_order_is_not_restocked_witness :
  (products_wf (@shop Binary64)
   /\ fst (run (createOrder alice one_unit) (@shop Binary64)) = res_json 201 (OrderData order_100))
  /\ order_findById 100
       (snd (deleteOrder 100 (snd (run (createOrder alice one_unit) (@shop Binary64))))) = None
  /\ p_stock <$> products
       (snd (deleteOrder 100 (snd (run (createOrder alice one_unit) (@shop Binary64))))) !! 1%nat
     = Some 4.
Proof.
  assert (Hwf : products_wf (@shop Binary64)) by exact shop_products_wf.
  assert (Hres : fst (run (createOrder alice one_unit) (@shop Binary64))
                 = res_json 201 (OrderData order_100)) by reflexivity.
  split; [split; assumption|].
  destruct (deleted_order_is_not_restocked shop alice one_unit order_100 Hwf Hres)
    as [_ [Hgone Hstock]].
  split; [exact Hgone|].
  change (o_id (@order_100 Binary64)) with 100%nat in Hstock.
  rewrite (Hstock 1%nat). reflexivity.
Defined.


(** The gateway holds intent 0 for 1, for Bob: Alice's cart is settled all
    the same. *)
Lemma processPayment_reads_only_status_witness :
  gateway_view another_intent = gateway_view (intents (@paid_cart Binary64))
  /\ fst (run (processPayment alice "alice@example.com" 0 "address")
            (with_intents (@paid_cart Binary64) another_intent))
     = fst (run (processPayment alice "alice@example.com" 0 "address") paid_cart).
Proof.
  assert (H : gateway_view another_intent = gateway_view (intents (@paid_cart Binary64)))
    by reflexivity.
  split; [exact H|].
  exact (f_equal fst (processPayment_reads_only_status paid_cart another_intent alice
                        "alice@example.com" 0%nat "address" H)).
Defined.

(** Product B is gone from the catalog while Alice's paid cart holds two. *)
Lemma processPayment_gone_product_witness :
  (stripe_retrieve 0 (@paid_cart_gone Binary64)
   = Some (mkPaymentIntent 0 0 (5850)%float "usd" "card" "succeeded" alice 1000)
   /\ cart_findOne alice (@paid_cart_gone Binary64) = Some alices_cart
   /\ In (mkCartItem 101 2 2 (num_of_Z 25)) (c_items (@alices_cart Binary64))
   /\ products (@paid_cart_gone Binary64) !! 2%nat = None)
  /\ run (processPayment alice "alice@example.com" 0 "address") (@paid_cart_gone Binary64)
     = (next TypeError, paid_cart_gone).
Proof.
  assert (Hintent : stripe_retrieve 0 (@paid_cart_gone Binary64)
                    = Some (mkPaymentIntent 0 0 (5850)%float "usd" "card" "succeeded"
                              alice 1000)) by reflexivity.
  assert (Hcart : cart_findOne alice (@paid_cart_gone Binary64) = Some alices_cart)
    by reflexivity.
  assert (Hin : In (mkCartItem 101 2 2 (num_of_Z 25)) (c_items (@alices_cart Binary64)))
    by (left; reflexivity).
  assert (Hgone : products (@paid_cart_gone Binary64) !! 2%nat = None) by reflexivity.
  split; [repeat split; assumption|].
  exact (processPayment_gone_product paid_cart_gone alice "alice@example.com" 0%nat "address"
           _ alices_cart _ Hintent eq_refl Hcart Hin Hgone).
Defined.


(** The second page of five products, two to a page. *)
Lemma page_links_are_exact_witness :
  (1 <= 2 /\ 1 <= 2)
  /\ exists p,
       getProducts_page [1; 2; 3; 4; 5]%nat (Some 2) (Some 2) = Some p
       /\ pg_next p = Some (mkPageLink 3 2)
       /\ pg_prev p = Some (mkPageLink 1 2).
Proof.
  assert (H : 1 <= 2) by lia.
  split; [split; exact H|].
  destruct (page_links_are_exact [1; 2; 3; 4; 5]%nat 2 2 H H)
    as [p [p' [Hpage [Hnext_page [_ [_ [Hnext Hprev]]]]]]].
  exists p. split; [exact Hpage|].
  injection Hnext_page as <-. rewrite Hnext, Hprev.
  split; reflexivity.
Defined.
